(** * The RAG query pipeline of backend/main.py, embedded in Rocq

    The development follows the Python module function by function:
    [get_token_count], [get_embedding], [mmr_diversify], [rerank_documents],
    [generate_answer] and the [/query] route [query_documents]; the
    ingestion side ([extract_text_from_pdf], [chunk_text], the [/upload]
    route [upload_document] and the service routes) has a part of its own.

    Python values are modelled as follows.
    - [int] is [Z] (unbounded), [//] is [Z.div] (both round to minus
      infinity for a positive divisor), [len] is a natural number cast to [Z].
    - [str] is [string], one [ascii] per character.
    - [float] is kept abstract behind the interface [FloatOps]: the pipeline
      only moves floats around, subtracts clock readings, multiplies prices
      and rounds; no theorem below depends on how a float operation rounds.
    - a [dict] used as a map is a [gmap]; the [timing] dict, whose values
      are summed in insertion order, is an association list.
    - exceptions are values of [exn]; every function that can raise returns
      in the monad [M], which threads the world (the clock and the log of
      calls made to the outside) and either a value or the raised exception.
    - the external services (tokenizer, OpenAI, Pinecone, Cohere) and the
      clock are the fields of an environment [Env]. *)

From Stdlib Require Import ZArith QArith Qround String Ascii List Lia.
From stdpp Require Import base numbers option list strings gmap fin_maps pretty.

Local Open Scope Z_scope.

(** ** Floats *)

Class FloatOps := {
  float : Type;
  (** [fdec m e] is the float written as the decimal literal [m * 10^e] *)
  fdec : Z → Z → float;
  fadd : float → float → float;
  fsub : float → float → float;
  fmul : float → float → float;
  fdiv : float → float → float;
  (** [fround x n] is Python's [round(x, n)] *)
  fround : float → Z → float
}.

(** Conversion of an [int] operand of a float operation. *)
Definition float_of_int `{FloatOps} (z : Z) : float := fdec z 0.

(** ** Exceptions *)

Inductive exn :=
| RateLimitError (msg : string)          (* openai.RateLimitError *)
| APIError (msg : string)                (* any other openai.APIError *)
| HTTPException (status_code : Z) (detail : string)
| KeyError (msg : string)
| IndexError (msg : string)
| Exception (msg : string).              (* any other subclass of Exception *)

Definition str_exn (e : exn) : string :=
  match e with
  | RateLimitError m | APIError m | KeyError m | IndexError m | Exception m => m
  | HTTPException _ d => d
  end.

Definition is_HTTPException (e : exn) : bool :=
  match e with HTTPException _ _ => true | _ => false end.

Inductive Result (A : Type) :=
| Ok (a : A)
| Raise (e : exn).
Arguments Ok {A} a.
Arguments Raise {A} e.

(** ** Strings *)

Module Py.

(** [len(s)] *)
Definition len (s : string) : Z := Z.of_nat (String.length s).

(** Characters for which [str.isspace] holds, among the first 256. *)
Definition isspace (c : ascii) : bool :=
  let n := nat_of_ascii c in
  ((9 <=? n) && (n <=? 13) || (28 <=? n) && (n <=? 32)
   || (n =? 133) || (n =? 160))%nat.

Fixpoint lstrip (s : string) : string :=
  match s with
  | EmptyString => EmptyString
  | String c s' => if isspace c then lstrip s' else s
  end.

Definition rstrip (s : string) : string := String.rev (lstrip (String.rev s)).

(** [s.strip()] *)
Definition strip (s : string) : string := rstrip (lstrip s).

(** [s[:n]] for a literal [n >= 0] *)
Definition prefix (n : nat) (s : string) : string := String.substring 0 n s.

(** [sep.join(l)] *)
Fixpoint join (sep : string) (l : list string) : string :=
  match l with
  | [] => ""
  | [s] => s
  | s :: l' => s +:+ sep +:+ join sep l'
  end.

(** [l[:n]] on a list, for any [int] [n]: a negative [n] counts from the
    end, and both ends are clamped. *)
Definition slice_to {A} (l : list A) (n : Z) : list A :=
  if 0 <=? n then take (Z.to_nat n) l
  else take (Z.to_nat (Z.of_nat (length l) + n)) l.

(** [l[i]] on a list, for any [int] [i]: the position read, or [None]
    where Python raises IndexError. *)
Definition norm_index {A} (l : list A) (i : Z) : option nat :=
  let n := Z.of_nat (length l) in
  if (0 <=? i) && (i <? n) then Some (Z.to_nat i)
  else if (- n <=? i) && (i <? 0) then Some (Z.to_nat (n + i))
  else None.

End Py.

Definition nl : string := String (ascii_of_nat 10) EmptyString.

(** ** Data *)

Section Pipeline.

Context `{FO : FloatOps}.

(** A retrieved chunk as [query_documents] builds it: the dict
    [{"text", "metadata", "score"}], to which [rerank_documents] may add
    ["rerank_score"]. *)
Record Candidate := {
  text : string;
  metadata : gmap string string;
  score : option float;
  rerank_score : option float
}.

(** An entry of the [sources] list of an answer. *)
Record Source := {
  id : Z;
  preview : string;
  src_metadata : gmap string string;
  src_score : float
}.

(** A match returned by the vector index. *)
Record Match := {
  match_score : float;
  match_metadata : gmap string string
}.

(** An entry of the rerank service's [results]. *)
Record RerankResult := {
  r_index : Z;
  relevance_score : float
}.

Record Usage := {
  prompt_tokens : Z;
  completion_tokens : Z;
  usage_total_tokens : Z
}.

(** A chat completion: the message contents of its [choices], and [usage]. *)
Record ChatCompletion := {
  choices : list string;
  usage : Usage
}.

(** ** The outside world *)

Inductive Event :=
| EmbeddingsCreate (model input : string)
| IndexQuery (vector : list float) (top_k : Z)
| CohereRerank (model query : string) (documents : list string) (top_n : Z)
| ChatCompletionsCreate (model system user : string)
| Printed (line : string).

Record Env := {
  (** the successive readings of [time.time()] *)
  clock : nat → float;
  (** [tiktoken.get_encoding(name)], giving the [encode] method *)
  tiktoken_get_encoding : string → Result (string → Result (list Z));
  (** [openai_client.embeddings.create(model, input)]: the embeddings of
      [response.data] *)
  embeddings_create : string → string → Result (list (list float));
  (** [index.query(vector, top_k, include_metadata=True)]: [results.matches] *)
  index_query : list float → Z → Result (list Match);
  (** [cohere_client.rerank(model, query, documents, top_n)]: [rerank.results] *)
  cohere_rerank : string → string → list string → Z → Result (list RerankResult);
  (** [openai_client.chat.completions.create(model, messages, temperature,
      max_tokens)] with a system and a user message *)
  chat_completions_create :
    string → string → string → float → Z → Result ChatCompletion
}.

Record World := {
  ticks : nat;          (* how many times the clock has been read *)
  log : list Event      (* the calls made so far, oldest first *)
}.

Definition M (A : Type) : Type := World → Result A * World.

Definition ret {A} (a : A) : M A := λ w, (Ok a, w).

Definition bind {A B} (m : M A) (f : A → M B) : M B :=
  λ w, match m w with
       | (Ok a, w') => f a w'
       | (Raise e, w') => (Raise e, w')
       end.

Definition raise {A} (e : exn) : M A := λ w, (Raise e, w).

(** [try: body / except Exception as e: handler e] *)
Definition try_except {A} (body : M A) (handler : exn → M A) : M A :=
  λ w, match body w with
       | (Ok a, w') => (Ok a, w')
       | (Raise e, w') => handler e w'
       end.

(** An external call: the request is logged, the answer is the service's. *)
Definition call {A} (ev : Event) (answer : Result A) : M A :=
  λ w, (answer, {| ticks := ticks w; log := log w ++ [ev] |}).

Definition print (line : string) : M unit := call (Printed line) (Ok ()).

Notation "x <- m ;; k" := (bind m (λ x, k))
  (at level 100, m at next level, right associativity, only parsing).
Notation "m ;;; k" := (bind m (λ _, k))
  (at level 100, right associativity, only parsing).

Variable env : Env.

Definition time_time : M float :=
  λ w, (Ok (clock env (ticks w)), {| ticks := S (ticks w); log := log w |}).

(** ** Configuration *)

Definition MAX_CONTEXT_TOKENS : Z := 6000.

Definition PRICING_embedding : float := fdec 2 (-5).
Definition PRICING_gpt4_input : float := fdec 1 (-2).
Definition PRICING_gpt4_output : float := fdec 3 (-2).
Definition PRICING_rerank_per_search : float := fdec 2 (-3).

(** ** Helpers *)

(** [get_token_count]: both tokenizer calls sit in the [try]; whatever they
    raise, the handler returns [len(text) // 4]. *)
Definition get_token_count (text : string) : M Z :=
  try_except
    (λ w, match tiktoken_get_encoding env "cl100k_base" with
          | Ok encode =>
              match encode text with
              | Ok tokens => (Ok (Z.of_nat (length tokens)), w)
              | Raise e => (Raise e, w)
              end
          | Raise e => (Raise e, w)
          end)
    (λ _, ret (Py.len text / 4)).

(** [get_embedding] *)
Definition get_embedding (text : string) : M (list float) :=
  try_except
    (data <- call (EmbeddingsCreate "text-embedding-3-small" text)
                  (embeddings_create env "text-embedding-3-small" text);;
     (* response.data[0].embedding *)
     match data with
     | embedding :: _ => ret embedding
     | [] => raise (IndexError "list index out of range")
     end)
    (λ e, match e with
          | RateLimitError _ =>
              raise (HTTPException 429
                       "OpenAI rate limit exceeded. Please try again later.")
          | APIError _ =>
              raise (HTTPException 503 ("OpenAI API error: " +:+ str_exn e))
          | _ =>
              raise (HTTPException 500
                       ("Embedding generation failed: " +:+ str_exn e))
          end).

(** ** mmr_diversify *)

(** [doc["metadata"].get("document_id", "unknown")] *)
Definition document_id (doc : Candidate) : string :=
  default "unknown" (metadata doc !! "document_id").

(** [seen.setdefault(k, v)] *)
Definition setdefault (k : string) (v : Z) (seen : gmap string Z) : gmap string Z :=
  match seen !! k with
  | Some _ => seen
  | None => <[k := v]> seen
  end.

(** [seen[k]], a KeyError when [k] is absent *)
Definition getitem (seen : gmap string Z) (k : string) : M Z :=
  match seen !! k with
  | Some v => ret v
  | None => raise (KeyError k)
  end.

Fixpoint mmr_loop (docs : list Candidate) (max_per_doc : Z)
    (seen : gmap string Z) (diversified : list Candidate) : M (list Candidate) :=
  match docs with
  | [] => ret diversified
  | doc :: rest =>
      let doc_id := document_id doc in
      let seen := setdefault doc_id 0 seen in
      n <- getitem seen doc_id;;
      if n <? max_per_doc then
        (* diversified.append(doc); seen[doc_id] += 1 *)
        m <- getitem seen doc_id;;
        mmr_loop rest max_per_doc (<[doc_id := m + 1]> seen) (diversified ++ [doc])
      else
        mmr_loop rest max_per_doc seen diversified
  end.

(** [mmr_diversify(docs, max_per_doc)]; the parameter defaults to 2. *)
Definition mmr_diversify (docs : list Candidate) (max_per_doc : Z) : M (list Candidate) :=
  mmr_loop docs max_per_doc ∅ [].

(** ** rerank_documents *)

Definition set_rerank_score (s : float) (doc : Candidate) : Candidate :=
  {| text := text doc; metadata := metadata doc; score := score doc;
     rerank_score := Some s |}.

(** The loop over [rerank.results]. The candidates are dicts shared between
    [docs] and [results], so [docs] is the store, written in place, and
    [results] holds positions in it. The store is returned also when
    [docs[r.index]] raises, since the handler then slices the written list. *)
Fixpoint rerank_collect (rs : list RerankResult) (docs : list Candidate)
    (results : list nat) : list Candidate * Result (list nat) :=
  match rs with
  | [] => (docs, Ok results)
  | r :: rs' =>
      match Py.norm_index docs (r_index r) with
      | None => (docs, Raise (IndexError "list index out of range"))
      | Some i =>
          rerank_collect rs'
            (alter (set_rerank_score (relevance_score r)) i docs)
            (results ++ [i])
      end
  end.

(** The candidates the positions of [results] point to. *)
Definition deref (docs : list Candidate) (results : list nat) : list Candidate :=
  omap (λ i, docs !! i) results.

Definition rerank_failed (docs : list Candidate) (top_n : Z) (e : exn) : M (list Candidate) :=
  print ("Reranking failed: " +:+ str_exn e +:+ ", returning original order");;;
  ret (Py.slice_to docs top_n).

Definition rerank_documents (query : string) (docs : list Candidate) (top_n : Z)
    : M (list Candidate) :=
  match docs with
  | [] => ret []
  | _ =>
      let documents := text <$> docs in
      let n := Z.min top_n (Z.of_nat (length docs)) in
      λ w,
        match call (CohereRerank "rerank-english-v3.0" query documents n)
                   (cohere_rerank env "rerank-english-v3.0" query documents n) w with
        | (Ok rs, w1) =>
            match rerank_collect rs docs [] with
            | (docs', Ok results) => (Ok (deref docs' results), w1)
            | (docs', Raise e) => rerank_failed docs' top_n e w1
            end
        | (Raise e, w1) => rerank_failed docs top_n e w1
        end
  end.

(** ** generate_answer *)

(** [f"[{i}] {doc['text']}"] *)
Definition block_of (i : Z) (doc : Candidate) : string :=
  "[" +:+ pretty i +:+ "] " +:+ text doc.

Definition preview_of (doc : Candidate) : string :=
  if 300 <? Py.len (text doc) then Py.prefix 300 (text doc) +:+ "..."
  else text doc.

Definition source_of (i : Z) (doc : Candidate) : Source :=
  {| id := i;
     preview := preview_of doc;
     src_metadata := metadata doc;
     src_score := default (default (float_of_int 0) (score doc)) (rerank_score doc) |}.

(** The three variables the context loop writes. *)
Record Assembly := {
  context_blocks : list string;
  sources : list Source;
  total_context_tokens : Z
}.

Definition no_context : Assembly :=
  {| context_blocks := []; sources := []; total_context_tokens := 0 |}.

(** [for i, doc in enumerate(docs, 1)], from position [i] on. *)
Fixpoint fill_context (i : Z) (docs : list Candidate) (st : Assembly) : M Assembly :=
  match docs with
  | [] => ret st
  | doc :: rest =>
      let block := block_of i doc in
      block_tokens <- get_token_count block;;
      if MAX_CONTEXT_TOKENS <? total_context_tokens st + block_tokens then
        ret st                                                    (* break *)
      else
        fill_context (i + 1) rest
          {| context_blocks := context_blocks st ++ [block];
             sources := sources st ++ [source_of i doc];
             total_context_tokens := total_context_tokens st + block_tokens |}
  end.

(** Lines 220-241: the context budgeter. *)
Definition assemble_context (docs : list Candidate) : M Assembly :=
  fill_context 1 docs no_context.

Definition system_prompt : string :=
"You are a retrieval-augmented assistant that provides accurate, well-cited answers.

Rules:
- Use ONLY the provided context to answer questions
- EVERY claim must be followed by inline citations like [1], [2], or [1,2]
- Multiple related claims can share citations if from the same source
- Do NOT invent citation numbers that don't exist
- If the context doesn't contain enough information, explicitly state what's missing
- Be concise but thorough
- Structure your answer clearly with proper paragraphs
".

Definition user_prompt (context query : string) : string :=
  "Context:" +:+ nl +:+ context +:+ nl +:+ nl +:+
  "Question:" +:+ nl +:+ query +:+ nl +:+ nl +:+
  "Provide a well-structured answer with inline citations [1], [2], etc. for every claim you make."
  +:+ nl.

Record Answer := {
  answer : string;
  tokens_input : Z;
  tokens_output : Z;
  tokens_total : Z;
  answer_sources : list Source
}.

Definition generate_answer (query : string) (docs : list Candidate) : M Answer :=
  st <- assemble_context docs;;
  let context := Py.join (nl +:+ nl) (context_blocks st) in
  let system := Py.strip system_prompt in
  let user := Py.strip (user_prompt context query) in
  try_except
    (response <- call (ChatCompletionsCreate "gpt-4-turbo-preview" system user)
                      (chat_completions_create env "gpt-4-turbo-preview"
                         system user (fdec 2 (-1)) 800);;
     let usage := usage response in
     (* response.choices[0].message.content *)
     match choices response with
     | content :: _ =>
         ret {| answer := content;
                tokens_input := prompt_tokens usage;
                tokens_output := completion_tokens usage;
                tokens_total := usage_total_tokens usage;
                answer_sources := sources st |}
     | [] => raise (IndexError "list index out of range")
     end)
    (λ e, match e with
          | RateLimitError _ =>
              raise (HTTPException 429
                       "OpenAI rate limit exceeded. Please try again later.")
          | APIError _ =>
              raise (HTTPException 503 ("OpenAI API error: " +:+ str_exn e))
          | _ =>
              raise (HTTPException 500
                       ("Answer generation failed: " +:+ str_exn e))
          end).

(** ** The /query route *)

Record QueryRequest := {
  query : string;
  top_k : Z;              (* default 15 *)
  rerank_top_n : Z        (* default 5 *)
}.

Record TokenEstimate := {
  embedding_tokens : Z;
  llm_input_tokens : Z;
  llm_output_tokens : Z;
  total_tokens : Z;
  costs : gmap string float
}.

Record QueryResponse := {
  resp_answer : string;
  resp_sources : list Source;
  timing : list (string * float);
  token_estimate : TokenEstimate
}.

(** [d[k] = v] on a dict kept in insertion order *)
Fixpoint setitem (k : string) (v : float) (d : list (string * float))
    : list (string * float) :=
  match d with
  | [] => [(k, v)]
  | (k', v') :: d' =>
      if String.eqb k' k then (k, v) :: d' else (k', v') :: setitem k v d'
  end.

(** [d.get(k)] *)
Fixpoint lookup_key (k : string) (d : list (string * float)) : option float :=
  match d with
  | [] => None
  | (k', v) :: d' => if String.eqb k' k then Some v else lookup_key k d'
  end.

(** [sum(d.values())]: from the int 0, left to right *)
Definition sum_values (d : list (string * float)) : float :=
  fold_left fadd (d.*2) (float_of_int 0).

(** [round(time.time() - t0, 3)] *)
Definition elapsed (t0 : float) : M float :=
  t1 <- time_time;;
  ret (fround (fsub t1 t0) 3).

(** The documents of [results.matches] that carry a text. *)
Definition extract_docs (matches : list Match) : list Candidate :=
  omap (λ m, match match_metadata m !! "text" with
             | Some t =>
                 Some {| text := t;
                         metadata := delete "text" (match_metadata m);
                         score := Some (match_score m);
                         rerank_score := None |}
             | None => None
             end) matches.

Definition no_match_answer : string :=
  "I couldn't find any relevant information in the knowledge base to answer your question. Please try rephrasing or upload relevant documents first.".

(** [(query_tokens / 1000) * PRICING["embedding"]] *)
Definition embedding_cost_of (query_tokens : Z) : float :=
  fmul (fdiv (float_of_int query_tokens) (float_of_int 1000)) PRICING_embedding.

Definition no_match_response (timing : list (string * float)) (query_tokens : Z)
    : QueryResponse :=
  {| resp_answer := no_match_answer;
     resp_sources := [];
     timing := timing;
     token_estimate :=
       {| embedding_tokens := query_tokens;
          llm_input_tokens := 0;
          llm_output_tokens := 0;
          total_tokens := query_tokens;
          costs :=
            <["total_usd" := fround (embedding_cost_of query_tokens) 6]>
            (<["rerank_usd" := fdec 0 0]>
            (<["llm_usd" := fdec 0 0]>
            (<["embedding_usd" := fround (embedding_cost_of query_tokens) 6]> ∅)))
       |} |}.

Definition answered_response (timing : list (string * float)) (query_tokens : Z)
    (result : Answer) : QueryResponse :=
  let embedding_cost := embedding_cost_of query_tokens in
  let llm_input_cost :=
    fmul (fdiv (float_of_int (tokens_input result)) (float_of_int 1000))
         PRICING_gpt4_input in
  let llm_output_cost :=
    fmul (fdiv (float_of_int (tokens_output result)) (float_of_int 1000))
         PRICING_gpt4_output in
  let rerank_cost := PRICING_rerank_per_search in
  let total_cost :=
    fadd (fadd (fadd embedding_cost llm_input_cost) llm_output_cost) rerank_cost in
  {| resp_answer := answer result;
     resp_sources := answer_sources result;
     timing := timing;
     token_estimate :=
       {| embedding_tokens := query_tokens;
          llm_input_tokens := tokens_input result;
          llm_output_tokens := tokens_output result;
          total_tokens := query_tokens + tokens_total result;
          costs :=
            <["total_usd" := fround total_cost 6]>
            (<["rerank_usd" := fround rerank_cost 6]>
            (<["llm_output_usd" := fround llm_output_cost 6]>
            (<["llm_input_usd" := fround llm_input_cost 6]>
            (<["embedding_usd" := fround embedding_cost 6]> ∅))))
       |} |}.

(** [except HTTPException: raise / except Exception as e: raise
    HTTPException(500, prefix + str(e))] *)
Definition reraise_as_500 {A} (prefix : string) (e : exn) : M A :=
  if is_HTTPException e then raise e
  else raise (HTTPException 500 (prefix +:+ str_exn e)).

Definition query_documents (req : QueryRequest) : M QueryResponse :=
  if bool_decide (Py.strip (query req) = "") then
    raise (HTTPException 400 "Query cannot be empty")
  else
    let timing := [] in
    (* Step 1: Generate query embedding *)
    t0 <- time_time;;
    embedded <- try_except
      (query_vec <- get_embedding (query req);;
       query_tokens <- get_token_count (query req);;
       ret (query_vec, query_tokens))
      (reraise_as_500 "Failed to generate query embedding: ");;
    let query_vec := embedded.1 in
    let query_tokens := embedded.2 in
    dt <- elapsed t0;;
    let timing := setitem "embedding" dt timing in
    (* Step 2: Retrieve from Pinecone *)
    t0 <- time_time;;
    matches <- try_except
      (call (IndexQuery query_vec (top_k req))
            (index_query env query_vec (top_k req)))
      (λ e, raise (HTTPException 500 ("Vector search failed: " +:+ str_exn e)));;
    dt <- elapsed t0;;
    let timing := setitem "retrieval" dt timing in
    let docs := extract_docs matches in
    match docs with
    | [] => ret (no_match_response timing query_tokens)
    | _ =>
        (* Step 3: Apply MMR diversity *)
        docs <- mmr_diversify docs 2;;
        (* Step 4: Rerank *)
        t0 <- time_time;;
        docs <- rerank_documents (query req) docs (rerank_top_n req);;
        dt <- elapsed t0;;
        let timing := setitem "reranking" dt timing in
        (* Step 5: Generate answer *)
        t0 <- time_time;;
        result <- try_except
          (generate_answer (query req) docs)
          (reraise_as_500 "Answer generation failed: ");;
        dt <- elapsed t0;;
        let timing := setitem "generation" dt timing in
        let timing := setitem "total" (fround (sum_values timing) 3) timing in
        ret (answered_response timing query_tokens result)
    end.

End Pipeline.

(** ** Vocabulary of the statements *)

(** Python's [enumerate(l, i)] *)
Fixpoint enumerate {A} (i : Z) (l : list A) : list (Z * A) :=
  match l with
  | [] => []
  | x :: l' => (i, x) :: enumerate (i + 1) l'
  end.

Definition sumZ (l : list Z) : Z := foldr Z.add 0 l.

Section Vocabulary.

Context `{FO : FloatOps}.
Variable env : Env.

(** The count [get_token_count] settles on, as a plain function. *)
Definition token_count (text : string) : Z :=
  match tiktoken_get_encoding env "cl100k_base" with
  | Ok encode =>
      match encode text with
      | Ok tokens => Z.of_nat (length tokens)
      | Raise _ => Py.len text / 4
      end
  | Raise _ => Py.len text / 4
  end.

(** Token cost of candidate [p.2] placed under citation number [p.1]. *)
Definition block_cost (p : Z * Candidate) : Z :=
  token_count (block_of p.1 p.2).

(** Summed cost of the first [n] candidates, numbered from 1. *)
Definition cost_upto (docs : list Candidate) (n : nat) : Z :=
  sumZ (block_cost <$> enumerate 1 (take n docs)).

(** How many candidates of [l] belong to document [d]. *)
Definition count_document (d : string) (l : list Candidate) : nat :=
  length (filter (λ c, document_id c = d) l).

(** The HTTP status an exception of the OpenAI call is turned into. *)
Definition status_of (e : exn) : Z :=
  match e with
  | RateLimitError _ => 429
  | APIError _ => 503
  | _ => 500
  end.

Definition logged (w : World) (evs : list Event) : World :=
  {| ticks := ticks w; log := log w ++ evs |}.

(** The world after one more reading of the clock. *)
Definition tick (w : World) : World :=
  {| ticks := S (ticks w); log := log w |}.

(** The rerank service returns at most the [top_n] results it is asked for. *)
Definition honours_top_n : Prop :=
  ∀ model query documents n rs,
    cohere_rerank env model query documents n = Ok rs →
    Z.of_nat (length rs) <= n.

(** The assembly after the loop has accepted the first [n] candidates,
    numbered from [i], on top of [st]. *)
Definition accepted_by (i : Z) (docs : list Candidate) (n : nat) (st : Assembly)
    : Assembly :=
  let taken := enumerate i (take n docs) in
  {| context_blocks := context_blocks st ++ ((λ p, block_of p.1 p.2) <$> taken);
     sources := sources st ++ ((λ p, source_of p.1 p.2) <$> taken);
     total_context_tokens := total_context_tokens st + sumZ (block_cost <$> taken) |}.

(** [seen] counts, per document, the candidates kept so far. *)
Definition seen_counts (seen : gmap string Z) (kept : list Candidate) : Prop :=
  ∀ d, match seen !! d with
       | Some n => n = Z.of_nat (count_document d kept)
       | None => count_document d kept = 0%nat
       end.

Definition within_cap (cap : Z) (kept : list Candidate) : Prop :=
  ∀ d, count_document d kept = 0%nat ∨ Z.of_nat (count_document d kept) <= cap.

Definition embedding_timing (w : World) : string * float :=
  ("embedding",
   fround (fsub (clock env (S (ticks w))) (clock env (ticks w))) 3).

Definition retrieval_timing (w : World) : string * float :=
  ("retrieval",
   fround (fsub (clock env (3 + ticks w)) (clock env (2 + ticks w))) 3).

(** The world when retrieval is over: four readings of the clock, one
    embedding call, one index query. *)
Definition retrieved (req : QueryRequest) (vec : list float) (w : World) : World :=
  {| ticks := 4 + ticks w;
     log := log w ++ [EmbeddingsCreate "text-embedding-3-small" (query req);
                      IndexQuery vec (top_k req)] |}.

(** What a candidate holds apart from its rerank score. *)
Definition payload (c : Candidate) : string * gmap string string * option float :=
  (text c, metadata c, score c).


(** The position [docs[r.index]] reads when the index is in range. *)
Definition position (r : RerankResult) : nat := Z.to_nat (r_index r).


(** The exceptions a route lets out: an HTTPException with one of the four
    statuses the module uses. *)
Definition http_error (e : exn) : Prop :=
  ∃ status detail,
    e = HTTPException status detail ∧ status ∈ [400; 429; 500; 503].


(** What a source shows of its candidate's origin: the metadata and the
    score [source_of] picks. *)
Definition shown (c : Candidate) : gmap string string * float :=
  (metadata c, default (default (float_of_int 0) (score c)) (rerank_score c)).


End Vocabulary.

(** * The ingestion side of backend/main.py

    [extract_text_from_pdf], [chunk_text], the [/upload] route
    [upload_document] and the [/health] route [detailed_health].

    - [bytes] is a list of [Byte.byte].
    - the values of a metadata dict are strings, ints and floats: [value].
    - the dict [chunk_text] builds for a chunk has a fixed shape, so it is
      the record [Chunk]: the entries taken over from the caller's metadata
      and the three entries [chunk_text] writes on top of them;
      [c_metadata] is the dict itself.
    - the PDF reader, the UTF-8 decoder, the text splitter, the index and
      the model listing are the fields of [Ingest]; the requests sent to
      the index (and the model listing) are recorded in [requests], next
      to the world of the query side. *)

Section Ingestion.

Context `{FO : FloatOps}.

Inductive value :=
| VStr (s : string)
| VInt (n : Z)
| VFloat (x : float).

(** An element of the list [chunk_text] returns:
    [{"text": chunk, "metadata": {**metadata, "chunk_index": i,
      "position": ..., "token_count": ...}}]. *)
Record Chunk := {
  c_text : string;
  c_given : gmap string value;        (* **metadata *)
  c_chunk_index : Z;
  c_position : string;
  c_token_count : Z
}.

(** [c["metadata"]]: the keys written last win. *)
Definition c_metadata (c : Chunk) : gmap string value :=
  <["token_count" := VInt (c_token_count c)]>
  (<["position" := VStr (c_position c)]>
  (<["chunk_index" := VInt (c_chunk_index c)]> (c_given c))).

(** A vector as [upload_document] sends it to the index. *)
Record Vector := {
  v_id : string;
  v_values : list float;
  v_metadata : gmap string value
}.

(** [index.describe_index_stats()] *)
Record IndexStats := {
  total_vector_count : Z;
  dimension : Z;
  index_fullness : float;
  namespaces : gmap string Z
}.

(** The file of a multipart upload: its [filename] ([None] when the part
    has none) and the outcome of [await file.read()]. *)
Record UploadFile := {
  filename : option string;
  file_read : Result (list Byte.byte)
}.

Record UploadResponse := {
  resp_message : string;
  resp_chunks_created : Z;
  resp_document_id : string;
  resp_total_tokens : Z
}.

Record Ingest := {
  (** [int(x)] of a float *)
  int_of_float : float → Z;
  (** [PyPDF2.PdfReader(io.BytesIO(data)).pages], each page as the outcome
      of its [extract_text()]; a page without text gives the empty string *)
  pdf_pages : list Byte.byte → Result (list (Result string));
  (** [data.decode("utf-8")], [None] for a UnicodeDecodeError *)
  decode_utf8 : list Byte.byte → option string;
  (** [RecursiveCharacterTextSplitter.from_tiktoken_encoder(encoding_name=
      "cl100k_base", model_name="gpt-4", chunk_size, chunk_overlap,
      separators=["\n\n", "\n", ". ", " ", ""]).split_text(text)] *)
  split_text : Z → Z → string → Result (list string);
  (** [index.upsert(vectors=batch)] *)
  index_upsert : list Vector → Result unit;
  (** [index.delete(delete_all=True)] *)
  index_delete_all : Result unit;
  (** [index.describe_index_stats()] *)
  describe_index_stats : Result IndexStats;
  (** [openai_client.models.list()] *)
  models_list : Result unit
}.

(** The requests that reach the index and the model listing. *)
Inductive Request :=
| Upsert (vectors : list Vector)
| DeleteAll
| DescribeIndexStats
| ModelsList.

Record Site := {
  world : World;
  requests : list Request      (* oldest first *)
}.

Definition U (A : Type) : Type := Site → Result A * Site.

Definition uret {A} (a : A) : U A := λ s, (Ok a, s).

Definition ubind {A B} (m : U A) (f : A → U B) : U B :=
  λ s, match m s with
       | (Ok a, s') => f a s'
       | (Raise e, s') => (Raise e, s')
       end.

Definition uraise {A} (e : exn) : U A := λ s, (Raise e, s).

Definition utry_except {A} (body : U A) (handler : exn → U A) : U A :=
  λ s, match body s with
       | (Ok a, s') => (Ok a, s')
       | (Raise e, s') => handler e s'
       end.

(** A computation of the query side, run on the world of the site. *)
Definition lift {A} (m : M A) : U A :=
  λ s, match m (world s) with
       | (r, w') => (r, {| world := w'; requests := requests s |})
       end.

(** A request: it is recorded, the answer is the service's. *)
Definition request {A} (rq : Request) (answer : Result A) : U A :=
  λ s, (answer, {| world := world s; requests := requests s ++ [rq] |}).

(** The outcome of a library call that touches nothing outside. *)
Definition of_result {A} (r : Result A) : M A := λ w, (r, w).

Notation "x <- m ;; k" := (bind m (λ x, k))
  (at level 100, m at next level, right associativity, only parsing).
Notation "x <<- m ;; k" := (ubind m (λ x, k))
  (at level 100, m at next level, right associativity, only parsing).
Notation "m ;;; k" := (ubind m (λ _, k))
  (at level 100, right associativity, only parsing).

Variable env : Env.
Variable ing : Ingest.

(** ** Configuration *)

Definition CHUNK_SIZE : Z := 1000.
Definition OVERLAP_PERCENT : float := fdec 15 (-2).
Definition CHUNK_OVERLAP : Z :=
  int_of_float ing (fmul (float_of_int CHUNK_SIZE) OVERLAP_PERCENT).

(** ** Strings *)

(** [c.lower()] on the first 256 characters *)
Definition lower_char (c : ascii) : ascii :=
  let n := nat_of_ascii c in
  if ((65 <=? n) && (n <=? 90)
      || (192 <=? n) && (n <=? 222) && negb (n =? 215))%nat
  then ascii_of_nat (n + 32) else c.

(** [s.lower()] *)
Fixpoint lower (s : string) : string :=
  match s with
  | EmptyString => EmptyString
  | String c s' => String (lower_char c) (lower s')
  end.

(** [s.endswith(suffix)] *)
Definition endswith (s suffix : string) : bool :=
  let n := String.length s in
  let k := String.length suffix in
  (k <=? n)%nat && bool_decide (String.substring (n - k) k s = suffix).

(** ** extract_text_from_pdf *)

(** The loop over [reader.pages], from the text gathered so far. *)
Fixpoint pdf_text (pages : list (Result string)) (text : string) : Result string :=
  match pages with
  | [] => Ok text
  | Ok page_text :: rest =>
      pdf_text rest (if bool_decide (page_text = "") then text
                     else text +:+ page_text +:+ nl)
  | Raise e :: _ => Raise e
  end.

Definition extract_text_from_pdf (file_bytes : list Byte.byte) : M string :=
  try_except
    (pages <- of_result (pdf_pages ing file_bytes);;
     text <- of_result (pdf_text pages "");;
     if bool_decide (Py.strip text = "") then
       (* ValueError *)
       raise (Exception "PDF appears to be empty or contains only images")
     else ret text)
    (λ e, raise (HTTPException 400 ("Failed to extract PDF text: " +:+ str_exn e))).

(** ** chunk_text *)

(** [for i, chunk in enumerate(chunks)], from position [i] on; [n] is
    [len(chunks)]. *)
Fixpoint chunk_loop (metadata : gmap string value) (n : Z) (i : Z)
    (chunks : list string) (results : list Chunk) : M (list Chunk) :=
  match chunks with
  | [] => ret results
  | chunk :: rest =>
      tokens <- get_token_count env chunk;;
      chunk_loop metadata n (i + 1) rest
        (results ++ [{| c_text := chunk;
                        c_given := metadata;
                        c_chunk_index := i;
                        c_position := pretty (i + 1) +:+ "/" +:+ pretty n;
                        c_token_count := tokens |}])
  end.

Definition chunk_text (text : string) (metadata : gmap string value)
    : M (list Chunk) :=
  try_except
    (chunks <- of_result (split_text ing CHUNK_SIZE CHUNK_OVERLAP text);;
     chunk_loop metadata (Z.of_nat (length chunks)) 0 chunks [])
    (λ e, raise (HTTPException 500 ("Chunking failed: " +:+ str_exn e))).

(** ** The /upload route *)

(** The vector of chunk [c]. *)
Definition vector_of (doc_id : string) (c : Chunk) (embedding : list float)
    : Vector :=
  {| v_id := doc_id +:+ "_" +:+ pretty (c_chunk_index c);
     v_values := embedding;
     v_metadata := <["text" := VStr (c_text c)]> (c_metadata c) |}.

(** [for c in chunks], writing [vectors] and [total_tokens]. *)
Fixpoint embed_chunks (doc_id : string) (chunks : list Chunk)
    (vectors : list Vector) (total_tokens : Z) : M (list Vector * Z) :=
  match chunks with
  | [] => ret (vectors, total_tokens)
  | c :: rest =>
      embedding <- get_embedding env (c_text c);;
      embed_chunks doc_id rest
        (vectors ++ [vector_of doc_id c embedding])
        (total_tokens + c_token_count c)
  end.

(** [range(0, stop, step)] for a positive [step] *)
Definition py_range (stop step : nat) : list nat :=
  (λ k, k * step)%nat <$> seq 0 ((stop + step - 1) / step)%nat.

(** [for i in range(...)]: [batch = vectors[i:i + batch_size]], upserted. *)
Fixpoint upsert_batches (vectors : list Vector) (batch_size : nat)
    (starts : list nat) : U unit :=
  match starts with
  | [] => uret ()
  | i :: rest =>
      let batch := take batch_size (drop i vectors) in
      request (Upsert batch) (index_upsert ing batch);;;
      upsert_batches vectors batch_size rest
  end.

(** Lines 318-344: the content of the upload and the id of the document. *)
Definition extract_content (file : option UploadFile) (text : option string)
    : M (string * string) :=
  try_except
    (match file with
     | Some f =>
         data <- of_result (file_read f);;
         match filename f with
         | None =>
             (* AttributeError *)
             raise (Exception "'NoneType' object has no attribute 'lower'")
         | Some name =>
             let filename := lower name in
             content <-
               (if endswith filename ".pdf" then extract_text_from_pdf data
                else if endswith filename ".txt" || endswith filename ".md" then
                  match decode_utf8 ing data with
                  | Some content => ret content
                  | None => raise (HTTPException 400 "File must be UTF-8 encoded")
                  end
                else
                  raise (HTTPException 400
                           "Unsupported file type. Supported: .pdf, .txt, .md"));;
             now <- time_time env;;
             ret (content, name +:+ "_" +:+ pretty (int_of_float ing now))
         end
     | None =>
         match text with
         | None =>
             (* AttributeError *)
             raise (Exception "'NoneType' object has no attribute 'strip'")
         | Some text =>
             let content := Py.strip text in
             if bool_decide (content = "") then
               raise (HTTPException 400 "Text content cannot be empty")
             else
               now <- time_time env;;
               ret (content, "text_" +:+ pretty (int_of_float ing now))
         end
     end)
    (reraise_as_500 "Failed to process file: ").

(** The [metadata] dict of an upload. *)
Definition upload_metadata (title source doc_id : string) (uploaded_at : float)
    : gmap string value :=
  <["uploaded_at" := VFloat uploaded_at]>
  (<["document_id" := VStr doc_id]>
  (<["source" := VStr source]>
  (<["title" := VStr title]> ∅))).

Definition upload_document (file : option UploadFile) (text : option string)
    (title source : string) : U UploadResponse :=
  if negb (bool_decide (is_Some file))
     && negb (bool_decide (is_Some text ∧ text ≠ Some ""))
  then uraise (HTTPException 400 "Must provide either a file or text content")
  else
    (* Extract content based on input type *)
    extracted <<- lift (extract_content file text);;
    let content := extracted.1 in
    let doc_id := extracted.2 in
    (* Prepare metadata *)
    uploaded_at <<- lift (time_time env);;
    let metadata := upload_metadata title source doc_id uploaded_at in
    (* Chunk the document *)
    chunks <<- lift (chunk_text content metadata);;
    match chunks with
    | [] => uraise (HTTPException 400 "Document produced no valid chunks")
    | _ =>
        (* Generate embeddings and prepare vectors *)
        embedded <<- lift (try_except
          (embed_chunks doc_id chunks [] 0)
          (reraise_as_500 "Failed to generate embeddings: "));;
        let vectors := embedded.1 in
        let total_tokens := embedded.2 in
        (* Upsert to Pinecone in batches *)
        utry_except
          (let batch_size := 100%nat in
           upsert_batches vectors batch_size
             (py_range (length vectors) batch_size))
          (λ e, uraise (HTTPException 500
                          ("Failed to store vectors in Pinecone: " +:+ str_exn e)));;;
        uret {| resp_message :=
                  "Successfully indexed document with "
                  +:+ pretty (Z.of_nat (length chunks)) +:+ " chunks";
                resp_chunks_created := Z.of_nat (length chunks);
                resp_document_id := doc_id;
                resp_total_tokens := total_tokens |}
    end.

(** ** The /health route *)

(** [try: check; status[key] = "ok" / except: status[key] = "error"] *)
Definition probe {A} (key : string) (rq : Request) (answer : Result A)
    (health_status : gmap string string) : U (gmap string string) :=
  utry_except
    (request rq answer;;; uret (<[key := "ok"]> health_status))
    (λ _, uret (<[key := "error"]> health_status)).

Definition detailed_health : U (gmap string string) :=
  let health_status : gmap string string :=
    <["cohere" := "unknown"]> (<["openai" := "unknown"]>
    (<["pinecone" := "unknown"]> (<["api" := "ok"]> ∅))) in
  (* Check Pinecone *)
  health_status <<- probe "pinecone" DescribeIndexStats
                      (describe_index_stats ing) health_status;;
  (* Check OpenAI (lightweight) *)
  health_status <<- probe "openai" ModelsList (models_list ing) health_status;;
  uret (<["cohere" := "not_checked"]> health_status).

(** ** The /clear and /stats routes *)

Definition clear_index : U string :=
  utry_except
    (request DeleteAll (index_delete_all ing);;;
     uret "Index cleared successfully")
    (λ e, uraise (HTTPException 500 ("Failed to clear index: " +:+ str_exn e))).

Definition stats : U IndexStats :=
  utry_except
    (request DescribeIndexStats (describe_index_stats ing))
    (λ e, uraise (HTTPException 500 ("Failed to get stats: " +:+ str_exn e))).

End Ingestion.

(** ** Vocabulary of the statements on ingestion *)

Section IngestionVocabulary.

Context `{FO : FloatOps}.
Variable env : Env.
Variable ing : Ingest.

(** The page texts, each closed by a newline. *)
Definition page_lines (texts : list string) : string :=
  foldr (λ t acc, t +:+ nl +:+ acc) "" texts.

(** The chunks [chunk_text] makes of the pieces of the splitter, from
    position [i] on, [n] pieces in all. *)
Fixpoint chunks_from (metadata : gmap string value) (n i : Z)
    (pieces : list string) : list Chunk :=
  match pieces with
  | [] => []
  | piece :: rest =>
      {| c_text := piece;
         c_given := metadata;
         c_chunk_index := i;
         c_position := pretty (i + 1) +:+ "/" +:+ pretty n;
         c_token_count := token_count env piece |}
      :: chunks_from metadata n (i + 1) rest
  end.

(** The batches the upsert loop cuts [vectors] into. *)
Definition batches (vectors : list Vector) : list (list Vector) :=
  (λ i, take 100 (drop i vectors)) <$> py_range (length vectors) 100.

(** The embedding service answers [embedding] first for [piece]. *)
Definition embeds (piece : string) (embedding : list float) : Prop :=
  ∃ others,
    embeddings_create env "text-embedding-3-small" piece
    = Ok (embedding :: others).

(** Where the content and the name of an upload come from. *)
Definition content_from (file : option UploadFile) (text : option string)
    (w : World) (content base : string) : Prop :=
  (file = None ∧ base = "text" ∧
   ∃ t, text = Some t ∧ content = Py.strip t ∧ content ≠ "")
  ∨ (∃ f data,
       file = Some f ∧ filename f = Some base ∧ file_read f = Ok data ∧
       ((endswith (lower base) ".pdf" = true ∧
         extract_text_from_pdf ing data w = (Ok content, w))
        ∨ (endswith (lower base) ".pdf" = false ∧
           endswith (lower base) ".txt" || endswith (lower base) ".md" = true ∧
           decode_utf8 ing data = Some content))).

(** The site after an upload that embedded [pieces] and sent the batches
    [bs]: two readings of the clock, one embedding call per piece, one
    upsert per batch. *)
Definition uploaded_site (s : Site) (pieces : list string)
    (bs : list (list Vector)) : Site :=
  {| world :=
       {| ticks := 2 + ticks (world s);
          log := log (world s)
                 ++ (EmbeddingsCreate "text-embedding-3-small" <$> pieces) |};
     requests := requests s ++ (Upsert <$> bs) |}.

(** The id an upload named [base] gives its document when the clock is
    first read in world [w]. *)
Definition upload_doc_id (base : string) (w : World) : string :=
  base +:+ "_" +:+ pretty (int_of_float ing (clock env (ticks w))).

(** The chunks and the vectors of an upload whose content the splitter cut
    into [pieces]. *)
Definition upload_chunks (title source base : string) (w : World)
    (pieces : list string) : list Chunk :=
  chunks_from
    (upload_metadata title source (upload_doc_id base w)
       (clock env (S (ticks w))))
    (Z.of_nat (length pieces)) 0 pieces.

Definition upload_vectors (title source base : string) (w : World)
    (pieces : list string) (embeddings : list (list float)) : list Vector :=
  zip_with (vector_of (upload_doc_id base w))
    (upload_chunks title source base w pieces) embeddings.

End IngestionVocabulary.


(** ** A concrete world

    Floats read as exact rationals, and a small deployment: a tokenizer
    that gives one token per character, an embedding service, an index
    holding three chunks, a rerank service and a chat service, each of
    which can be switched to a failing one. *)

Module Exact.

Definition pow10 (n : Z) : Q := Qpower (inject_Z 10) n.

Definition round_half_even (x : Q) : Z :=
  let f := Qfloor x in
  match Qcompare (Qminus x (inject_Z f)) (Qmake 1 2) with
  | Lt => f
  | Gt => f + 1
  | Eq => if Z.even f then f else f + 1
  end.

Definition round (x : Q) (n : Z) : Q :=
  Qred (Qdiv (inject_Z (round_half_even (Qmult x (pow10 n)))) (pow10 n)).

Definition floats : FloatOps :=
  {| float := Q;
     fdec m e := Qred (Qmult (inject_Z m) (pow10 e));
     fadd a b := Qred (Qplus a b);
     fsub a b := Qred (Qminus a b);
     fmul a b := Qred (Qmult a b);
     fdiv a b := Qred (Qdiv a b);
     fround := round |}.

End Exact.

Module Demo.

#[local] Existing Instance Exact.floats.

(** One token per character. *)
Definition encode (s : string) : Result (list Z) :=
  Ok ((λ c, Z.of_nat (nat_of_ascii c)) <$> list_ascii_of_string s).

(** The clock reads n*n milliseconds at its n-th reading. *)
Definition reading (n : nat) : Q := Qred (Qmake (Z.of_nat (n * n)) 1000).

Definition chunk (t d : string) (s : Q) : Match :=
  {| match_score := s;
     match_metadata := <["text" := t]> (<["document_id" := d]> ∅) |}.

Definition stored : list Match :=
  [chunk "Solar panels average 15-22% efficiency." "d1" (Qmake 9 10);
   chunk "Wind turbines produce 2-3 megawatts." "d2" (Qmake 8 10);
   chunk "Storage smooths intermittent supply." "d3" (Qmake 7 10)].

(** A match without a text payload. *)
Definition bare : Match :=
  {| match_score := Qmake 1 2; match_metadata := <["document_id" := "d9"]> ∅ |}.

Definition completion : ChatCompletion :=
  {| choices := ["Solar panels average 15-22% efficiency [1]."];
     usage := {| prompt_tokens := 120; completion_tokens := 30;
                 usage_total_tokens := 150 |} |}.

(** The rerank service, working: the first [n] positions, last first. *)
Definition rerank_last_first (documents : list string) (n : Z)
    : Result (list RerankResult) :=
  if n <? 0 then Raise (APIError "invalid request: top_n must be positive")
  else Ok ((λ i, {| r_index := Z.of_nat i; relevance_score := Qmake 1 2 |})
           <$> take (Z.to_nat n) (reverse (seq 0 (length documents)))).

Definition deployment (index : list Match)
    (embedding : Result (list (list Q)))
    (rerank : list string → Z → Result (list RerankResult))
    (chat : Result ChatCompletion) : Env :=
  {| clock := reading;
     tiktoken_get_encoding := λ _, Ok encode;
     embeddings_create := λ _ _, embedding;
     index_query := λ _ k, Ok (take (Z.to_nat k) index);
     cohere_rerank := λ _ _, rerank;
     chat_completions_create := λ _ _ _ _ _, chat |}.

Definition vector : list Q := [Qmake 1 2; Qmake 1 4].

(** Everything up and three chunks indexed. *)
Definition healthy : Env :=
  deployment stored (Ok [vector]) rerank_last_first (Ok completion).

(** Nothing indexed yet. *)
Definition empty_index : Env :=
  deployment [] (Ok [vector]) rerank_last_first (Ok completion).

(** Only a match without text comes back. *)
Definition textless_index : Env :=
  deployment [bare] (Ok [vector]) rerank_last_first (Ok completion).

(** The rerank service is down. *)
Definition rerank_down : Env :=
  deployment stored (Ok [vector])
    (λ _ _, Raise (Exception "connection refused")) (Ok completion).

(** The OpenAI calls fail with an exception [e]. *)
Definition openai_failing (e : exn) : Env :=
  deployment stored (Raise e) rerank_last_first (Raise e).

(** The tokenizer cannot be loaded. *)
Definition tokenizer_down : Env :=
  {| clock := reading;
     tiktoken_get_encoding := λ _, Raise (Exception "cannot load cl100k_base");
     embeddings_create := λ _ _, Ok [vector];
     index_query := λ _ k, Ok (take (Z.to_nat k) stored);
     cohere_rerank := λ _ _, rerank_last_first;
     chat_completions_create := λ _ _ _ _ _, Ok completion |}.

Definition start : World := {| ticks := 0; log := [] |}.

Definition ask (q : string) (n : Z) : QueryRequest :=
  {| query := q; top_k := 15; rerank_top_n := n |}.

Definition candidate (t d : string) : Candidate :=
  {| text := t; metadata := <["document_id" := d]> ∅;
     score := Some (Qmake 1 2); rerank_score := None |}.

Fixpoint fill (n : nat) : string :=
  match n with
  | O => ""
  | S n' => String "a" (fill n')
  end.

(** A text of [n] characters. *)
Definition filler (n : Z) : string := fill (Z.to_nat n).

Definition ranked : list Candidate :=
  [candidate "Solar panels average 15-22% efficiency." "d1";
   candidate "Wind turbines produce 2-3 megawatts." "d2";
   candidate "Storage smooths intermittent supply." "d1";
   candidate "Premium panels reach 23-24%." "d1"].

End Demo.


(** More deployments: services that misbehave in other ways. *)

Module Faulty.

#[local] Existing Instance Exact.floats.

(** A rerank service that counts positions from 1: its last position is
    outside the list. *)
Definition rerank_from_one (documents : list string) (n : Z)
    : Result (list RerankResult) :=
  Ok ((λ i, {| r_index := Z.of_nat (S i); relevance_score := Qmake 3 4 |})
      <$> seq 0 (length documents)).

Definition rerank_off_by_one : Env :=
  Demo.deployment Demo.stored (Ok [Demo.vector]) rerank_from_one
    (Ok Demo.completion).

(** The index cannot be reached. *)
Definition index_down : Env :=
  {| clock := Demo.reading;
     tiktoken_get_encoding := λ _, Ok Demo.encode;
     embeddings_create := λ _ _, Ok [Demo.vector];
     index_query := λ _ _, Raise (RateLimitError "too many requests");
     cohere_rerank := λ _ _, Demo.rerank_last_first;
     chat_completions_create := λ _ _ _ _ _, Ok Demo.completion |}.

(** The chat service is rate limited, everything else is up. *)
Definition chat_limited : Env :=
  Demo.deployment Demo.stored (Ok [Demo.vector]) Demo.rerank_last_first
    (Raise (RateLimitError "slow down")).

End Faulty.

(** A small ingestion side: whole seconds by truncation, a PDF reader that
    takes the bytes of a file as its single page, a decoder for 7-bit
    text, a splitter that cuts at line ends, and an index that stores
    what it is sent or refuses it. *)

Module Intake.

#[local] Existing Instance Exact.floats.

Definition truncate (x : Q) : Z := Z.quot (Qnum x) (Zpos (Qden x)).

Definition read_pages (data : list Byte.byte) : Result (list (Result string)) :=
  match data with
  | [] => Raise (Exception "Cannot read an empty file")
  | _ => Ok [Ok (string_of_list_byte data)]
  end.

Definition decode_7bit (data : list Byte.byte) : option string :=
  if forallb (λ b, (Byte.to_N b <? 128)%N) data
  then Some (string_of_list_byte data) else None.

(** The lines of [s] that are not empty; [line] is the line being read. *)
Fixpoint lines_of (s : string) (line : string) : list string :=
  match s with
  | EmptyString => if bool_decide (line = "") then [] else [line]
  | String c s' =>
      if bool_decide (c = ascii_of_nat 10) then
        (if bool_decide (line = "") then [] else [line]) ++ lines_of s' ""
      else lines_of s' (line +:+ String c "")
  end.

Definition depot (upsert : list Vector → Result unit) : Ingest :=
  {| int_of_float := truncate;
     pdf_pages := read_pages;
     decode_utf8 := decode_7bit;
     split_text := λ _ _ s, Ok (lines_of s "");
     index_upsert := upsert;
     index_delete_all := Ok ();
     describe_index_stats :=
       Ok {| total_vector_count := 3; dimension := 1536;
             index_fullness := Qmake 0 1; namespaces := ∅ |};
     models_list := Ok () |}.

(** The index stores every batch. *)
Definition working : Ingest := depot (λ _, Ok ()).

(** The index refuses every batch. *)
Definition index_full : Ingest :=
  depot (λ _, Raise (Exception "quota exceeded")).

(** An embedding service that is rate limited on one input. *)
Definition limited_on (input : string) : Env :=
  {| clock := Demo.reading;
     tiktoken_get_encoding := λ _, Ok Demo.encode;
     embeddings_create := λ _ text,
       if bool_decide (text = input) then Raise (RateLimitError "slow down")
       else Ok [Demo.vector];
     index_query := λ _ k, Ok (take (Z.to_nat k) Demo.stored);
     cohere_rerank := λ _ _, Demo.rerank_last_first;
     chat_completions_create := λ _ _ _ _ _, Ok Demo.completion |}.

Definition fresh : Site := {| world := Demo.start; requests := [] |}.

Definition upload_of (name body : string) : UploadFile :=
  {| filename := Some name; file_read := Ok (list_byte_of_string body) |}.

Definition two_lines : string :=
  "Solar panels average 15-22% efficiency." +:+ nl
  +:+ "Wind turbines produce 2-3 megawatts.".

End Intake.



(** * Proofs *)

Section Proofs.

Context `{FO : FloatOps}.
Variable env : Env.

Lemma bind_ok {A B} (m : M A) (f : A → M B) w a w' :
  m w = (Ok a, w') → bind m f w = f a w'.
Proof. unfold bind. by intros ->. Qed.

Lemma bind_raise {A B} (m : M A) (f : A → M B) w e w' :
  m w = (Raise e, w') → bind m f w = (Raise e, w').
Proof. unfold bind. by intros ->. Qed.

Lemma bind_inv {A B} (m : M A) (f : A → M B) w b w' :
  bind m f w = (Ok b, w') →
  ∃ a w1, m w = (Ok a, w1) ∧ f a w1 = (Ok b, w').
Proof.
  unfold bind. destruct (m w) as [[a|e] w1]; [|intros [=]]. by exists a, w1.
Qed.

Lemma try_except_inv {A} (body : M A) (handler : exn → M A) w a w' :
  try_except body handler w = (Ok a, w') →
  body w = (Ok a, w') ∨
  ∃ e w1, body w = (Raise e, w1) ∧ handler e w1 = (Ok a, w').
Proof.
  unfold try_except. destruct (body w) as [[a1|e] w1].
  - intros [= <- <-]. by left.
  - intros Hh. right. by exists e, w1.
Qed.

Lemma reraise_as_500_raises {A} (prefix : string) (e : exn) w (a : A) w' :
  reraise_as_500 (A := A) prefix e w ≠ (Ok a, w').
Proof. unfold reraise_as_500, raise. by destruct (is_HTTPException e). Qed.

Lemma get_token_count_run text w :
  get_token_count env text w = (Ok (token_count env text), w).
Proof.
  unfold get_token_count, token_count, try_except, ret.
  destruct (tiktoken_get_encoding env "cl100k_base") as [encode|e]; [|done].
  by destruct (encode text).
Qed.

Lemma token_count_nonneg text : 0 <= token_count env text.
Proof.
  unfold token_count, Py.len.
  destruct (tiktoken_get_encoding env "cl100k_base") as [encode|e].
  - destruct (encode text); [lia|]. apply Z.div_pos; lia.
  - apply Z.div_pos; lia.
Qed.

(** C10: [get_token_count] never raises and never touches the world: it
    returns the tokenizer's exact count when both tokenizer calls succeed,
    and [len(text) // 4] when either of them raises, whatever the
    exception. *)
Theorem get_token_count_total (text : string) (w : World) :
  get_token_count env text w =
    (Ok (match tiktoken_get_encoding env "cl100k_base" with
         | Ok encode =>
             match encode text with
             | Ok tokens => Z.of_nat (length tokens)
             | Raise _ => Z.of_nat (String.length text) / 4
             end
         | Raise _ => Z.of_nat (String.length text) / 4
         end), w).
Proof.
  unfold get_token_count, try_except, ret, Py.len.
  destruct (tiktoken_get_encoding env "cl100k_base") as [encode|e].
  - destruct (encode text) as [tokens|e]; reflexivity.
  - reflexivity.
Qed.

(** ** The context budgeter *)

Lemma sumZ_cons (x : Z) (l : list Z) : sumZ (x :: l) = x + sumZ l.
Proof. reflexivity. Qed.

Lemma sumZ_block_cost_nonneg (l : list (Z * Candidate)) :
  0 <= sumZ (block_cost env <$> l).
Proof.
  induction l as [|p l IH]; [done|].
  rewrite fmap_cons, sumZ_cons.
  pose proof (token_count_nonneg (block_of p.1 p.2)). unfold block_cost at 1. lia.
Qed.

(** The loop accepts the first [n] candidates for some [n]: each accepted
    one fitted, and the loop ended at the end of the list or at the first
    candidate that did not fit. *)
Lemma fill_context_run (docs : list Candidate) : ∀ (i : Z) (st : Assembly),
  ∃ n : nat,
    (n ≤ length docs)%nat ∧
    (∀ w, fill_context env i docs st w = (Ok (accepted_by env i docs n st), w)) ∧
    Forall (λ k, total_context_tokens st
                 + sumZ (block_cost env <$> enumerate i (take (S k) docs))
                 <= MAX_CONTEXT_TOKENS) (seq 0 n) ∧
    (n = length docs ∨
     (n < length docs)%nat ∧
     MAX_CONTEXT_TOKENS
       < total_context_tokens st
         + sumZ (block_cost env <$> enumerate i (take (S n) docs))).
Proof.
  induction docs as [|doc rest IH]; intros i st.
  - exists 0%nat. repeat split; [done| |constructor|by left].
    intros w. unfold accepted_by; simpl. rewrite !app_nil_r, Z.add_0_r. by destruct st.
  - assert (Hcost : ∀ l, sumZ (block_cost env <$> ((i, doc) :: l))
                         = token_count env (block_of i doc)
                           + sumZ (block_cost env <$> l)) by done.
    assert (Hbody : ∀ w, fill_context env i (doc :: rest) st w =
      (if MAX_CONTEXT_TOKENS
          <? total_context_tokens st + token_count env (block_of i doc)
       then ret st
       else fill_context env (i + 1) rest
              {| context_blocks := context_blocks st ++ [block_of i doc];
                 sources := sources st ++ [source_of i doc];
                 total_context_tokens :=
                   total_context_tokens st + token_count env (block_of i doc) |}) w).
    { intros w. simpl fill_context.
      by rewrite (bind_ok _ _ _ _ _ (get_token_count_run _ w)). }
    destruct (MAX_CONTEXT_TOKENS
              <? total_context_tokens st + token_count env (block_of i doc))
      eqn:Hfit.
    + apply Z.ltb_lt in Hfit.
      exists 0%nat. repeat split; [simpl; lia| |constructor|].
      * intros w. rewrite Hbody.
        unfold accepted_by, ret; simpl. rewrite !app_nil_r, Z.add_0_r. by destruct st.
      * right. split; [simpl; lia|].
        change (enumerate i (take 1 (doc :: rest))) with [(i, doc)].
        rewrite Hcost. simpl. lia.
    + apply Z.ltb_ge in Hfit.
      destruct (IH (i + 1)
                  {| context_blocks := context_blocks st ++ [block_of i doc];
                     sources := sources st ++ [source_of i doc];
                     total_context_tokens :=
                       total_context_tokens st + token_count env (block_of i doc) |})
        as (n & Hn & Hrun & Hall & Hend).
      simpl total_context_tokens in *.
      assert (Hstep : ∀ k, enumerate i (take (S k) (doc :: rest))
                           = (i, doc) :: enumerate (i + 1) (take k rest)) by done.
      exists (S n). repeat split; [simpl; lia| | |].
      * intros w. rewrite Hbody, Hrun. unfold accepted_by.
        rewrite Hstep, Hcost, !fmap_cons.
        simpl. rewrite <- !app_assoc, Z.add_assoc. done.
      * change (seq 0 (S n)) with (0%nat :: seq 1 n).
        constructor.
        { change (enumerate i (take 1 (doc :: rest))) with [(i, doc)].
          rewrite Hcost. simpl. lia. }
        rewrite <- (fmap_S_seq 0 n). apply Forall_fmap.
        eapply Forall_impl; [exact Hall|]. intros k Hk; simpl in Hk.
        unfold compose. rewrite Hstep, Hcost. lia.
      * destruct Hend as [->|[Hlt Hover]]; [by left|right].
        split; [simpl; lia|]. rewrite Hstep, Hcost. lia.
Qed.

Lemma length_enumerate {A} (l : list A) (i : Z) : length (enumerate i l) = length l.
Proof. revert i; induction l as [|x l IH]; intros i; simpl; [done|by rewrite IH]. Qed.

Lemma enumerate_numbers {A} (l : list A) (i : Z) :
  (enumerate i l).*1 = (λ k, Z.of_nat k + i) <$> seq 0 (length l).
Proof.
  revert i; induction l as [|x l IH]; intros i; [done|].
  simpl. rewrite IH, <- (fmap_S_seq 0), <- list_fmap_compose.
  f_equal. apply list_fmap_ext. intros _ k _. simpl. lia.
Qed.

Lemma assemble_context_run (docs : list Candidate) :
  ∃ n : nat,
    (n ≤ length docs)%nat ∧
    (∀ w, assemble_context env docs w = (Ok (accepted_by env 1 docs n no_context), w)) ∧
    Forall (λ k, cost_upto env docs (S k) <= MAX_CONTEXT_TOKENS) (seq 0 n) ∧
    (n = length docs ∨
     (n < length docs)%nat ∧ MAX_CONTEXT_TOKENS < cost_upto env docs (S n)).
Proof.
  destruct (fill_context_run docs 1 no_context) as (n & Hn & Hrun & Hall & Hend).
  exists n. unfold assemble_context, cost_upto. simpl in *. by repeat split.
Qed.

Lemma accepted_by_sources_length (docs : list Candidate) (n : nat) :
  (n ≤ length docs)%nat →
  length (sources (accepted_by env 1 docs n no_context)) = n.
Proof.
  intros Hn. simpl. rewrite length_fmap, length_enumerate, length_take. lia.
Qed.

Lemma cost_upto_fits (docs : list Candidate) (n : nat) :
  Forall (λ k, cost_upto env docs (S k) <= MAX_CONTEXT_TOKENS) (seq 0 n) →
  cost_upto env docs n <= MAX_CONTEXT_TOKENS.
Proof.
  intros Hall. destruct n as [|n]; [by unfold cost_upto|].
  rewrite Forall_forall in Hall. apply Hall, elem_of_seq. lia.
Qed.

(** What [generate_answer] returns carries the sources of the assembly. *)
Lemma generate_answer_sources (query : string) (docs : list Candidate)
    (w w' : World) (r : Answer) :
  generate_answer env query docs w = (Ok r, w') →
  ∃ st, assemble_context env docs w = (Ok st, w) ∧ answer_sources r = sources st.
Proof.
  destruct (assemble_context_run docs) as (n & _ & Hrun & _).
  unfold generate_answer. rewrite (bind_ok _ _ _ _ _ (Hrun w)).
  unfold try_except, bind, call.
  destruct (chat_completions_create env _ _ _ _ _) as [response|e].
  - destruct (choices response) as [|content ?]; simpl.
    + intros [=].
    + intros [= <- <-]. eauto.
  - destruct e; intros [=].
Qed.

(** C1: the context budgeter always terminates normally, and the blocks it
    accepted, each costing the token count of its text prefixed by its
    citation number in brackets, never sum to more than MAX_CONTEXT_TOKENS
    (6000); the running total it keeps is that sum, the count of a block is
    what [get_token_count] returns on it, and the sources that
    [generate_answer] returns are those of the accepted blocks. *)
Theorem context_budget_never_exceeded (docs : list Candidate) (w : World) :
  ∃ st : Assembly,
    assemble_context env docs w = (Ok st, w) ∧
    let accepted := enumerate 1 (take (length (sources st)) docs) in
    length (context_blocks st) = length (sources st) ∧
    context_blocks st = (λ p, "[" +:+ pretty p.1 +:+ "] " +:+ text p.2) <$> accepted ∧
    total_context_tokens st
      = sumZ ((λ p, token_count env ("[" +:+ pretty p.1 +:+ "] " +:+ text p.2))
              <$> accepted) ∧
    sumZ ((λ p, token_count env ("[" +:+ pretty p.1 +:+ "] " +:+ text p.2))
          <$> accepted) <= 6000 ∧
    Forall (λ block, ∀ w0, get_token_count env block w0
                           = (Ok (token_count env block), w0))
           (context_blocks st) ∧
    ∀ query w1,
      match generate_answer env query docs w1 with
      | (Ok r, _) => answer_sources r = sources st
      | (Raise _, _) => True
      end.
Proof.
  destruct (assemble_context_run docs) as (n & Hn & Hrun & Hall & _).
  exists (accepted_by env 1 docs n no_context). split; [done|].
  cbv zeta. rewrite accepted_by_sources_length by done.
  split; [|split; [|split; [|split; [|split]]]].
  - simpl. rewrite length_fmap, length_enumerate, length_take. lia.
  - done.
  - done.
  - apply (cost_upto_fits docs n Hall).
  - apply Forall_forall. intros block _ w0. apply get_token_count_run.
  - intros query w1.
    destruct (generate_answer env query docs w1) as [[r|e] w2] eqn:Hgen; [|done].
    apply generate_answer_sources in Hgen as (st & Hst & ->).
    rewrite Hrun in Hst. by injection Hst as <-.
Qed.

(** C2: the budgeter walks the candidates in rank order and stops at the
    first one whose prefixed cost would take the running total past the
    ceiling: the sources (and the blocks) are those of the first [n]
    candidates, numbered 1, 2, ..., [n] without a gap; every one of these
    [n] fitted when its turn came; and either the list was exhausted or
    candidate [n + 1] did not fit, nothing after it being looked at. For a
    single candidate: if its prefixed cost alone is above the ceiling there
    is no block and no source, otherwise there is the one block holding its
    whole text. *)
Theorem context_budget_is_prefix (docs : list Candidate) (w : World) :
  ∃ st : Assembly,
    assemble_context env docs w = (Ok st, w) ∧
    let n := length (sources st) in
    (n ≤ length docs)%nat ∧
    sources st = (λ p, source_of p.1 p.2) <$> enumerate 1 (take n docs) ∧
    context_blocks st = (λ p, block_of p.1 p.2) <$> enumerate 1 (take n docs) ∧
    id <$> sources st = (λ k, Z.of_nat k + 1) <$> seq 0 n ∧
    Forall (λ k, cost_upto env docs (S k) <= MAX_CONTEXT_TOKENS) (seq 0 n) ∧
    (n = length docs ∨
     (n < length docs)%nat ∧ MAX_CONTEXT_TOKENS < cost_upto env docs (S n)) ∧
    ∀ doc : Candidate,
      assemble_context env [doc] w =
        (Ok (if MAX_CONTEXT_TOKENS <? token_count env (block_of 1 doc)
             then {| context_blocks := []; sources := [];
                     total_context_tokens := 0 |}
             else {| context_blocks := [block_of 1 doc];
                     sources := [source_of 1 doc];
                     total_context_tokens := token_count env (block_of 1 doc) |}),
         w).
Proof.
  destruct (assemble_context_run docs) as (n & Hn & Hrun & Hall & Hend).
  exists (accepted_by env 1 docs n no_context). split; [done|].
  cbv zeta. rewrite accepted_by_sources_length by done.
  repeat split; try done.
  - simpl. rewrite <- list_fmap_compose.
    change (id ∘ _) with (λ p : Z * Candidate, p.1).
    rewrite enumerate_numbers, length_take. do 2 f_equal. lia.
  - intros doc. unfold assemble_context. simpl fill_context.
    rewrite (bind_ok _ _ _ _ _ (get_token_count_run _ w)). simpl.
    rewrite !Z.add_0_l.
    by destruct (MAX_CONTEXT_TOKENS <? token_count env (block_of 1 doc)).
Qed.

(** ** The diversity filter *)

Lemma count_document_snoc (d : string) (kept : list Candidate) (doc : Candidate) :
  count_document d (kept ++ [doc]) =
    (count_document d kept + (if decide (document_id doc = d) then 1 else 0))%nat.
Proof.
  unfold count_document. rewrite filter_app, length_app. f_equal.
  rewrite filter_cons, filter_nil. by case_decide.
Qed.

Lemma setdefault_lookup (k : string) (seen : gmap string Z) (kept : list Candidate) :
  seen_counts seen kept →
  setdefault k 0 seen !! k = Some (Z.of_nat (count_document k kept)) ∧
  seen_counts (setdefault k 0 seen) kept.
Proof.
  intros Hseen. unfold setdefault. pose proof (Hseen k) as Hk.
  destruct (seen !! k) as [n|] eqn:Hlook.
  - by rewrite Hlook, Hk.
  - rewrite lookup_insert_eq, Hk. split; [done|].
    intros d. destruct (decide (k = d)) as [<-|Hne].
    + by rewrite lookup_insert_eq, Hk.
    + rewrite lookup_insert_ne by done. apply Hseen.
Qed.

Lemma mmr_loop_run (docs : list Candidate) (cap : Z) :
  ∀ (seen : gmap string Z) (kept : list Candidate),
    seen_counts seen kept → within_cap cap kept →
    ∃ more : list Candidate,
      (∀ w, mmr_loop docs cap seen kept w = (Ok (kept ++ more), w)) ∧
      more `sublist_of` docs ∧
      within_cap cap (kept ++ more).
Proof.
  induction docs as [|doc rest IH]; intros seen kept Hseen Hcap.
  - exists []. rewrite app_nil_r. by repeat split.
  - destruct (setdefault_lookup (document_id doc) seen kept Hseen) as [Hlook Hseen'].
    set (n := Z.of_nat (count_document (document_id doc) kept)) in *.
    assert (Hget : ∀ w, getitem (setdefault (document_id doc) 0 seen)
                          (document_id doc) w = (Ok n, w)).
    { intros w. unfold getitem. by rewrite Hlook. }
    destruct (n <? cap) eqn:Hlt.
    + apply Z.ltb_lt in Hlt.
      destruct (IH (<[document_id doc := n + 1]>
                      (setdefault (document_id doc) 0 seen)) (kept ++ [doc]))
        as (more & Hrun & Hsub & Hcap').
      * intros d. rewrite count_document_snoc.
        destruct (decide (document_id doc = d)) as [<-|Hne].
        -- rewrite lookup_insert_eq. subst n. lia.
        -- rewrite lookup_insert_ne, Nat.add_0_r by done. apply Hseen'.
      * intros d. rewrite count_document_snoc.
        destruct (decide (document_id doc = d)) as [<-|Hne].
        -- right. subst n. lia.
        -- rewrite Nat.add_0_r. apply Hcap.
      * exists (doc :: more). split; [|split].
        -- intros w. simpl mmr_loop.
           rewrite (bind_ok _ _ _ _ _ (Hget w)).
           apply Z.ltb_lt in Hlt. rewrite Hlt.
           rewrite (bind_ok _ _ _ _ _ (Hget w)), Hrun.
           by rewrite <- app_assoc.
        -- by apply sublist_skip.
        -- by rewrite (assoc_L (++) kept [doc] more : kept ++ doc :: more = _).
    + destruct (IH (setdefault (document_id doc) 0 seen) kept Hseen' Hcap)
        as (more & Hrun & Hsub & Hcap').
      exists more. split; [|split; [|done]].
      * intros w. simpl mmr_loop.
        rewrite (bind_ok _ _ _ _ _ (Hget w)). by rewrite Hlt.
      * by apply sublist_cons.
Qed.

Lemma mmr_diversify_run (docs : list Candidate) (max_per_doc : Z) :
  ∃ diversified : list Candidate,
    (∀ w, mmr_diversify docs max_per_doc w = (Ok diversified, w)) ∧
    diversified `sublist_of` docs ∧
    within_cap max_per_doc diversified.
Proof.
  destruct (mmr_loop_run docs max_per_doc ∅ []) as (out & Hrun & Hsub & Hcap).
  - intros d. by rewrite lookup_empty.
  - intros d. by left.
  - by exists out.
Qed.

(** C3: on every candidate list and every cap, [mmr_diversify] returns
    normally, without touching the world; its output is a sublist of the
    input in the input's order, hence no longer than the input; every
    document that occurs in the output occurs there at most [max_per_doc]
    times (candidates without a document_id counting together under
    "unknown"), so that no document at all occurs more than
    max(0, max_per_doc) times; and the empty input gives the empty output. *)
Theorem mmr_diversify_caps_each_document (docs : list Candidate)
    (max_per_doc : Z) (w : World) :
  ∃ diversified : list Candidate,
    mmr_diversify docs max_per_doc w = (Ok diversified, w) ∧
    diversified `sublist_of` docs ∧
    (length diversified ≤ length docs)%nat ∧
    Forall (λ c, Z.of_nat (count_document (document_id c) diversified)
                 <= max_per_doc) diversified ∧
    (∀ d : string,
       Z.of_nat (count_document d diversified) <= Z.max 0 max_per_doc) ∧
    mmr_diversify [] max_per_doc w = (Ok [], w).
Proof.
  destruct (mmr_diversify_run docs max_per_doc) as (out & Hrun & Hsub & Hcap).
  exists out. repeat split; try done.
  - by apply sublist_length.
  - apply Forall_forall. intros c Hc.
    destruct (Hcap (document_id c)) as [Hzero|Hle]; [|done].
    exfalso. unfold count_document in Hzero.
    apply length_zero_iff_nil in Hzero.
    assert (c ∈ filter (λ c', document_id c' = document_id c) out) as Hin
      by by apply list_elem_of_filter.
    rewrite Hzero in Hin. by apply not_elem_of_nil in Hin.
  - intros d. destruct (Hcap d) as [Hzero|Hle]; lia.
Qed.

(** With a cap that is not negative the bound holds for every document,
    present in the output or not. *)
Lemma mmr_diversify_count_le (docs : list Candidate) (max_per_doc : Z) (w : World)
    (d : string) :
  0 <= max_per_doc →
  ∃ diversified,
    mmr_diversify docs max_per_doc w = (Ok diversified, w) ∧
    Z.of_nat (count_document d diversified) <= max_per_doc.
Proof.
  intros Hcap.
  destruct (mmr_diversify_run docs max_per_doc) as (out & Hrun & _ & Hout).
  exists out. split; [apply Hrun|].
  destruct (Hout d) as [Hzero|Hle]; [|done]. lia.
Qed.

(** ** The reranker *)

Lemma slice_to_nonneg {A} (l : list A) (n : Z) :
  0 <= n → Py.slice_to l n = take (Z.to_nat n) l.
Proof. intros Hn. unfold Py.slice_to. by rewrite (proj2 (Z.leb_le 0 n) Hn). Qed.

Lemma slice_to_prefix {A} (l : list A) (n : Z) : Py.slice_to l n `prefix_of` l.
Proof. unfold Py.slice_to. destruct (0 <=? n); apply prefix_take. Qed.

Lemma slice_to_length {A} (l : list A) (n : Z) :
  0 <= n → Z.of_nat (length (Py.slice_to l n)) <= Z.min n (Z.of_nat (length l)).
Proof. intros Hn. rewrite slice_to_nonneg, length_take by done. lia. Qed.

Lemma rerank_failed_run (docs : list Candidate) (top_n : Z) (e : exn) (w : World) :
  rerank_failed docs top_n e w =
    (Ok (Py.slice_to docs top_n),
     logged w [Printed ("Reranking failed: " +:+ str_exn e
                      +:+ ", returning original order")]).
Proof. reflexivity. Qed.

(** C4: when the rerank service raises, whatever the exception,
    [rerank_documents(query, docs, n)] returns normally the slice docs[:n]
    of the candidates it was given, untouched and in their order (a prefix
    of [docs]; the first [n] of them when [n] is not negative), after one
    call of the service and one printed warning; and on the empty list it
    returns the empty list with the world unchanged, the service not having
    been called. *)
Theorem rerank_degrades_on_service_error (query : string)
    (docs : list Candidate) (top_n : Z) (w : World) :
  (∀ e : exn,
     docs ≠ [] →
     cohere_rerank env "rerank-english-v3.0" query (text <$> docs)
       (Z.min top_n (Z.of_nat (length docs))) = Raise e →
     rerank_documents env query docs top_n w =
       (Ok (Py.slice_to docs top_n),
        logged w [CohereRerank "rerank-english-v3.0" query (text <$> docs)
                    (Z.min top_n (Z.of_nat (length docs)));
                  Printed ("Reranking failed: " +:+ str_exn e
                         +:+ ", returning original order")]) ∧
     Py.slice_to docs top_n `prefix_of` docs ∧
     (0 <= top_n → Py.slice_to docs top_n = take (Z.to_nat top_n) docs)) ∧
  rerank_documents env query [] top_n w = (Ok [], w).
Proof.
  split; [|done].
  intros e Hdocs Hsvc. split; [|split].
  - destruct docs as [|doc rest]; [done|].
    unfold rerank_documents, call. rewrite Hsvc, rerank_failed_run.
    unfold logged; simpl. by rewrite <- app_assoc.
  - apply slice_to_prefix.
  - apply slice_to_nonneg.
Qed.

Lemma length_deref (docs : list Candidate) (results : list nat) :
  (length (deref docs results) ≤ length results)%nat.
Proof.
  unfold deref. induction results as [|i results IH]; [done|].
  change (omap (λ i, docs !! i) (i :: results))
    with (match docs !! i with
          | Some c => c :: omap (λ i, docs !! i) results
          | None => omap (λ i, docs !! i) results
          end).
  destruct (docs !! i); simpl; lia.
Qed.

Lemma rerank_collect_lengths (rs : list RerankResult) :
  ∀ (docs : list Candidate) (results : list nat) docs' outcome,
    rerank_collect rs docs results = (docs', outcome) →
    length docs' = length docs ∧
    ∀ out, outcome = Ok out → length out = (length results + length rs)%nat.
Proof.
  induction rs as [|r rs IH]; intros docs results docs' outcome; simpl.
  - intros [= <- <-]. split; [done|]. intros out [= <-]. lia.
  - destruct (Py.norm_index docs (r_index r)) as [i|].
    + intros Hrec. apply IH in Hrec as [Hlen Hout].
      rewrite length_alter in Hlen. split; [done|].
      intros out Hok. rewrite (Hout out Hok), length_app. simpl. lia.
    + intros [= <- <-]. split; [done|]. intros out [=].
Qed.

(** [rerank_documents] never raises. *)
Lemma rerank_documents_returns (query : string) (docs : list Candidate)
    (top_n : Z) (w : World) :
  ∃ out w', rerank_documents env query docs top_n w = (Ok out, w').
Proof.
  destruct docs as [|doc rest]; [by eexists _, _|].
  unfold rerank_documents, call.
  destruct (cohere_rerank env _ _ _ _) as [rs|e].
  - destruct (rerank_collect rs (doc :: rest) []) as [docs' [results|e]].
    + by eexists _, _.
    + rewrite rerank_failed_run. by eexists _, _.
  - rewrite rerank_failed_run. by eexists _, _.
Qed.

(** With a service that honours [top_n] and a [top_n] that is not negative,
    at most [min(top_n, len(docs))] candidates come back, reranked or not. *)
Lemma rerank_documents_length (query : string) (docs : list Candidate)
    (top_n : Z) (w w' : World) (out : list Candidate) :
  honours_top_n env → 0 <= top_n →
  rerank_documents env query docs top_n w = (Ok out, w') →
  Z.of_nat (length out) <= Z.min top_n (Z.of_nat (length docs)).
Proof.
  intros Hsvc Hn.
  destruct docs as [|doc rest].
  { intros [= <- <-]. simpl. lia. }
  unfold rerank_documents, call.
  destruct (cohere_rerank env _ _ _ _) as [rs|e] eqn:Hcall.
  - apply Hsvc in Hcall.
    destruct (rerank_collect rs (doc :: rest) []) as [docs' [results|e]] eqn:Hcol.
    + apply rerank_collect_lengths in Hcol as [_ Hout].
      specialize (Hout results eq_refl). simpl in Hout.
      intros [= <- <-]. pose proof (length_deref docs' results). lia.
    + apply rerank_collect_lengths in Hcol as [Hlen _].
      rewrite rerank_failed_run. intros [= <- <-].
      rewrite <- Hlen. by apply slice_to_length.
  - rewrite rerank_failed_run. intros [= <- <-]. by apply slice_to_length.
Qed.

(** ** The OpenAI calls *)

Lemma get_embedding_run (text : string) (w : World) :
  get_embedding env text w =
    (match embeddings_create env "text-embedding-3-small" text with
     | Ok (embedding :: _) => Ok embedding
     | Ok [] =>
         Raise (HTTPException 500
                  "Embedding generation failed: list index out of range")
     | Raise e =>
         Raise (HTTPException (status_of e)
                  (match e with
                   | RateLimitError _ =>
                       "OpenAI rate limit exceeded. Please try again later."
                   | APIError _ => "OpenAI API error: " +:+ str_exn e
                   | _ => "Embedding generation failed: " +:+ str_exn e
                   end))
     end,
     logged w [EmbeddingsCreate "text-embedding-3-small" text]).
Proof.
  unfold get_embedding, try_except, bind, call, logged.
  destruct (embeddings_create env _ text) as [[|embedding ?]|e]; try done.
  by destruct e.
Qed.

Lemma generate_answer_run (query : string) (docs : list Candidate) (w : World) :
  ∃ system user : string,
    generate_answer env query docs w =
      (match chat_completions_create env "gpt-4-turbo-preview" system user
               (fdec 2 (-1)) 800 with
       | Ok response =>
           match choices response with
           | content :: _ =>
               match assemble_context env docs w with
               | (Ok st, _) =>
                   Ok {| answer := content;
                         tokens_input := prompt_tokens (usage response);
                         tokens_output := completion_tokens (usage response);
                         tokens_total := usage_total_tokens (usage response);
                         answer_sources := sources st |}
               | (Raise e, _) => Raise e
               end
           | [] =>
               Raise (HTTPException 500
                        "Answer generation failed: list index out of range")
           end
       | Raise e =>
           Raise (HTTPException (status_of e)
                    (match e with
                     | RateLimitError _ =>
                         "OpenAI rate limit exceeded. Please try again later."
                     | APIError _ => "OpenAI API error: " +:+ str_exn e
                     | _ => "Answer generation failed: " +:+ str_exn e
                     end))
       end,
       logged w [ChatCompletionsCreate "gpt-4-turbo-preview" system user]).
Proof.
  destruct (assemble_context_run docs) as (n & _ & Hrun & _).
  unfold generate_answer. rewrite (bind_ok _ _ _ _ _ (Hrun w)), Hrun.
  exists (Py.strip system_prompt),
         (Py.strip (user_prompt
                      (Py.join (nl +:+ nl)
                         (context_blocks (accepted_by env 1 docs n no_context)))
                      query)).
  unfold try_except, bind, call, logged.
  destruct (chat_completions_create env _ _ _ _ _) as [response|e].
  - by destruct (choices response).
  - by destruct e.
Qed.

(** C6, as the code has it: a failed OpenAI call, for an embedding or for
    the answer, is surfaced as an HTTPException whose status depends on the
    kind of the exception: 429 for a rate limit, 503 for any other OpenAI
    API error, 500 for any exception that is not an OpenAI API error. The
    service has been called exactly once: nothing is retried. *)
Theorem openai_failure_surfaces_by_kind :
  (∀ (text : string) (e : exn) (w : World),
     embeddings_create env "text-embedding-3-small" text = Raise e →
     ∃ detail : string,
       get_embedding env text w =
         (Raise (HTTPException
                   (match e with
                    | RateLimitError _ => 429
                    | APIError _ => 503
                    | _ => 500
                    end) detail),
          logged w [EmbeddingsCreate "text-embedding-3-small" text])) ∧
  (∀ (query : string) (docs : list Candidate) (e : exn) (w : World),
     (∀ system user,
        chat_completions_create env "gpt-4-turbo-preview" system user
          (fdec 2 (-1)) 800 = Raise e) →
     ∃ detail system user : string,
       generate_answer env query docs w =
         (Raise (HTTPException
                   (match e with
                    | RateLimitError _ => 429
                    | APIError _ => 503
                    | _ => 500
                    end) detail),
          logged w [ChatCompletionsCreate "gpt-4-turbo-preview" system user])).
Proof.
  split.
  - intros text e w Hfail. rewrite get_embedding_run, Hfail. by eexists.
  - intros query docs e w Hfail.
    destruct (generate_answer_run query docs w) as (system & user & ->).
    rewrite Hfail. by eexists _, _, _.
Qed.

(** ** The /query route *)

(** Every response of the route comes from one of its two [return]s. *)
Lemma query_documents_inv (req : QueryRequest) (w w' : World) (resp : QueryResponse) :
  query_documents env req w = (Ok resp, w') →
  Py.strip (query req) ≠ "" ∧
  ∃ vec others matches,
    embeddings_create env "text-embedding-3-small" (query req) = Ok (vec :: others) ∧
    index_query env vec (top_k req) = Ok matches ∧
    let query_tokens := token_count env (query req) in
    let w2 := retrieved req vec w in
    (extract_docs matches = [] ∧
     resp = no_match_response [embedding_timing env w; retrieval_timing env w] query_tokens ∧
     w' = w2)
    ∨
    (extract_docs matches ≠ [] ∧
     ∃ diversified ranked result w3 w4,
       mmr_diversify (extract_docs matches) 2 w2 = (Ok diversified, w2) ∧
       rerank_documents env (query req) diversified (rerank_top_n req) (tick w2)
         = (Ok ranked, w3) ∧
       generate_answer env (query req) ranked (tick (tick w3)) = (Ok result, w4) ∧
       let reranking := fround (fsub (clock env (ticks w3)) (clock env (ticks w2))) 3 in
       let generation :=
         fround (fsub (clock env (ticks w4)) (clock env (S (ticks w3)))) 3 in
       let timing4 := [embedding_timing env w; retrieval_timing env w;
                       ("reranking", reranking); ("generation", generation)] in
       resp = answered_response
                (timing4 ++ [("total", fround (sum_values timing4) 3)])
                query_tokens result ∧
       w' = tick w4).
Proof.
  unfold query_documents.
  case_bool_decide as Hblank; [intros [=]|].
  intros Hrun. split; [done|].
  apply bind_inv in Hrun as (t0 & w1 & [= <- <-] & Hrun).
  apply bind_inv in Hrun as ([vec query_tokens] & w2 & Hembed & Hrun).
  apply try_except_inv in Hembed as [Hembed|(e & ? & _ & Hbad)];
    [|by apply reraise_as_500_raises in Hbad].
  apply bind_inv in Hembed as (vec' & w1' & Hvec & Htok).
  rewrite get_embedding_run in Hvec.
  destruct (embeddings_create env _ (query req)) as [[|v others]|e] eqn:Hemb;
    [done| |done].
  injection Hvec as <- <-.
  rewrite (bind_ok _ _ _ _ _ (get_token_count_run _ _)) in Htok.
  injection Htok as <- <- <-.
  exists v, others. simpl in Hrun.
  apply bind_inv in Hrun as (dt1 & w3 & [= <- <-] & Hrun).
  apply bind_inv in Hrun as (t2 & w4 & [= <- <-] & Hrun).
  apply bind_inv in Hrun as (matches & w5 & Hindex & Hrun).
  apply try_except_inv in Hindex as [Hindex|(e & ? & _ & [=])].
  unfold call in Hindex.
  destruct (index_query env v (top_k req)) as [ms|e] eqn:Hidx; [|done].
  injection Hindex as <- <-.
  exists ms. split; [done|]. split; [done|].
  apply bind_inv in Hrun as (dt2 & w6 & [= <- <-] & Hrun).
  simpl in Hrun.
  assert (Hw2 : {| ticks := S (S (S (S (ticks w))));
                   log := (log w ++ [EmbeddingsCreate "text-embedding-3-small"
                                       (query req)])
                          ++ [IndexQuery v (top_k req)] |}
                = retrieved req v w).
  { unfold retrieved. by rewrite <- app_assoc. }
  rewrite Hw2 in Hrun. clear Hw2.
  destruct (extract_docs ms) as [|d ds] eqn:Hdocs.
  - left. by injection Hrun as <- <-.
  - right. split; [done|].
    apply bind_inv in Hrun as (diversified & wa & Hmmr & Hrun).
    destruct (mmr_diversify_run (d :: ds) 2) as (out & Hout & _).
    rewrite Hout in Hmmr. injection Hmmr as <- <-.
    apply bind_inv in Hrun as (t3 & wb & [= <- <-] & Hrun).
    apply bind_inv in Hrun as (ranked & w3 & Hrank & Hrun).
    apply bind_inv in Hrun as (dt3 & wc & [= <- <-] & Hrun).
    apply bind_inv in Hrun as (t4 & wd & [= <- <-] & Hrun).
    apply bind_inv in Hrun as (result & w4 & Hgen & Hrun).
    apply try_except_inv in Hgen as [Hgen|(e & ? & _ & Hbad)];
      [|by apply reraise_as_500_raises in Hbad].
    apply bind_inv in Hrun as (dt4 & we & [= <- <-] & Hrun).
    injection Hrun as <- <-.
    by exists out, ranked, result, w3, w4.
Qed.

Lemma extract_docs_without_text (matches : list Match) :
  Forall (λ m, match_metadata m !! "text" = None) matches →
  extract_docs matches = [].
Proof.
  unfold extract_docs. induction 1 as [|m ms Hm _ IH]; [done|].
  simpl. rewrite Hm. exact IH.
Qed.

(** The run that ends at the first [return]. *)
Lemma query_documents_no_match (req : QueryRequest) (vec : list float)
    (others : list (list float)) (matches : list Match) (w : World) :
  Py.strip (query req) ≠ "" →
  embeddings_create env "text-embedding-3-small" (query req) = Ok (vec :: others) →
  index_query env vec (top_k req) = Ok matches →
  extract_docs matches = [] →
  query_documents env req w =
    (Ok (no_match_response [embedding_timing env w; retrieval_timing env w]
           (token_count env (query req))),
     retrieved req vec w).
Proof.
  intros Hblank Hemb Hidx Hdocs. unfold query_documents.
  rewrite bool_decide_eq_false_2 by done.
  unfold bind at 1. unfold time_time at 1.
  unfold bind at 1. unfold try_except at 1. unfold bind at 1.
  rewrite get_embedding_run, Hemb.
  rewrite (bind_ok _ _ _ _ _ (get_token_count_run _ _)).
  unfold ret at 1. cbv beta iota.
  unfold bind at 1. unfold elapsed at 1. unfold bind at 1, time_time at 1, ret at 1.
  unfold bind at 1. unfold time_time at 1.
  unfold bind at 1. unfold try_except at 1, call at 1. simpl fst. rewrite Hidx.
  unfold bind at 1. unfold elapsed at 1. unfold bind at 1, time_time at 1, ret at 1.
  rewrite Hdocs. unfold ret, retrieved, logged; simpl.
  by rewrite <- app_assoc.
Qed.

Lemma rerank_documents_ticks (query : string) (docs : list Candidate)
    (top_n : Z) (w w' : World) r :
  rerank_documents env query docs top_n w = (r, w') → ticks w' = ticks w.
Proof.
  destruct docs as [|doc rest]; [by intros [= _ <-]|].
  unfold rerank_documents, call.
  destruct (cohere_rerank env _ _ _ _) as [rs|e].
  - destruct (rerank_collect rs (doc :: rest) []) as [docs' [results|e]].
    + by intros [= _ <-].
    + rewrite rerank_failed_run. by intros [= _ <-].
  - rewrite rerank_failed_run. by intros [= _ <-].
Qed.

Lemma generate_answer_ticks (query : string) (docs : list Candidate)
    (w w' : World) r :
  generate_answer env query docs w = (r, w') → ticks w' = ticks w.
Proof.
  destruct (generate_answer_run query docs w) as (system & user & ->).
  by intros [= _ <-].
Qed.

(** C5, as the code has it: for every query text that is not blank, when
    the embedding call succeeds and the index returns no match carrying a
    text, the route returns the canned answer with no source, the query's
    embedding tokens as the only tokens, an llm cost and a rerank cost of
    zero and a total cost equal to the embedding cost; the only calls made
    are the embedding call and the index query, so no later stage ran. *)
Theorem no_match_short_circuit (req : QueryRequest) (vec : list float)
    (others : list (list float)) (matches : list Match) (w : World) :
  Py.strip (query req) ≠ "" →
  embeddings_create env "text-embedding-3-small" (query req) = Ok (vec :: others) →
  index_query env vec (top_k req) = Ok matches →
  Forall (λ m, match_metadata m !! "text" = None) matches →
  ∃ (resp : QueryResponse) (w' : World),
    query_documents env req w = (Ok resp, w') ∧
    resp_answer resp =
      "I couldn't find any relevant information in the knowledge base to answer your question. Please try rephrasing or upload relevant documents first." ∧
    resp_sources resp = [] ∧
    embedding_tokens (token_estimate resp) = token_count env (query req) ∧
    llm_input_tokens (token_estimate resp) = 0 ∧
    llm_output_tokens (token_estimate resp) = 0 ∧
    total_tokens (token_estimate resp) = token_count env (query req) ∧
    costs (token_estimate resp) !! "llm_usd" = Some (fdec 0 0) ∧
    costs (token_estimate resp) !! "rerank_usd" = Some (fdec 0 0) ∧
    costs (token_estimate resp) !! "embedding_usd"
      = Some (fround (fmul (fdiv (float_of_int (token_count env (query req)))
                                 (float_of_int 1000))
                           (fdec 2 (-5))) 6) ∧
    costs (token_estimate resp) !! "total_usd"
      = costs (token_estimate resp) !! "embedding_usd" ∧
    log w' = log w ++ [EmbeddingsCreate "text-embedding-3-small" (query req);
                       IndexQuery vec (top_k req)].
Proof.
  intros Hblank Hemb Hidx Hnone.
  eexists _, _. split.
  - apply (query_documents_no_match req vec others matches w); try done.
    by apply extract_docs_without_text.
  - by repeat split.
Qed.

(** C7, as the code has it: the response to an answered query, one whose
    retrieval gave at least one candidate with a text, has a timing map of
    exactly five entries, in this order: embedding, retrieval, reranking,
    generation, each the rounded difference of the two clock readings
    around its stage (the diversity filter in between is not timed, and
    the context budgeting is timed within generation), and total, which is
    the sum of those four recorded times, started from 0 and rounded to
    three decimals, not the time from the first reading to the last. *)
Theorem answered_timing (req : QueryRequest) (vec : list float)
    (others : list (list float)) (matches : list Match) (w w' : World)
    (resp : QueryResponse) :
  embeddings_create env "text-embedding-3-small" (query req) = Ok (vec :: others) →
  index_query env vec (top_k req) = Ok matches →
  extract_docs matches ≠ [] →
  query_documents env req w = (Ok resp, w') →
  let t := ticks w in
  let embedding := fround (fsub (clock env (1 + t)) (clock env t)) 3 in
  let retrieval := fround (fsub (clock env (3 + t)) (clock env (2 + t))) 3 in
  let reranking := fround (fsub (clock env (5 + t)) (clock env (4 + t))) 3 in
  let generation := fround (fsub (clock env (7 + t)) (clock env (6 + t))) 3 in
  timing resp =
    [("embedding", embedding); ("retrieval", retrieval);
     ("reranking", reranking); ("generation", generation);
     ("total",
      fround (fadd (fadd (fadd (fadd (float_of_int 0) embedding) retrieval)
                         reranking) generation) 3)].
Proof.
  intros Hemb Hidx Hdocs Hrun.
  apply query_documents_inv in Hrun
    as (_ & vec' & others' & matches' & Hemb' & Hidx' & Hcases).
  rewrite Hemb in Hemb'. injection Hemb' as <- <-.
  rewrite Hidx in Hidx'. injection Hidx' as <-.
  destruct Hcases as [(Hnil & _)|(_ & div & ranked & result & w3 & w4
                                  & _ & Hrank & Hgen & -> & _)]; [done|].
  apply rerank_documents_ticks in Hrank.
  apply generate_answer_ticks in Hgen.
  simpl in Hrank, Hgen. rewrite Hgen, Hrank. reflexivity.
Qed.

(** C8: for every answered query, total_tokens is the token count of the
    query plus the total_tokens the generation service reported in its
    usage, while embedding_tokens is the token count of the query and
    llm_input_tokens and llm_output_tokens are the prompt and completion
    tokens of that same usage. *)
Theorem answered_token_estimate (req : QueryRequest) (vec : list float)
    (others : list (list float)) (matches : list Match) (w w' : World)
    (resp : QueryResponse) :
  embeddings_create env "text-embedding-3-small" (query req) = Ok (vec :: others) →
  index_query env vec (top_k req) = Ok matches →
  extract_docs matches ≠ [] →
  query_documents env req w = (Ok resp, w') →
  ∃ (completion : ChatCompletion) (system user : string),
    chat_completions_create env "gpt-4-turbo-preview" system user (fdec 2 (-1)) 800
      = Ok completion ∧
    total_tokens (token_estimate resp)
      = token_count env (query req) + usage_total_tokens (usage completion) ∧
    embedding_tokens (token_estimate resp) = token_count env (query req) ∧
    llm_input_tokens (token_estimate resp) = prompt_tokens (usage completion) ∧
    llm_output_tokens (token_estimate resp) = completion_tokens (usage completion).
Proof.
  intros Hemb Hidx Hdocs Hrun.
  apply query_documents_inv in Hrun
    as (_ & vec' & others' & matches' & Hemb' & Hidx' & Hcases).
  rewrite Hemb in Hemb'. injection Hemb' as <- <-.
  rewrite Hidx in Hidx'. injection Hidx' as <-.
  destruct Hcases as [(Hnil & _)|(_ & div & ranked & result & w3 & w4
                                  & _ & _ & Hgen & -> & _)]; [done|].
  destruct (generate_answer_run (query req) ranked (tick (tick w3)))
    as (system & user & Hgen').
  rewrite Hgen' in Hgen.
  destruct (chat_completions_create env _ system user _ _)
    as [completion|e] eqn:Hchat; [|done].
  exists completion, system, user. split; [done|].
  destruct (choices completion) as [|content ?]; [done|].
  destruct (assemble_context env ranked _) as [[st|e] ?]; [|done].
  by injection Hgen as <- <-.
Qed.

(** C9, as the code has it: when rerank_top_n is not negative and the
    rerank service returns no more results than the top_n it is given,
    every response of the route, answered or not, lists at most
    rerank_top_n sources: [rerank_documents] returns at most
    min(top_n, len(docs)) candidates, reranked or degraded, and the context
    budgeter returns no more sources than it was given candidates. *)
Theorem sources_at_most_rerank_top_n (req : QueryRequest) :
  honours_top_n env →
  0 <= rerank_top_n req →
  (∀ (w w' : World) (resp : QueryResponse),
     query_documents env req w = (Ok resp, w') →
     Z.of_nat (length (resp_sources resp)) <= rerank_top_n req) ∧
  (∀ (docs out : list Candidate) (w w' : World),
     rerank_documents env (query req) docs (rerank_top_n req) w = (Ok out, w') →
     Z.of_nat (length out)
       <= Z.min (rerank_top_n req) (Z.of_nat (length docs))) ∧
  (∀ (docs : list Candidate) (w : World),
     ∃ st, assemble_context env docs w = (Ok st, w) ∧
           (length (sources st) ≤ length docs)%nat).
Proof.
  intros Hsvc Hn.
  assert (Hbudget : ∀ (docs : list Candidate) (w : World),
            ∃ st, assemble_context env docs w = (Ok st, w) ∧
                  (length (sources st) ≤ length docs)%nat).
  { intros docs w.
    destruct (assemble_context_run docs) as (n & Hle & Hassemble & _).
    eexists. split; [apply Hassemble|].
    by rewrite accepted_by_sources_length. }
  split; [|split; [|exact Hbudget]].
  - intros w w' resp Hrun.
    apply query_documents_inv in Hrun
      as (_ & vec & others & matches & _ & _ & Hcases).
    destruct Hcases as [(_ & -> & _)|(_ & div & ranked & result & w3 & w4
                                      & _ & Hrank & Hgen & -> & _)]; [done|].
    apply (rerank_documents_length _ _ _ _ _ _ Hsvc Hn) in Hrank.
    apply generate_answer_sources in Hgen as (st & Hst & Hsrc).
    destruct (Hbudget ranked (tick (tick w3))) as (st' & Hst' & Hlen).
    rewrite Hst' in Hst. injection Hst as <-.
    simpl. rewrite Hsrc. lia.
  - intros docs out w w' Hrank.
    by apply (rerank_documents_length _ _ _ _ _ _ Hsvc Hn) in Hrank.
Qed.

(** * Further properties of the pipeline *)

(** ** The diversity filter keeps the first candidates of each document *)

Lemma mmr_loop_first (docs : list Candidate) (cap : Z) :
  ∀ (seen : gmap string Z) (kept : list Candidate),
    seen_counts seen kept →
    ∃ more : list Candidate,
      (∀ w, mmr_loop docs cap seen kept w = (Ok (kept ++ more), w)) ∧
      ∀ d, filter (λ c, document_id c = d) more
           = take (Z.to_nat cap - count_document d kept)
                  (filter (λ c, document_id c = d) docs).
Proof.
  induction docs as [|doc rest IH]; intros seen kept Hseen.
  - exists []. rewrite app_nil_r. split; [done|]. intros d.
    by rewrite !filter_nil, take_nil.
  - destruct (setdefault_lookup (document_id doc) seen kept Hseen) as [Hlook Hseen'].
    set (n := Z.of_nat (count_document (document_id doc) kept)) in *.
    assert (Hget : ∀ w, getitem (setdefault (document_id doc) 0 seen)
                          (document_id doc) w = (Ok n, w)).
    { intros w. unfold getitem. by rewrite Hlook. }
    destruct (n <? cap) eqn:Hlt.
    + assert (Hlt' : n < cap) by by apply Z.ltb_lt.
      destruct (IH (<[document_id doc := n + 1]>
                      (setdefault (document_id doc) 0 seen)) (kept ++ [doc]))
        as (more & Hrun & Hfirst).
      { intros d. rewrite count_document_snoc.
        destruct (decide (document_id doc = d)) as [<-|Hne].
        - rewrite lookup_insert_eq. subst n. lia.
        - rewrite lookup_insert_ne, Nat.add_0_r by done. apply Hseen'. }
      exists (doc :: more). split.
      * intros w. simpl mmr_loop.
        rewrite (bind_ok _ _ _ _ _ (Hget w)), Hlt.
        rewrite (bind_ok _ _ _ _ _ (Hget w)), Hrun.
        by rewrite <- app_assoc.
      * intros d. rewrite !filter_cons, Hfirst, count_document_snoc.
        destruct (decide (document_id doc = d)) as [<-|Hne].
        -- subst n.
           destruct (Z.to_nat cap - count_document (document_id doc) kept)%nat
             as [|k] eqn:Hk; [lia|].
           simpl. f_equal. f_equal. lia.
        -- by rewrite Nat.add_0_r.
    + assert (Hge : cap <= n) by by apply Z.ltb_ge.
      destruct (IH (setdefault (document_id doc) 0 seen) kept Hseen')
        as (more & Hrun & Hfirst).
      exists more. split.
      * intros w. simpl mmr_loop.
        rewrite (bind_ok _ _ _ _ _ (Hget w)). by rewrite Hlt.
      * intros d. rewrite filter_cons, Hfirst.
        destruct (decide (document_id doc = d)) as [<-|Hne]; [|done].
        subst n.
        replace (Z.to_nat cap - count_document (document_id doc) kept)%nat
          with 0%nat by lia.
        done.
Qed.

(** Of every document, [mmr_diversify] keeps exactly the first
    [max_per_doc] candidates in input order, all of them when there are
    fewer, none when the cap is zero or negative. *)
Theorem mmr_diversify_keeps_first (docs : list Candidate) (max_per_doc : Z)
    (w : World) :
  ∃ diversified : list Candidate,
    mmr_diversify docs max_per_doc w = (Ok diversified, w) ∧
    ∀ d : string,
      filter (λ c, document_id c = d) diversified
      = take (Z.to_nat max_per_doc) (filter (λ c, document_id c = d) docs).
Proof.
  destruct (mmr_loop_first docs max_per_doc ∅ []) as (out & Hrun & Hfirst).
  - intros d. by rewrite lookup_empty.
  - exists out. split; [apply Hrun|].
    intros d. rewrite Hfirst. f_equal. unfold count_document. simpl. lia.
Qed.

Lemma mmr_loop_within_cap (docs : list Candidate) (cap : Z) :
  ∀ (seen : gmap string Z) (kept : list Candidate),
    seen_counts seen kept →
    (∀ d, Z.of_nat (count_document d kept + count_document d docs) <= cap
          ∨ count_document d docs = 0%nat) →
    ∀ w, mmr_loop docs cap seen kept w = (Ok (kept ++ docs), w).
Proof.
  induction docs as [|doc rest IH]; intros seen kept Hseen Hroom w.
  - by rewrite app_nil_r.
  - destruct (setdefault_lookup (document_id doc) seen kept Hseen) as [Hlook Hseen'].
    set (n := Z.of_nat (count_document (document_id doc) kept)) in *.
    assert (Hget : ∀ w, getitem (setdefault (document_id doc) 0 seen)
                          (document_id doc) w = (Ok n, w)).
    { intros w0. unfold getitem. by rewrite Hlook. }
    assert (Hhead : ∀ d, count_document d (doc :: rest)
                         = ((if decide (document_id doc = d) then 1 else 0)
                            + count_document d rest)%nat).
    { intros d. unfold count_document. rewrite filter_cons.
      by destruct (decide (document_id doc = d)). }
    assert (Hlt : n < cap).
    { destruct (Hroom (document_id doc)) as [Hle|Hzero];
        rewrite Hhead in *; rewrite decide_True in * by done; subst n; lia. }
    simpl mmr_loop.
    rewrite (bind_ok _ _ _ _ _ (Hget w)), (proj2 (Z.ltb_lt _ _) Hlt).
    rewrite (bind_ok _ _ _ _ _ (Hget w)).
    rewrite (IH (<[document_id doc := n + 1]>
                   (setdefault (document_id doc) 0 seen)) (kept ++ [doc])).
    + by rewrite <- app_assoc.
    + intros d. rewrite count_document_snoc.
      destruct (decide (document_id doc = d)) as [<-|Hne].
      * rewrite lookup_insert_eq. subst n. lia.
      * rewrite lookup_insert_ne, Nat.add_0_r by done. apply Hseen'.
    + intros d. rewrite count_document_snoc.
      specialize (Hroom d). rewrite Hhead in Hroom.
      destruct (decide (document_id doc = d)) as [<-|Hne]; lia.
Qed.

Lemma count_document_elem (c : Candidate) (l : list Candidate) :
  c ∈ l → (0 < count_document (document_id c) l)%nat.
Proof.
  intros Hin. unfold count_document.
  assert (c ∈ filter (λ c', document_id c' = document_id c) l) as Hf
    by by apply list_elem_of_filter.
  destruct (filter _ l); [by apply not_elem_of_nil in Hf|simpl; lia].
Qed.

(** A list in which no document has more than [max_per_doc] candidates
    comes back unchanged; in particular filtering twice gives what
    filtering once gives. *)
Theorem mmr_diversify_idempotent (docs : list Candidate) (max_per_doc : Z)
    (w : World) :
  ((∀ d, Z.of_nat (count_document d docs) <= max_per_doc) →
   mmr_diversify docs max_per_doc w = (Ok docs, w)) ∧
  ∃ diversified : list Candidate,
    mmr_diversify docs max_per_doc w = (Ok diversified, w) ∧
    mmr_diversify diversified max_per_doc w = (Ok diversified, w).
Proof.
  assert (Hid : ∀ l : list Candidate,
            (∀ d, Z.of_nat (count_document d l) <= max_per_doc
                  ∨ count_document d l = 0%nat) →
            mmr_diversify l max_per_doc w = (Ok l, w)).
  { intros l Hl. unfold mmr_diversify.
    rewrite (mmr_loop_within_cap l max_per_doc ∅ []); [done| |].
    - intros d. by rewrite lookup_empty.
    - intros d. destruct (Hl d); [left|right]; simpl; [|done].
      by change (count_document d []) with 0%nat. }
  split.
  - intros Hcap. apply Hid. intros d. left. apply Hcap.
  - destruct (mmr_diversify_run docs max_per_doc) as (out & Hrun & _ & Hcap).
    exists out. split; [apply Hrun|].
    apply Hid. intros d. destruct (Hcap d); [by right|by left].
Qed.

(** ** The reranker moves candidates, it does not rewrite them *)

Lemma norm_index_length {A B} (l : list A) (l' : list B) (i : Z) :
  length l = length l' → Py.norm_index l i = Py.norm_index l' i.
Proof. unfold Py.norm_index. by intros ->. Qed.

Lemma norm_index_lt {A} (l : list A) (i : Z) (k : nat) :
  Py.norm_index l i = Some k → (k < length l)%nat.
Proof.
  unfold Py.norm_index.
  destruct ((0 <=? i) && (i <? Z.of_nat (length l))) eqn:H1.
  - apply andb_true_iff in H1 as [H0 H1].
    apply Z.leb_le in H0. apply Z.ltb_lt in H1. intros [= <-]. lia.
  - destruct ((- Z.of_nat (length l) <=? i) && (i <? 0)) eqn:H2; [|done].
    apply andb_true_iff in H2 as [H0 H2].
    apply Z.leb_le in H0. apply Z.ltb_lt in H2. intros [= <-]. lia.
Qed.

Lemma norm_index_nonneg {A} (l : list A) (i : Z) :
  0 <= i < Z.of_nat (length l) → Py.norm_index l i = Some (Z.to_nat i).
Proof.
  intros [H0 H1]. unfold Py.norm_index.
  by rewrite (proj2 (Z.leb_le _ _) H0), (proj2 (Z.ltb_lt _ _) H1).
Qed.

Lemma rerank_collect_payload (rs : list RerankResult) :
  ∀ (docs : list Candidate) (results : list nat) docs' outcome,
    rerank_collect rs docs results = (docs', outcome) →
    payload <$> docs' = payload <$> docs.
Proof.
  induction rs as [|r rs IH]; intros docs results docs' outcome; simpl.
  - by intros [= <- _].
  - destruct (Py.norm_index docs (r_index r)) as [i|]; [|by intros [= <- _]].
    intros Hrec. apply IH in Hrec. rewrite Hrec.
    generalize (relevance_score r). clear. intros s.
    revert i. induction docs as [|d docs IHd]; intros [|i]; simpl; try done.
    f_equal. apply IHd.
Qed.

Lemma slice_to_fmap {A B} (f : A → B) (l : list A) (n : Z) :
  f <$> Py.slice_to l n = Py.slice_to (f <$> l) n.
Proof.
  unfold Py.slice_to. rewrite length_fmap.
  destruct (0 <=? n); apply fmap_take.
Qed.

Lemma slice_to_payload (docs : list Candidate) (n : Z) :
  payload <$> Py.slice_to docs n ⊆ payload <$> docs.
Proof.
  intros p Hp. apply list_elem_of_fmap in Hp as (c & -> & Hc).
  apply list_elem_of_fmap_2. revert Hc. unfold Py.slice_to.
  destruct (0 <=? n); apply subseteq_take.
Qed.

Lemma deref_payload (docs : list Candidate) (results : list nat) :
  payload <$> deref docs results ⊆ payload <$> docs.
Proof.
  intros p Hp. apply list_elem_of_fmap in Hp as (c & -> & Hc).
  unfold deref in Hc. apply list_elem_of_omap in Hc as (i & _ & Hi).
  apply list_elem_of_fmap_2. by eapply list_elem_of_lookup_2.
Qed.

(** Whatever the rerank service does, [rerank_documents] returns normally,
    and every candidate it returns is one of the candidates it was given,
    with the same text, metadata and similarity score: only the rerank
    score can differ. *)
Theorem rerank_documents_returns_given_candidates (query : string)
    (docs : list Candidate) (top_n : Z) (w : World) :
  ∃ (out : list Candidate) (w' : World),
    rerank_documents env query docs top_n w = (Ok out, w') ∧
    payload <$> out ⊆ payload <$> docs.
Proof.
  destruct docs as [|doc rest]; [by exists [], w|].
  unfold rerank_documents, call.
  destruct (cohere_rerank env _ _ _ _) as [rs|e].
  - destruct (rerank_collect rs (doc :: rest) []) as [docs' [results|e]] eqn:Hcol;
      apply rerank_collect_payload in Hcol.
    + eexists _, _. split; [done|]. rewrite <- Hcol. apply deref_payload.
    + rewrite rerank_failed_run. eexists _, _. split; [done|].
      rewrite <- Hcol. apply slice_to_payload.
  - rewrite rerank_failed_run. eexists _, _. split; [done|].
    apply slice_to_payload.
Qed.

Lemma rerank_collect_distinct (rs : list RerankResult) :
  ∀ (docs : list Candidate) (results : list nat),
    Forall (λ r, 0 <= r_index r < Z.of_nat (length docs)) rs →
    NoDup (position <$> rs) →
    ∃ docs',
      rerank_collect rs docs results = (docs', Ok (results ++ (position <$> rs))) ∧
      Forall (λ r, docs' !! position r
                   = set_rerank_score (relevance_score r) <$> docs !! position r) rs ∧
      ∀ j, j ∉ position <$> rs → docs' !! j = docs !! j.
Proof.
  induction rs as [|r rs IH]; intros docs results Hrange Hdup.
  - exists docs. rewrite app_nil_r. by repeat split.
  - apply Forall_cons in Hrange as [Hr Hrange].
    apply NoDup_cons in Hdup as [Hfresh Hdup].
    simpl rerank_collect. rewrite (norm_index_nonneg docs _ Hr).
    fold (position r).
    destruct (IH (alter (set_rerank_score (relevance_score r)) (position r) docs)
                (results ++ [position r])) as (docs' & Hrun & Hset & Hrest);
      [by rewrite length_alter|done|].
    exists docs'. split; [|split].
    + rewrite Hrun. by rewrite <- app_assoc.
    + constructor.
      * rewrite (Hrest _ Hfresh). apply list_lookup_alter_eq.
      * eapply Forall_impl; [apply Forall_and; split; [exact Hset|]|].
        { apply Forall_forall. intros r' Hr'. exact Hr'. }
        intros r' [Hr'set Hr'in]. simpl in *. rewrite Hr'set.
        rewrite list_lookup_alter_ne; [done|].
        intros Heq. apply Hfresh. rewrite Heq.
        by apply list_elem_of_fmap_2.
    + intros j Hj. apply not_elem_of_cons in Hj as [Hne Hj].
      rewrite (Hrest j Hj). by apply list_lookup_alter_ne.
Qed.

Lemma position_NoDup (docs : list Candidate) (rs : list RerankResult) :
  Forall (λ r, 0 <= r_index r < Z.of_nat (length docs)) rs →
  NoDup (r_index <$> rs) → NoDup (position <$> rs).
Proof.
  intros Hrange Hdup. unfold position.
  change (λ r, Z.to_nat (r_index r)) with (Z.to_nat ∘ r_index).
  rewrite list_fmap_compose. apply NoDup_fmap_2_strong; [|done].
  intros x y Hx Hy Hxy.
  apply list_elem_of_fmap in Hx as (rx & -> & Hrx).
  apply list_elem_of_fmap in Hy as (ry & -> & Hry).
  rewrite Forall_forall in Hrange.
  pose proof (Hrange _ Hrx). pose proof (Hrange _ Hry). lia.
Qed.

Lemma deref_written (docs docs' : list Candidate) (rs : list RerankResult) :
  Forall (λ r, 0 <= r_index r < Z.of_nat (length docs)) rs →
  Forall (λ r, docs' !! position r
               = set_rerank_score (relevance_score r) <$> docs !! position r) rs →
  Forall2 (λ r c, ∃ d, docs !! Z.to_nat (r_index r) = Some d ∧
                       c = set_rerank_score (relevance_score r) d)
          rs (deref docs' (position <$> rs)).
Proof.
  intros Hrange Hset. unfold deref.
  induction rs as [|r rs IH]; [constructor|].
  apply Forall_cons in Hset as [Hr Hset].
  apply Forall_cons in Hrange as [Hrr Hrange].
  destruct (docs !! position r) as [d|] eqn:Hd.
  - change (omap (λ i, docs' !! i) (position <$> r :: rs))
      with (match docs' !! position r with
            | Some c => c :: omap (λ i, docs' !! i) (position <$> rs)
            | None => omap (λ i, docs' !! i) (position <$> rs)
            end).
    rewrite Hr. simpl. constructor; [by exists d|by apply IH].
  - apply lookup_ge_None in Hd. unfold position in Hd. lia.
Qed.

(** When the rerank service answers with positions of the list it was
    given, no position twice, [rerank_documents] returns, in the service's
    order, the candidates at those positions, each carrying the service's
    relevance score as its rerank score and otherwise untouched; the
    service has been called once and nothing is printed. *)
Theorem rerank_documents_follows_service (query : string)
    (docs : list Candidate) (top_n : Z) (rs : list RerankResult) (w : World) :
  docs ≠ [] →
  cohere_rerank env "rerank-english-v3.0" query (text <$> docs)
    (Z.min top_n (Z.of_nat (length docs))) = Ok rs →
  Forall (λ r, 0 <= r_index r < Z.of_nat (length docs)) rs →
  NoDup (r_index <$> rs) →
  ∃ out : list Candidate,
    rerank_documents env query docs top_n w =
      (Ok out,
       logged w [CohereRerank "rerank-english-v3.0" query (text <$> docs)
                   (Z.min top_n (Z.of_nat (length docs)))]) ∧
    Forall2 (λ r c, ∃ d, docs !! Z.to_nat (r_index r) = Some d ∧
                         c = set_rerank_score (relevance_score r) d) rs out.
Proof.
  intros Hdocs Hsvc Hrange Hdup.
  destruct (rerank_collect_distinct rs docs [] Hrange
              (position_NoDup docs rs Hrange Hdup))
    as (docs' & Hrun & Hset & _).
  destruct docs as [|doc rest]; [done|].
  unfold rerank_documents, call. rewrite Hsvc, Hrun.
  eexists. split; [done|]. by apply deref_written.
Qed.

Lemma rerank_collect_invalid (rs : list RerankResult) :
  ∀ (docs : list Candidate) (results : list nat) (n : nat),
    length docs = n →
    Exists (λ r, Py.norm_index (replicate n ()) (r_index r) = None) rs →
    ∃ docs',
      rerank_collect rs docs results
        = (docs', Raise (IndexError "list index out of range")).
Proof.
  induction rs as [|r rs IH]; intros docs results n Hlen Hbad.
  - by apply Exists_nil in Hbad.
  - simpl rerank_collect.
    rewrite (norm_index_length docs (replicate n ()))
      by by rewrite length_replicate.
    destruct (Py.norm_index (replicate n ()) (r_index r)) as [i|] eqn:Hi.
    + apply Exists_cons in Hbad as [Hbad|Hbad]; [congruence|].
      apply (IH _ _ n); [by rewrite length_alter|done].
    + by eexists.
Qed.

(** When the rerank service answers with a position that is not in the
    list, [docs[r.index]] raises inside the [try]: the answer of the
    service is dropped, a warning is printed, and the candidates come back
    in their original order, cut at docs[:top_n], with text, metadata and
    similarity score as given. *)
Theorem rerank_documents_bad_position_degrades (query : string)
    (docs : list Candidate) (top_n : Z) (rs : list RerankResult) (w : World) :
  docs ≠ [] →
  cohere_rerank env "rerank-english-v3.0" query (text <$> docs)
    (Z.min top_n (Z.of_nat (length docs))) = Ok rs →
  Exists (λ r, Py.norm_index docs (r_index r) = None) rs →
  ∃ out : list Candidate,
    rerank_documents env query docs top_n w =
      (Ok out,
       logged w [CohereRerank "rerank-english-v3.0" query (text <$> docs)
                   (Z.min top_n (Z.of_nat (length docs)));
                 Printed "Reranking failed: list index out of range, returning original order"]) ∧
    payload <$> out = Py.slice_to (payload <$> docs) top_n.
Proof.
  intros Hdocs Hsvc Hbad.
  destruct (rerank_collect_invalid rs docs [] (length docs) eq_refl)
    as (docs' & Hrun).
  { eapply Exists_impl; [exact Hbad|]. intros r Hr. simpl in Hr.
    by rewrite <- (norm_index_length docs) by by rewrite length_replicate. }
  pose proof (rerank_collect_payload _ _ _ _ _ Hrun) as Hpay.
  destruct docs as [|doc rest]; [done|].
  unfold rerank_documents, call. rewrite Hsvc, Hrun, rerank_failed_run.
  eexists. split.
  - unfold logged; simpl. by rewrite <- app_assoc.
  - by rewrite slice_to_fmap, Hpay.
Qed.

(** ** Sources and candidates *)

Lemma substring_0_split (n : nat) (s : string) :
  ∃ tail : string,
    s = String.substring 0 n s +:+ tail ∧
    String.length (String.substring 0 n s) = Nat.min n (String.length s).
Proof.
  revert n. induction s as [|c s IH]; intros [|n]; simpl.
  - by exists "".
  - by exists "".
  - by exists (String c s).
  - destruct (IH n) as (tail & Hs & Hlen). exists tail. split.
    + change (String c s = String c (String.substring 0 n s +:+ tail)).
      by rewrite <- Hs.
    + by rewrite Hlen.
Qed.

Lemma string_length_app (s t : string) :
  String.length (s +:+ t) = (String.length s + String.length t)%nat.
Proof. induction s as [|c s IH]; simpl; [done|by rewrite IH]. Qed.

Lemma preview_of_bounded (doc : Candidate) :
  Py.len (preview_of doc) <= 303 ∧
  ((Py.len (text doc) <= 300 ∧ preview_of doc = text doc) ∨
   (∃ head tail : string,
      text doc = head +:+ tail ∧ Py.len head = 300 ∧ tail ≠ "" ∧
      preview_of doc = head +:+ "...")).
Proof.
  unfold preview_of, Py.len, Py.prefix.
  destruct (300 <? Z.of_nat (String.length (text doc))) eqn:Hlong.
  - apply Z.ltb_lt in Hlong.
    destruct (substring_0_split 300 (text doc)) as (tail & Hsplit & Hlen).
    assert (Hhead : String.length (String.substring 0 300 (text doc)) = 300%nat)
      by lia.
    split.
    + rewrite string_length_app, Hhead. simpl. lia.
    + right. exists (String.substring 0 300 (text doc)), tail.
      split; [done|]. split; [lia|]. split; [|done].
      intros ->. apply (f_equal String.length) in Hsplit.
      rewrite string_length_app, Hhead in Hsplit. simpl in Hsplit. lia.
  - apply Z.ltb_ge in Hlong. split; [lia|]. by left.
Qed.

(** Every source of an answer previews its candidate: the whole text when
    it has at most 300 characters, otherwise its first 300 characters
    followed by three dots, so that no preview is longer than 303
    characters and only a cut text gets the dots. *)
Theorem source_previews_are_bounded (docs : list Candidate) (w : World) :
  ∃ st : Assembly,
    assemble_context env docs w = (Ok st, w) ∧
    Forall2 (λ doc s,
               Py.len (preview s) <= 303 ∧
               ((Py.len (text doc) <= 300 ∧ preview s = text doc) ∨
                (∃ head tail : string,
                   text doc = head +:+ tail ∧ Py.len head = 300 ∧ tail ≠ "" ∧
                   preview s = head +:+ "...")))
            (take (length (sources st)) docs) (sources st).
Proof.
  destruct (assemble_context_run docs) as (n & Hn & Hrun & _).
  exists (accepted_by env 1 docs n no_context). split; [done|].
  rewrite accepted_by_sources_length by done. simpl.
  generalize 1. generalize (take n docs). clear.
  intros l. induction l as [|doc l IH]; intros i; simpl; constructor.
  - apply preview_of_bounded.
  - apply IH.
Qed.

(** [extract_docs] turns the matches that carry a text into candidates,
    one each and in the order of the matches, and drops the others: the
    text is moved out of the metadata, whose other entries are kept, the
    similarity score is the match's, and there is no rerank score yet. *)
Theorem extract_docs_keeps_matches_with_text (matches : list Match) :
  Forall2 (λ m c,
             match_metadata m !! "text" = Some (text c) ∧
             metadata c !! "text" = None ∧
             (∀ k, k ≠ "text" → metadata c !! k = match_metadata m !! k) ∧
             score c = Some (match_score m) ∧
             rerank_score c = None)
          (filter (λ m, is_Some (match_metadata m !! "text")) matches)
          (extract_docs matches).
Proof.
  unfold extract_docs. induction matches as [|m ms IH]; [constructor|].
  rewrite filter_cons.
  change (omap ?f (m :: ms)) with
    (match f m with Some c => c :: omap f ms | None => omap f ms end).
  cbv beta.
  destruct (match_metadata m !! "text") as [t|] eqn:Ht.
  - rewrite decide_True by by eexists.
    constructor; [|exact IH]. simpl. repeat split; try done.
    + apply lookup_delete_eq.
    + intros k Hk. by apply lookup_delete_ne.
  - rewrite decide_False by by intros [? [=]].
    exact IH.
Qed.

(** ** How the /query route fails *)

Lemma bind_raise_inv {A B} (m : M A) (f : A → M B) w e w' :
  bind m f w = (Raise e, w') →
  m w = (Raise e, w') ∨ ∃ a w1, m w = (Ok a, w1) ∧ f a w1 = (Raise e, w').
Proof.
  unfold bind. destruct (m w) as [[a|e0] w1].
  - intros Hf. right. by exists a, w1.
  - intros [= <- <-]. by left.
Qed.

Lemma try_except_raise_inv {A} (body : M A) (handler : exn → M A) w e w' :
  try_except body handler w = (Raise e, w') →
  ∃ e0 w1, body w = (Raise e0, w1) ∧ handler e0 w1 = (Raise e, w').
Proof.
  unfold try_except. destruct (body w) as [[a|e0] w1]; [intros [=]|].
  intros Hh. by exists e0, w1.
Qed.

Lemma status_of_http (e : exn) (detail : string) :
  http_error (HTTPException (status_of e) detail).
Proof.
  exists (status_of e), detail. split; [done|].
  destruct e; simpl; set_solver.
Qed.

Lemma get_embedding_raises (text : string) (w w' : World) (e : exn) :
  get_embedding env text w = (Raise e, w') →
  http_error e ∧ w' = logged w [EmbeddingsCreate "text-embedding-3-small" text].
Proof.
  rewrite get_embedding_run.
  destruct (embeddings_create env _ text) as [[|v vs]|e0]; intros [= <- <-].
  - split; [|done]. eexists 500, _. split; [done|set_solver].
  - split; [apply status_of_http|done].
Qed.

Lemma generate_answer_raises (query : string) (docs : list Candidate)
    (w w' : World) (e : exn) :
  generate_answer env query docs w = (Raise e, w') → http_error e.
Proof.
  destruct (generate_answer_run query docs w) as (system & user & ->).
  destruct (assemble_context_run docs) as (n & _ & Hrun & _). rewrite Hrun.
  destruct (chat_completions_create env _ _ _ _ _) as [response|e0].
  - destruct (choices response); intros [= <- _].
    eexists 500, _. split; [done|set_solver].
  - intros [= <- _]. apply status_of_http.
Qed.

Lemma reraise_as_500_http {A} (prefix : string) (e e' : exn) (w w' : World) :
  reraise_as_500 (A := A) prefix e w = (Raise e', w') →
  http_error e → w' = w ∧ e' = e.
Proof.
  intros Hr (status & detail & -> & _). by injection Hr as <- <-.
Qed.

(** Every way the route can raise. *)
Lemma query_documents_raise_inv (req : QueryRequest) (w w' : World) (e : exn) :
  query_documents env req w = (Raise e, w') →
  (Py.strip (query req) = "" ∧
   e = HTTPException 400 "Query cannot be empty" ∧ w' = w)
  ∨ (Py.strip (query req) ≠ "" ∧
     get_embedding env (query req) (tick w) = (Raise e, w'))
  ∨ (Py.strip (query req) ≠ "" ∧
     ∃ vec others e0,
       embeddings_create env "text-embedding-3-small" (query req)
         = Ok (vec :: others) ∧
       index_query env vec (top_k req) = Raise e0 ∧
       e = HTTPException 500 ("Vector search failed: " +:+ str_exn e0) ∧
       w' = {| ticks := 3 + ticks w;
               log := log w ++ [EmbeddingsCreate "text-embedding-3-small"
                                  (query req);
                                IndexQuery vec (top_k req)] |})
  ∨ (Py.strip (query req) ≠ "" ∧
     ∃ vec others matches diversified ranked w3,
       embeddings_create env "text-embedding-3-small" (query req)
         = Ok (vec :: others) ∧
       index_query env vec (top_k req) = Ok matches ∧
       extract_docs matches ≠ [] ∧
       (∀ w0, mmr_diversify (extract_docs matches) 2 w0 = (Ok diversified, w0)) ∧
       rerank_documents env (query req) diversified (rerank_top_n req)
         (tick (retrieved req vec w)) = (Ok ranked, w3) ∧
       generate_answer env (query req) ranked (tick (tick w3)) = (Raise e, w')).
Proof.
  unfold query_documents.
  case_bool_decide as Hblank.
  { intros [= <- <-]. by left. }
  intros Hrun. right.
  apply bind_raise_inv in Hrun as [[=]|(t0 & w1 & [= <- <-] & Hrun)].
  apply bind_raise_inv in Hrun as [Hembed|([v query_tokens] & w2 & Hembed & Hrun)].
  { left. split; [done|].
    apply try_except_raise_inv in Hembed as (e0 & w1 & Hbody & Hre).
    apply bind_raise_inv in Hbody as [Hemb|(v & w1' & _ & Htok)].
    - pose proof (get_embedding_raises _ _ _ _ Hemb) as [Hhttp _].
      apply reraise_as_500_http in Hre as [-> ->]; done.
    - rewrite (bind_ok _ _ _ _ _ (get_token_count_run _ _)) in Htok.
      discriminate. }
  right.
  apply try_except_inv in Hembed as [Hembed|(e0 & ? & _ & Hbad)];
    [|by apply reraise_as_500_raises in Hbad].
  apply bind_inv in Hembed as (v' & w1' & Hvec & Htok).
  rewrite get_embedding_run in Hvec.
  destruct (embeddings_create env _ (query req)) as [[|v0 others]|e0] eqn:Hemb;
    [done| |done].
  injection Hvec as <- <-.
  rewrite (bind_ok _ _ _ _ _ (get_token_count_run _ _)) in Htok.
  injection Htok as <- <- <-. simpl in Hrun.
  apply bind_raise_inv in Hrun as [[=]|(dt1 & w3 & [= <- <-] & Hrun)].
  apply bind_raise_inv in Hrun as [[=]|(t2 & w4 & [= <- <-] & Hrun)].
  apply bind_raise_inv in Hrun as [Hindex|(matches & w5 & Hindex & Hrun)].
  { left. split; [done|].
    apply try_except_raise_inv in Hindex as (e1 & w1 & Hbody & Hre).
    unfold call in Hbody.
    destruct (index_query env v0 (top_k req)) as [ms|e2] eqn:Hidx; [done|].
    injection Hbody as <- <-. injection Hre as <- <-.
    exists v0, others, e2. repeat split; try done.
    simpl. by rewrite <- app_assoc. }
  right. split; [done|].
  apply try_except_inv in Hindex as [Hindex|(e1 & ? & _ & [=])].
  unfold call in Hindex.
  destruct (index_query env v0 (top_k req)) as [ms|e1] eqn:Hidx; [|done].
  injection Hindex as <- <-.
  apply bind_raise_inv in Hrun as [[=]|(dt2 & w6 & [= <- <-] & Hrun)].
  simpl in Hrun.
  assert (Hw2 : {| ticks := S (S (S (S (ticks w))));
                   log := (log w ++ [EmbeddingsCreate "text-embedding-3-small"
                                       (query req)])
                          ++ [IndexQuery v0 (top_k req)] |}
                = retrieved req v0 w).
  { unfold retrieved. by rewrite <- app_assoc. }
  rewrite Hw2 in Hrun. clear Hw2.
  destruct (extract_docs ms) as [|d ds] eqn:Hdocs; [done|].
  destruct (mmr_diversify_run (d :: ds) 2) as (out & Hout & _).
  rewrite (bind_ok _ _ _ _ _ (Hout _)) in Hrun.
  apply bind_raise_inv in Hrun as [[=]|(t3 & wb & [= <- <-] & Hrun)].
  destruct (rerank_documents_returns (query req) out (rerank_top_n req)
              (tick (retrieved req v0 w))) as (ranked & w3 & Hrank).
  change {| ticks := S (ticks (retrieved req v0 w));
            log := log (retrieved req v0 w) |}
    with (tick (retrieved req v0 w)) in Hrun.
  rewrite (bind_ok _ _ _ _ _ Hrank) in Hrun.
  apply bind_raise_inv in Hrun as [[=]|(dt3 & wc & [= <- <-] & Hrun)].
  apply bind_raise_inv in Hrun as [[=]|(t4 & wd & [= <- <-] & Hrun)].
  apply bind_raise_inv in Hrun as [Hgen|(result & w4 & _ & Hrun)].
  - apply try_except_raise_inv in Hgen as (e1 & w1 & Hbody & Hre).
    pose proof (generate_answer_raises _ _ _ _ _ Hbody) as Hhttp.
    apply reraise_as_500_http in Hre as [-> ->]; [|done].
    exists v0, others, ms, out, ranked, w3. rewrite Hdocs. by repeat split.
  - apply bind_raise_inv in Hrun as [[=]|(dt4 & we & _ & [=])].
Qed.


(** When the embedding call fails the route stops there: it raises the
    HTTPException [get_embedding] built, 429, 503 or 500 by the kind of
    the failure, after one reading of the clock and the one embedding
    call; the index is not queried. *)
Theorem embedding_failure_aborts_query (req : QueryRequest) (e0 : exn)
    (w : World) :
  Py.strip (query req) ≠ "" →
  embeddings_create env "text-embedding-3-small" (query req) = Raise e0 →
  ∃ detail : string,
    query_documents env req w =
      (Raise (HTTPException
                (match e0 with
                 | RateLimitError _ => 429
                 | APIError _ => 503
                 | _ => 500
                 end) detail),
       {| ticks := S (ticks w);
          log := log w ++ [EmbeddingsCreate "text-embedding-3-small"
                             (query req)] |}).
Proof.
  intros Hblank Hemb.
  destruct (query_documents env req w) as [[resp|e] w'] eqn:Hrun.
  - apply query_documents_inv in Hrun as (_ & ? & ? & ? & Hemb' & _). congruence.
  - apply query_documents_raise_inv in Hrun
      as [(? & _)|[(_ & Hraise)|[(_ & ? & ? & ? & Hemb' & _)
          |(_ & ? & ? & ? & ? & ? & ? & Hemb' & _)]]]; try congruence.
    rewrite get_embedding_run, Hemb in Hraise. injection Hraise as <- <-.
    by eexists.
Qed.

(** When the index query fails, whatever the exception, the route raises
    HTTP 500 "Vector search failed", after the embedding call and the
    index query and nothing else: nothing is reranked or generated. *)
Theorem index_failure_aborts_query (req : QueryRequest) (vec : list float)
    (others : list (list float)) (e0 : exn) (w : World) :
  Py.strip (query req) ≠ "" →
  embeddings_create env "text-embedding-3-small" (query req) = Ok (vec :: others) →
  index_query env vec (top_k req) = Raise e0 →
  query_documents env req w =
    (Raise (HTTPException 500 ("Vector search failed: " +:+ str_exn e0)),
     {| ticks := 3 + ticks w;
        log := log w ++ [EmbeddingsCreate "text-embedding-3-small" (query req);
                         IndexQuery vec (top_k req)] |}).
Proof.
  intros Hblank Hemb Hidx.
  destruct (query_documents env req w) as [[resp|e] w'] eqn:Hrun.
  - apply query_documents_inv in Hrun as (_ & ? & ? & ? & Hemb' & Hidx' & _).
    congruence.
  - apply query_documents_raise_inv in Hrun
      as [(? & _)|[(_ & Hraise)|[(_ & v & o & e1 & Hemb' & Hidx' & -> & ->)
          |(_ & v & o & ? & ? & ? & ? & Hemb' & Hidx' & _)]]]; try congruence.
    rewrite get_embedding_run, Hemb in Hraise. discriminate.
Qed.

Lemma rerank_documents_log (query : string) (docs : list Candidate)
    (top_n : Z) (w : World) :
  docs ≠ [] →
  ∃ out warning,
    rerank_documents env query docs top_n w =
      (Ok out,
       logged w ([CohereRerank "rerank-english-v3.0" query (text <$> docs)
                    (Z.min top_n (Z.of_nat (length docs)))] ++ warning)) ∧
    (warning = [] ∨ ∃ line, warning = [Printed line]).
Proof.
  intros Hdocs. destruct docs as [|doc rest]; [done|].
  unfold rerank_documents, call.
  destruct (cohere_rerank env _ _ _ _) as [rs|e].
  - destruct (rerank_collect rs (doc :: rest) []) as [docs' [results|e]].
    + eexists _, []. split; [done|by left].
    + rewrite rerank_failed_run. eexists _, [_]. split; [|right; by eexists].
      unfold logged; simpl. by rewrite <- app_assoc.
  - rewrite rerank_failed_run. eexists _, [_]. split; [|right; by eexists].
    unfold logged; simpl. by rewrite <- app_assoc.
Qed.

Lemma mmr_diversify_nonempty (docs : list Candidate) (cap : Z)
    (out : list Candidate) (w : World) :
  docs ≠ [] → 0 < cap →
  mmr_diversify docs cap w = (Ok out, w) → out ≠ [].
Proof.
  intros Hdocs Hcap Hrun. destruct docs as [|doc rest]; [done|].
  destruct (mmr_loop_first (doc :: rest) cap ∅ []) as (out' & Hrun' & Hfirst).
  { intros d. by rewrite lookup_empty. }
  unfold mmr_diversify in Hrun. rewrite Hrun' in Hrun. injection Hrun as <-.
  specialize (Hfirst (document_id doc)).
  rewrite filter_cons, decide_True in Hfirst by done.
  intros ->. simpl in Hfirst.
  change (count_document (document_id doc) []) with 0%nat in Hfirst.
  rewrite filter_nil in Hfirst.
  destruct (Z.to_nat cap - 0)%nat eqn:Hk; [lia|done].
Qed.

(** When the chat service fails after a retrieval that found candidates,
    the route raises the HTTPException of [generate_answer], 429, 503 or
    500 by the kind of the failure, and the work before it is spent: the
    embedding call, the index query and the rerank call have all been
    made, in this order, before the one chat call. *)
Theorem generation_failure_comes_after_retrieval (req : QueryRequest)
    (vec : list float) (others : list (list float)) (matches : list Match)
    (e0 : exn) (w : World) :
  Py.strip (query req) ≠ "" →
  embeddings_create env "text-embedding-3-small" (query req) = Ok (vec :: others) →
  index_query env vec (top_k req) = Ok matches →
  extract_docs matches ≠ [] →
  (∀ system user,
     chat_completions_create env "gpt-4-turbo-preview" system user
       (fdec 2 (-1)) 800 = Raise e0) →
  ∃ (detail : string) (w' : World) (documents : list string) (n : Z)
    (warning : list Event) (system user : string),
    query_documents env req w =
      (Raise (HTTPException
                (match e0 with
                 | RateLimitError _ => 429
                 | APIError _ => 503
                 | _ => 500
                 end) detail), w') ∧
    ticks w' = (7 + ticks w)%nat ∧
    log w' = log w
             ++ [EmbeddingsCreate "text-embedding-3-small" (query req);
                 IndexQuery vec (top_k req);
                 CohereRerank "rerank-english-v3.0" (query req) documents n]
             ++ warning
             ++ [ChatCompletionsCreate "gpt-4-turbo-preview" system user] ∧
    (warning = [] ∨ ∃ line, warning = [Printed line]).
Proof.
  intros Hblank Hemb Hidx Hdocs Hchat.
  destruct (query_documents env req w) as [[resp|e] w'] eqn:Hrun.
  - apply query_documents_inv in Hrun
      as (_ & v & o & ms & Hemb' & Hidx' & Hcases).
    rewrite Hemb in Hemb'. injection Hemb' as <- <-.
    rewrite Hidx in Hidx'. injection Hidx' as <-.
    destruct Hcases as [(Hnil & _)|(_ & div & ranked & result & w3 & w4
                                    & _ & _ & Hgen & _)]; [done|].
    destruct (generate_answer_run (query req) ranked (tick (tick w3)))
      as (system & user & Hgen').
    rewrite Hgen', Hchat in Hgen. discriminate.
  - apply query_documents_raise_inv in Hrun
      as [(? & _)|[(_ & Hraise)|[(_ & ? & ? & ? & Hemb' & Hidx' & _)
          |(_ & v & o & ms & div & ranked & w3
            & Hemb' & Hidx' & _ & Hdiv & Hrank & Hgen)]]]; try congruence.
    { rewrite get_embedding_run, Hemb in Hraise. discriminate. }
    rewrite Hemb in Hemb'. injection Hemb' as <- <-.
    rewrite Hidx in Hidx'. injection Hidx' as <-.
    destruct (rerank_documents_log (query req) div (rerank_top_n req)
                (tick (retrieved req vec w)))
      as (out & warning & Hrank' & Hwarn).
    { by apply (mmr_diversify_nonempty (extract_docs matches) 2 div w). }
    destruct (generate_answer_run (query req) ranked (tick (tick w3)))
      as (system & user & Hgen').
    rewrite Hgen', Hchat in Hgen. injection Hgen as <- <-.
    rewrite Hrank' in Hrank. injection Hrank as <- <-.
    eexists _, _, _, _, warning, system, user.
    split; [done|]. split; [done|]. split; [|done].
    simpl. by rewrite <- !app_assoc.
Qed.

(** An answered query costs one call of each service, in the order
    embedding, index, rerank, chat, and eight readings of the clock; the
    rerank service is sent the texts of the diversified candidates and
    min(rerank_top_n, their number), and the only other event is the
    warning printed when reranking degraded. *)
Theorem answered_query_calls_each_service_once (req : QueryRequest)
    (vec : list float) (others : list (list float)) (matches : list Match)
    (w w' : World) (resp : QueryResponse) :
  embeddings_create env "text-embedding-3-small" (query req) = Ok (vec :: others) →
  index_query env vec (top_k req) = Ok matches →
  extract_docs matches ≠ [] →
  query_documents env req w = (Ok resp, w') →
  ∃ (diversified : list Candidate) (warning : list Event) (system user : string),
    (∀ w0, mmr_diversify (extract_docs matches) 2 w0 = (Ok diversified, w0)) ∧
    ticks w' = (8 + ticks w)%nat ∧
    log w' = log w
             ++ [EmbeddingsCreate "text-embedding-3-small" (query req);
                 IndexQuery vec (top_k req);
                 CohereRerank "rerank-english-v3.0" (query req)
                   (text <$> diversified)
                   (Z.min (rerank_top_n req) (Z.of_nat (length diversified)))]
             ++ warning
             ++ [ChatCompletionsCreate "gpt-4-turbo-preview" system user] ∧
    (warning = [] ∨ ∃ line, warning = [Printed line]).
Proof.
  intros Hemb Hidx Hdocs Hrun.
  apply query_documents_inv in Hrun
    as (_ & v & o & ms & Hemb' & Hidx' & Hcases).
  rewrite Hemb in Hemb'. injection Hemb' as <- <-.
  rewrite Hidx in Hidx'. injection Hidx' as <-.
  destruct Hcases as [(Hnil & _)|(_ & div & ranked & result & w3 & w4
                                  & Hdiv & Hrank & Hgen & _ & ->)]; [done|].
  destruct (mmr_diversify_run (extract_docs matches) 2) as (div' & Hdiv' & _).
  rewrite Hdiv' in Hdiv. injection Hdiv as <-.
  destruct (rerank_documents_log (query req) div' (rerank_top_n req)
              (tick (retrieved req vec w)))
    as (out & warning & Hrank' & Hwarn).
  { by apply (mmr_diversify_nonempty (extract_docs matches) 2 div' w). }
  destruct (generate_answer_run (query req) ranked (tick (tick w3)))
    as (system & user & Hgen').
  rewrite Hgen' in Hgen. injection Hgen as _ <-.
  rewrite Hrank' in Hrank. injection Hrank as <- <-.
  exists div', warning, system, user.
  split; [done|]. split; [done|]. split; [|done].
  simpl. by rewrite <- !app_assoc.
Qed.

(** An answered query is charged the flat rerank price, round(0.002, 6),
    whether the rerank service answered or reranking degraded, and its
    total cost is the rounded sum of the embedding, input, output and
    rerank costs, added in this order. *)
Theorem answered_query_pays_flat_rerank_cost (req : QueryRequest)
    (vec : list float) (others : list (list float)) (matches : list Match)
    (w w' : World) (resp : QueryResponse) :
  embeddings_create env "text-embedding-3-small" (query req) = Ok (vec :: others) →
  index_query env vec (top_k req) = Ok matches →
  extract_docs matches ≠ [] →
  query_documents env req w = (Ok resp, w') →
  let cost tokens price :=
    fmul (fdiv (float_of_int tokens) (float_of_int 1000)) price in
  let te := token_estimate resp in
  costs te !! "rerank_usd" = Some (fround (fdec 2 (-3)) 6) ∧
  costs te !! "llm_usd" = None ∧
  costs te !! "total_usd"
    = Some (fround (fadd (fadd (fadd (cost (embedding_tokens te) (fdec 2 (-5)))
                                     (cost (llm_input_tokens te) (fdec 1 (-2))))
                               (cost (llm_output_tokens te) (fdec 3 (-2))))
                         (fdec 2 (-3))) 6).
Proof.
  intros Hemb Hidx Hdocs Hrun.
  apply query_documents_inv in Hrun
    as (_ & v & o & ms & Hemb' & Hidx' & Hcases).
  rewrite Hemb in Hemb'. injection Hemb' as <- <-.
  rewrite Hidx in Hidx'. injection Hidx' as <-.
  destruct Hcases as [(Hnil & _)|(_ & div & ranked & result & w3 & w4
                                  & _ & _ & _ & -> & _)]; [done|].
  by repeat split.
Qed.

(** ** Where the scores of the sources come from *)

Lemma sources_shown (l : list Candidate) (i : Z) :
  (λ s, (src_metadata s, src_score s))
    <$> ((λ p, source_of p.1 p.2) <$> enumerate i l) = shown <$> l.
Proof.
  revert i. induction l as [|c l IH]; intros i; [done|].
  simpl. f_equal. apply IH.
Qed.

Lemma extract_docs_shown (matches : list Match) :
  shown <$> extract_docs matches
  `sublist_of` (λ m, (delete "text" (match_metadata m), match_score m)) <$> matches.
Proof.
  unfold extract_docs. induction matches as [|m ms IH]; [constructor|].
  change (omap ?f (m :: ms)) with
    (match f m with Some c => c :: omap f ms | None => omap f ms end).
  cbv beta. destruct (match_metadata m !! "text") as [t|].
  - rewrite !fmap_cons. by apply sublist_skip.
  - rewrite fmap_cons. by apply sublist_cons.
Qed.

Lemma rerank_documents_service_raises (query : string) (docs : list Candidate)
    (top_n : Z) (e : exn) (w : World) :
  (∀ documents n,
     cohere_rerank env "rerank-english-v3.0" query documents n = Raise e) →
  ∃ w', rerank_documents env query docs top_n w = (Ok (Py.slice_to docs top_n), w').
Proof.
  intros Hsvc. destruct docs as [|doc rest].
  - exists w. simpl. unfold Py.slice_to, ret.
    destruct (0 <=? top_n); by rewrite take_nil.
  - unfold rerank_documents, call. rewrite Hsvc, rerank_failed_run. by eexists.
Qed.

Lemma answered_sources (req : QueryRequest) (vec : list float)
    (others : list (list float)) (matches : list Match) (w w' : World)
    (resp : QueryResponse) :
  embeddings_create env "text-embedding-3-small" (query req) = Ok (vec :: others) →
  index_query env vec (top_k req) = Ok matches →
  extract_docs matches ≠ [] →
  query_documents env req w = (Ok resp, w') →
  ∃ diversified ranked w2 w3 k,
    (∀ w0, mmr_diversify (extract_docs matches) 2 w0 = (Ok diversified, w0)) ∧
    diversified `sublist_of` extract_docs matches ∧
    rerank_documents env (query req) diversified (rerank_top_n req) w2
      = (Ok ranked, w3) ∧
    resp_sources resp
      = (λ p, source_of p.1 p.2) <$> enumerate 1 (take k ranked).
Proof.
  intros Hemb Hidx Hdocs Hrun.
  apply query_documents_inv in Hrun
    as (_ & v & o & ms & Hemb' & Hidx' & Hcases).
  rewrite Hemb in Hemb'. injection Hemb' as <- <-.
  rewrite Hidx in Hidx'. injection Hidx' as <-.
  destruct Hcases as [(Hnil & _)|(_ & div & ranked & result & w3 & w4
                                  & Hdiv & Hrank & Hgen & -> & _)]; [done|].
  destruct (mmr_diversify_run (extract_docs matches) 2) as (div' & Hdiv' & Hsub & _).
  rewrite Hdiv' in Hdiv. injection Hdiv as <-.
  apply generate_answer_sources in Hgen as (st & Hst & Hsrc).
  destruct (assemble_context_run ranked) as (k & _ & Hassemble & _).
  rewrite Hassemble in Hst. injection Hst as <-.
  exists div', ranked, (tick (retrieved req vec w)), w3, k.
  repeat split; try done.
Qed.

(** When the rerank service is failing, the sources of an answer show the
    retrieval as it came: their metadata (without the text) and scores are
    those of retrieved matches, the score being the vector similarity, in
    the order the index returned them. *)
Theorem degraded_sources_show_similarity (req : QueryRequest)
    (vec : list float) (others : list (list float)) (matches : list Match)
    (e0 : exn) (w w' : World) (resp : QueryResponse) :
  embeddings_create env "text-embedding-3-small" (query req) = Ok (vec :: others) →
  index_query env vec (top_k req) = Ok matches →
  extract_docs matches ≠ [] →
  (∀ documents n,
     cohere_rerank env "rerank-english-v3.0" (query req) documents n = Raise e0) →
  query_documents env req w = (Ok resp, w') →
  (λ s, (src_metadata s, src_score s)) <$> resp_sources resp
  `sublist_of` (λ m, (delete "text" (match_metadata m), match_score m)) <$> matches.
Proof.
  intros Hemb Hidx Hdocs Hsvc Hrun.
  destruct (answered_sources _ _ _ _ _ _ _ Hemb Hidx Hdocs Hrun)
    as (div & ranked & w2 & w3 & k & _ & Hsub & Hrank & ->).
  destruct (rerank_documents_service_raises (query req) div (rerank_top_n req)
              e0 w2 Hsvc) as (w3' & Hrank').
  rewrite Hrank' in Hrank. injection Hrank as <- _.
  rewrite sources_shown.
  etrans; [|apply extract_docs_shown].
  apply fmap_sublist.
  etrans; [apply sublist_take|].
  etrans; [|exact Hsub].
  unfold Py.slice_to. destruct (0 <=? rerank_top_n req); apply sublist_take.
Qed.

(** When the rerank service answers with positions of the diversified
    list, no position twice, the sources of the answer follow the
    service's order: source number i shows the service's i-th relevance
    score and the metadata and preview of the candidate at its i-th
    position. *)
Theorem reranked_sources_show_relevance (req : QueryRequest)
    (vec : list float) (others : list (list float)) (matches : list Match)
    (diversified : list Candidate) (rs : list RerankResult)
    (w w' : World) (resp : QueryResponse) :
  embeddings_create env "text-embedding-3-small" (query req) = Ok (vec :: others) →
  index_query env vec (top_k req) = Ok matches →
  extract_docs matches ≠ [] →
  mmr_diversify (extract_docs matches) 2 w = (Ok diversified, w) →
  cohere_rerank env "rerank-english-v3.0" (query req) (text <$> diversified)
    (Z.min (rerank_top_n req) (Z.of_nat (length diversified))) = Ok rs →
  Forall (λ r, 0 <= r_index r < Z.of_nat (length diversified)) rs →
  NoDup (r_index <$> rs) →
  query_documents env req w = (Ok resp, w') →
  Forall2 (λ r s,
             src_score s = relevance_score r ∧
             ∃ d, diversified !! Z.to_nat (r_index r) = Some d ∧
                  src_metadata s = metadata d ∧ preview s = preview_of d)
          (take (length (resp_sources resp)) rs) (resp_sources resp).
Proof.
  intros Hemb Hidx Hdocs Hdiv Hsvc Hrange Hdup Hrun.
  destruct (answered_sources _ _ _ _ _ _ _ Hemb Hidx Hdocs Hrun)
    as (div & ranked & w2 & w3 & k & Hdiv' & _ & Hrank & ->).
  rewrite Hdiv' in Hdiv. injection Hdiv as ->.
  assert (Hne : diversified ≠ [])
    by by apply (mmr_diversify_nonempty (extract_docs matches) 2 _ w).
  destruct (rerank_collect_distinct rs diversified [] Hrange
              (position_NoDup diversified rs Hrange Hdup))
    as (docs' & Hcol & Hset & _).
  pose proof (deref_written diversified docs' rs Hrange Hset) as Hwritten.
  assert (ranked = deref docs' (position <$> rs)) as ->.
  { destruct diversified as [|doc rest]; [done|].
    unfold rerank_documents, call in Hrank. rewrite Hsvc, Hcol in Hrank.
    by injection Hrank as <- _. }
  rewrite !length_fmap, length_enumerate, length_take.
  rewrite <- (Forall2_length _ _ _ Hwritten).
  replace (take (k `min` length rs) rs) with (take k rs).
  2:{ destruct (decide (k ≤ length rs)%nat).
      - by rewrite Nat.min_l by lia.
      - rewrite Nat.min_r by lia. by rewrite !take_ge by lia. }
  apply (Forall2_take _ _ _ k) in Hwritten.
  revert Hwritten. generalize (take k (deref docs' (position <$> rs))).
  generalize (take k rs). generalize 1. clear.
  intros i l1 l2 H. revert i.
  induction H as [|r c l1 l2 (d & Hd & ->) _ IH]; intros i; simpl; constructor.
  - split; [done|]. by exists d.
  - apply IH.
Qed.

End Proofs.

(** * Proofs on ingestion *)

Section IngestionProofs.

Context `{FO : FloatOps}.
Variable env : Env.
Variable ing : Ingest.

Lemma ubind_inv {A B} (m : U A) (f : A → U B) s b s' :
  ubind m f s = (Ok b, s') →
  ∃ a s1, m s = (Ok a, s1) ∧ f a s1 = (Ok b, s').
Proof.
  unfold ubind. destruct (m s) as [[a|e] s1]; [|intros [=]]. by exists a, s1.
Qed.

Lemma ubind_raise_inv {A B} (m : U A) (f : A → U B) s e s' :
  ubind m f s = (Raise e, s') →
  m s = (Raise e, s') ∨ ∃ a s1, m s = (Ok a, s1) ∧ f a s1 = (Raise e, s').
Proof.
  unfold ubind. destruct (m s) as [[a|e0] s1]; [|intros [= <- <-]; by left].
  right. by exists a, s1.
Qed.

Lemma lift_inv {A} (m : M A) s r s' :
  lift m s = (r, s') →
  ∃ w', m (world s) = (r, w') ∧ s' = {| world := w'; requests := requests s |}.
Proof.
  unfold lift. destruct (m (world s)) as [r0 w']. intros [= <- <-]. by exists w'.
Qed.

(** ** extract_text_from_pdf *)

Lemma append_assoc (a b c : string) : (a +:+ b) +:+ c = a +:+ (b +:+ c).
Proof.
  induction a as [|x a IH]; [done|].
  change (String x ((a +:+ b) +:+ c) = String x (a +:+ b +:+ c)).
  by rewrite IH.
Qed.

Lemma append_nil_r (a : string) : a +:+ "" = a.
Proof.
  induction a as [|x a IH]; [done|].
  change (String x (a +:+ "") = String x a). by rewrite IH.
Qed.

Lemma pdf_text_ok (pages : list (Result string)) :
  ∀ text out,
    pdf_text pages text = Ok out →
    ∃ texts, pages = Ok <$> texts ∧
             out = text +:+ page_lines (filter (λ t, t ≠ "") texts).
Proof.
  induction pages as [|[page_text|e] pages IH]; intros text out Hrun; simpl in Hrun.
  - injection Hrun as <-. exists []. by rewrite append_nil_r.
  - apply IH in Hrun as (texts & -> & ->).
    exists (page_text :: texts). split; [done|].
    rewrite filter_cons. case_bool_decide as Hp.
    + by rewrite decide_False by (by intros ?).
    + rewrite decide_True by done. simpl. by rewrite !append_assoc.
  - done.
Qed.

Lemma extract_text_from_pdf_run (file_bytes : list Byte.byte) (w : World) :
  extract_text_from_pdf ing file_bytes w =
    (match pdf_pages ing file_bytes with
     | Ok pages =>
         match pdf_text pages "" with
         | Ok text =>
             if bool_decide (Py.strip text = "") then
               Raise (HTTPException 400
                        "Failed to extract PDF text: PDF appears to be empty or contains only images")
             else Ok text
         | Raise e =>
             Raise (HTTPException 400 ("Failed to extract PDF text: " +:+ str_exn e))
         end
     | Raise e =>
         Raise (HTTPException 400 ("Failed to extract PDF text: " +:+ str_exn e))
     end, w).
Proof.
  unfold extract_text_from_pdf, try_except, bind, of_result.
  destruct (pdf_pages ing file_bytes) as [pages|e]; [|done].
  destruct (pdf_text pages "") as [text|e]; [|done].
  by case_bool_decide.
Qed.

(** [extract_text_from_pdf] either returns a text that is not blank, made
    of the texts of the pages that have one, in page order, each closed by
    a newline, or raises HTTP 400: a reader that fails, a page that fails
    and a PDF without text all end the same way, and the world is not
    touched. *)
Theorem extract_text_from_pdf_text_or_400 (file_bytes : list Byte.byte)
    (w : World) :
  (∃ text texts,
     extract_text_from_pdf ing file_bytes w = (Ok text, w) ∧
     Py.strip text ≠ "" ∧
     pdf_pages ing file_bytes = Ok (Ok <$> texts) ∧
     text = page_lines (filter (λ t, t ≠ "") texts))
  ∨ (∃ detail,
       extract_text_from_pdf ing file_bytes w
       = (Raise (HTTPException 400 ("Failed to extract PDF text: " +:+ detail)), w)).
Proof.
  rewrite extract_text_from_pdf_run.
  destruct (pdf_pages ing file_bytes) as [pages|e]; [|right; by eexists].
  destruct (pdf_text pages "") as [text|e] eqn:Htext; [|right; by eexists].
  case_bool_decide as Hblank; [right; by eexists|].
  left. apply pdf_text_ok in Htext as (texts & -> & ->).
  by exists (page_lines (filter (λ t, t ≠ "") texts)), texts.
Qed.

(** ** chunk_text *)

Lemma chunk_loop_run (pieces : list string) :
  ∀ (metadata : gmap string value) (n i : Z) (results : list Chunk) (w : World),
    chunk_loop env metadata n i pieces results w
    = (Ok (results ++ chunks_from env metadata n i pieces), w).
Proof.
  induction pieces as [|piece rest IH]; intros metadata n i results w.
  - simpl. by rewrite app_nil_r.
  - simpl chunk_loop.
    rewrite (bind_ok _ _ _ _ _ (get_token_count_run env piece w)).
    rewrite IH. simpl. by rewrite <- app_assoc.
Qed.

Lemma chunk_text_run (text : string) (metadata : gmap string value) (w : World) :
  chunk_text env ing text metadata w =
    (match split_text ing CHUNK_SIZE (CHUNK_OVERLAP ing) text with
     | Ok pieces =>
         Ok (chunks_from env metadata (Z.of_nat (length pieces)) 0 pieces)
     | Raise e => Raise (HTTPException 500 ("Chunking failed: " +:+ str_exn e))
     end, w).
Proof.
  unfold chunk_text, try_except, bind, of_result.
  destruct (split_text ing _ _ text) as [pieces|e]; [|done].
  by rewrite chunk_loop_run.
Qed.

Lemma chunks_from_text (metadata : gmap string value) (n : Z)
    (pieces : list string) :
  ∀ i, c_text <$> chunks_from env metadata n i pieces = pieces.
Proof. induction pieces as [|p rest IH]; intros i; simpl; [done|by rewrite IH]. Qed.

Lemma chunks_from_length (metadata : gmap string value) (n : Z)
    (pieces : list string) (i : Z) :
  length (chunks_from env metadata n i pieces) = length pieces.
Proof. by rewrite <- (chunks_from_text metadata n pieces i) at 2; rewrite length_fmap. Qed.

Lemma chunks_from_tokens (metadata : gmap string value) (n : Z)
    (pieces : list string) :
  ∀ i, c_token_count <$> chunks_from env metadata n i pieces
       = token_count env <$> pieces.
Proof. induction pieces as [|p rest IH]; intros i; simpl; [done|by rewrite IH]. Qed.

Lemma chunks_from_lookup (metadata : gmap string value) (n : Z)
    (pieces : list string) :
  ∀ (i : Z) (k : nat) (c : Chunk),
    chunks_from env metadata n i pieces !! k = Some c →
    ∃ piece,
      pieces !! k = Some piece ∧
      c = {| c_text := piece;
             c_given := metadata;
             c_chunk_index := i + Z.of_nat k;
             c_position := pretty (i + Z.of_nat k + 1) +:+ "/" +:+ pretty n;
             c_token_count := token_count env piece |}.
Proof.
  induction pieces as [|p rest IH]; intros i k c Hc; [done|].
  destruct k as [|k]; simpl in Hc.
  - injection Hc as <-. exists p. split; [done|].
    by rewrite Z.add_0_r.
  - apply IH in Hc as (piece & Hp & ->). exists piece. split; [done|].
    by replace (i + 1 + Z.of_nat k) with (i + Z.of_nat (S k)) by lia.
Qed.

(** [chunk_text] makes one chunk of every piece the splitter returns, in
    order and without touching the world: chunk number i (from 0) has
    chunk_index i, position "i+1/n" and the token count of its own text
    in its metadata, these three keys replacing entries of the same name
    in the caller's metadata, whose other entries are all kept. When the
    splitter raises, the result is HTTP 500 "Chunking failed". *)
Theorem chunk_text_numbers_chunks (text : string)
    (metadata : gmap string value) (w : World) :
  match split_text ing CHUNK_SIZE (CHUNK_OVERLAP ing) text with
  | Ok pieces =>
      ∃ chunks,
        chunk_text env ing text metadata w = (Ok chunks, w) ∧
        c_text <$> chunks = pieces ∧
        ∀ (i : nat) (c : Chunk),
          chunks !! i = Some c →
          c_metadata c !! "chunk_index" = Some (VInt (Z.of_nat i)) ∧
          c_metadata c !! "position"
            = Some (VStr (pretty (Z.of_nat i + 1) +:+ "/"
                          +:+ pretty (Z.of_nat (length pieces)))) ∧
          c_metadata c !! "token_count"
            = Some (VInt (token_count env (c_text c))) ∧
          ∀ k, k ∉ ["chunk_index"; "position"; "token_count"] →
               c_metadata c !! k = metadata !! k
  | Raise e =>
      chunk_text env ing text metadata w
      = (Raise (HTTPException 500 ("Chunking failed: " +:+ str_exn e)), w)
  end.
Proof.
  rewrite chunk_text_run.
  destruct (split_text ing _ _ text) as [pieces|e]; [|done].
  eexists. split; [done|]. split; [apply chunks_from_text|].
  intros i c Hc. apply chunks_from_lookup in Hc as (piece & _ & ->).
  unfold c_metadata. simpl. rewrite !Z.add_0_l.
  repeat split.
  - by rewrite lookup_insert_ne, lookup_insert_ne, lookup_insert_eq.
  - by rewrite lookup_insert_ne, lookup_insert_eq.
  - by rewrite lookup_insert_eq.
  - intros k Hk. rewrite !lookup_insert_ne; [done|..];
      intros <-; apply Hk; set_solver.
Qed.

(** ** The embedding loop *)

Lemma embed_chunks_run (doc_id : string) (chunks : list Chunk) :
  ∀ (vectors : list Vector) (total : Z) (w : World),
    (∃ embeddings,
       Forall2 (λ c, embeds env (c_text c)) chunks embeddings ∧
       embed_chunks env doc_id chunks vectors total w
       = (Ok (vectors ++ zip_with (vector_of doc_id) chunks embeddings,
              total + sumZ (c_token_count <$> chunks)),
          logged w (EmbeddingsCreate "text-embedding-3-small"
                      <$> (c_text <$> chunks))))
    ∨ (∃ (k : nat) (c : Chunk) (e : exn),
         chunks !! k = Some c ∧
         Forall (λ c, ∃ embedding, embeds env (c_text c) embedding)
                (take k chunks) ∧
         get_embedding env (c_text c)
           (logged w (EmbeddingsCreate "text-embedding-3-small"
                        <$> (c_text <$> take k chunks)))
         = (Raise e,
            logged w (EmbeddingsCreate "text-embedding-3-small"
                        <$> (c_text <$> take (S k) chunks))) ∧
         embed_chunks env doc_id chunks vectors total w
         = (Raise e,
            logged w (EmbeddingsCreate "text-embedding-3-small"
                        <$> (c_text <$> take (S k) chunks)))).
Proof.
  induction chunks as [|c rest IH]; intros vectors total w.
  - left. exists []. split; [constructor|].
    simpl. unfold ret, logged. rewrite !app_nil_r, Z.add_0_r. by destruct w.
  - simpl embed_chunks.
    destruct (get_embedding env (c_text c) w) as [[embedding|e] w1] eqn:Hemb.
    + rewrite (bind_ok _ _ _ _ _ Hemb).
      pose proof Hemb as Hemb'. rewrite get_embedding_run in Hemb'.
      destruct (embeddings_create env _ (c_text c)) as [[|v vs]|e0] eqn:Hsvc;
        try discriminate.
      injection Hemb' as -> <-.
      destruct (IH (vectors ++ [vector_of doc_id c embedding])
                  (total + c_token_count c)
                  (logged w [EmbeddingsCreate "text-embedding-3-small" (c_text c)]))
        as [(embeddings & Hall & Hrun)|(k & c' & e & Hk & Hbefore & Hfail & Hrun)].
      * left. exists (embedding :: embeddings). split.
        { constructor; [by exists vs|done]. }
        rewrite Hrun. simpl. unfold logged; simpl.
        rewrite <- !app_assoc. simpl. do 3 f_equal. unfold sumZ. simpl.
        symmetry. apply Z.add_assoc.
      * right. exists (S k), c', e. split; [done|]. split.
        { simpl. constructor; [by exists embedding, vs|done]. }
        unfold logged in *; simpl in *.
        rewrite <- !app_assoc in Hfail. rewrite <- !app_assoc in Hrun.
        simpl in *. by split.
    + rewrite (bind_raise _ _ _ _ _ Hemb).
      right. exists 0%nat, c, e. split; [done|]. split; [constructor|].
      pose proof (get_embedding_raises env _ _ _ _ Hemb) as [_ ->].
      unfold logged in *; simpl in *. rewrite app_nil_r.
      split; [|done]. destruct w; simpl in *. exact Hemb.
Qed.

(** ** The batches *)

Lemma py_range_length (stop step : nat) :
  length (py_range stop step) = ((stop + step - 1) / step)%nat.
Proof. unfold py_range. by rewrite length_fmap, length_seq. Qed.

Lemma py_range_lookup (stop step k : nat) :
  (k < (stop + step - 1) / step)%nat →
  py_range stop step !! k = Some (k * step)%nat.
Proof.
  intros Hk. unfold py_range. rewrite list_lookup_fmap.
  by rewrite lookup_seq_lt.
Qed.

Lemma slices_concat {A} (l : list A) (step : nat) :
  ∀ m : nat,
    concat ((λ i, take step (drop i l)) <$> ((λ k, k * step)%nat <$> seq 0 m))
    = take (m * step) l.
Proof.
  induction m as [|m IH]; [done|].
  rewrite seq_S, !fmap_app, concat_app, IH. simpl.
  rewrite app_nil_r.
  rewrite take_take_drop. f_equal. lia.
Qed.

Lemma div_up_bounds (n : nat) :
  (n <= (n + 100 - 1) / 100 * 100)%nat ∧
  ((n + 100 - 1) / 100 * 100 < n + 100)%nat.
Proof.
  pose proof (Nat.div_mod_eq (n + 100 - 1) 100) as Hdm.
  pose proof (Nat.mod_upper_bound (n + 100 - 1) 100 ltac:(lia)) as Hmod.
  revert Hdm Hmod.
  generalize ((n + 100 - 1) / 100)%nat, ((n + 100 - 1) mod 100)%nat. lia.
Qed.

Lemma batches_concat (vectors : list Vector) :
  concat (batches vectors) = vectors.
Proof.
  unfold batches, py_range. rewrite slices_concat.
  apply take_ge. pose proof (div_up_bounds (length vectors)). lia.
Qed.

Lemma batches_lookup (vectors : list Vector) (k : nat) (b : list Vector) :
  batches vectors !! k = Some b →
  b = take 100 (drop (k * 100) vectors) ∧ (k * 100 < length vectors)%nat.
Proof.
  unfold batches. intros Hb.
  apply list_lookup_fmap_Some in Hb as (i & -> & Hi).
  pose proof (lookup_lt_Some _ _ _ Hi) as Hlt.
  rewrite py_range_length in Hlt.
  rewrite (py_range_lookup _ _ _ Hlt) in Hi. injection Hi as <-.
  split; [done|].
  pose proof (div_up_bounds (length vectors)) as [_ Hup].
  revert Hlt Hup. generalize ((length vectors + 100 - 1) / 100)%nat. lia.
Qed.

Lemma batches_length (vectors : list Vector) :
  length (batches vectors) = ((length vectors + 99) / 100)%nat.
Proof.
  unfold batches. rewrite length_fmap, py_range_length. f_equal. lia.
Qed.

(** ** The upsert loop *)

Lemma upsert_batches_run (vectors : list Vector) (size : nat)
    (starts : list nat) :
  ∀ s : Site,
    let bs := (λ i, take size (drop i vectors)) <$> starts in
    (Forall (λ b, index_upsert ing b = Ok ()) bs ∧
     upsert_batches ing vectors size starts s
     = (Ok (), {| world := world s; requests := requests s ++ (Upsert <$> bs) |}))
    ∨ (∃ (k : nat) (b : list Vector) (e : exn),
         bs !! k = Some b ∧
         index_upsert ing b = Raise e ∧
         Forall (λ b, index_upsert ing b = Ok ()) (take k bs) ∧
         upsert_batches ing vectors size starts s
         = (Raise e,
            {| world := world s;
               requests := requests s ++ (Upsert <$> take (S k) bs) |})).
Proof.
  induction starts as [|i rest IH]; intros s; simpl.
  - left. split; [constructor|]. unfold uret. rewrite app_nil_r. by destruct s.
  - unfold ubind, request.
    destruct (index_upsert ing (take size (drop i vectors))) as [[]|e] eqn:Hup.
    + destruct (IH {| world := world s;
                      requests := requests s
                                  ++ [Upsert (take size (drop i vectors))] |})
        as [(Hall & Hrun)|(k & b & e & Hk & Hb & Hbefore & Hrun)]; simpl in *.
      * left. split; [by constructor|]. rewrite Hrun. by rewrite <- app_assoc.
      * right. exists (S k), b, e. split; [done|]. split; [done|].
        split; [by constructor|]. rewrite Hrun. simpl. by rewrite <- app_assoc.
    + right. exists 0%nat, (take size (drop i vectors)), e.
      split; [done|]. split; [done|].
      split; [constructor|]. done.
Qed.


(** ** The /upload route *)

Lemma http_error_intro (status : Z) (detail : string) :
  status ∈ [400; 429; 500; 503] → http_error (HTTPException status detail).
Proof. intros Hs. by exists status, detail. Qed.

(** The first stage of the route: the content and the name come out and the
    clock has been read once, or the stage raises and nothing has moved. *)
Lemma extract_content_run (file : option UploadFile) (text : option string)
    (w : World) :
  (∃ content base,
     content_from ing file text w content base ∧
     extract_content env ing file text w
     = (Ok (content,
            base +:+ "_" +:+ pretty (int_of_float ing (clock env (ticks w)))),
        tick w))
  ∨ (∃ e,
       (http_error e
        ∨ ∃ f, file = Some f ∧ file_read f = Raise e ∧ is_HTTPException e = true) ∧
       extract_content env ing file text w = (Raise e, w)).
Proof.
  assert (Hraise : ∀ (status : Z) (detail : string),
            status ∈ [400; 429; 500; 503] →
            ∃ e, (http_error e
                  ∨ ∃ f, file = Some f ∧ file_read f = Raise e
                         ∧ is_HTTPException e = true) ∧
                 (Raise (HTTPException status detail) : Result (string * string), w)
                 = (Raise e, w)).
  { intros status detail Hs. eexists. split; [left; by apply http_error_intro|done]. }
  unfold extract_content, try_except.
  destruct file as [f|].
  - destruct (file_read f) as [data|e] eqn:Hread;
      cbv [bind of_result raise ret reraise_as_500].
    2:{ right. destruct (is_HTTPException e) eqn:Hhttp.
        - exists e. split; [right; by exists f|done].
        - apply Hraise. set_solver. }
    destruct (filename f) as [name|] eqn:Hname.
    2:{ right. apply Hraise. set_solver. }
    destruct (endswith (lower name) ".pdf") eqn:Hpdf.
    + rewrite extract_text_from_pdf_run.
      destruct (pdf_pages ing data) as [pages|e] eqn:Hpages.
      2:{ right. apply Hraise. set_solver. }
      destruct (pdf_text pages "") as [content|e] eqn:Htext.
      2:{ right. apply Hraise. set_solver. }
      case_bool_decide as Hblank.
      { right. apply Hraise. set_solver. }
      left. exists content, name. split; [|done].
      right. exists f, data. repeat split; try done. left. split; [done|].
      rewrite extract_text_from_pdf_run, Hpages, Htext.
      by rewrite bool_decide_false.
    + destruct (endswith (lower name) ".txt" || endswith (lower name) ".md")
        eqn:Htxt.
      * destruct (decode_utf8 ing data) as [content|] eqn:Hdec.
        2:{ right. apply Hraise. set_solver. }
        left. exists content, name. split; [|done].
        right. exists f, data. repeat split; try done. by right.
      * right. apply Hraise. set_solver.
  - destruct text as [t|]; cbv [bind of_result raise ret reraise_as_500].
    2:{ right. apply Hraise. set_solver. }
    case_bool_decide as Hblank.
    { right. apply Hraise. set_solver. }
    left. exists (Py.strip t), "text". split; [|done].
    left. split; [done|]. split; [done|]. by exists t.
Qed.


Lemma ubind_lift_ok {A B} (m : M A) (f : A → U B) s a w' :
  m (world s) = (Ok a, w') →
  ubind (lift m) f s = f a {| world := w'; requests := requests s |}.
Proof. unfold ubind, lift. by intros ->. Qed.

Lemma ubind_lift_raise {A B} (m : M A) (f : A → U B) s e w' :
  m (world s) = (Raise e, w') →
  ubind (lift m) f s = (Raise e, {| world := w'; requests := requests s |}).
Proof. unfold ubind, lift. by intros ->. Qed.

Lemma get_embedding_result (text : string) (w w0 : World) :
  (get_embedding env text w0).1 = (get_embedding env text w).1.
Proof. by rewrite !get_embedding_run. Qed.

(** Every way the route can end. *)
Lemma upload_document_run (file : option UploadFile) (text : option string)
    (title source : string) (s : Site) :
  let w := world s in
  let run := upload_document env ing file text title source s in
  (file = None ∧ (text = None ∨ text = Some "") ∧
   run = (Raise (HTTPException 400 "Must provide either a file or text content"), s))
  ∨ (∃ e,
       (http_error e
        ∨ ∃ f, file = Some f ∧ file_read f = Raise e ∧ is_HTTPException e = true) ∧
       extract_content env ing file text w = (Raise e, w) ∧
       run = (Raise e, s))
  ∨ ∃ content base,
      let doc_id :=
        base +:+ "_" +:+ pretty (int_of_float ing (clock env (ticks w))) in
      let metadata :=
        upload_metadata title source doc_id (clock env (S (ticks w))) in
      content_from ing file text w content base ∧
      ((∃ e0,
          split_text ing CHUNK_SIZE (CHUNK_OVERLAP ing) content = Raise e0 ∧
          run = (Raise (HTTPException 500 ("Chunking failed: " +:+ str_exn e0)),
                 uploaded_site s [] []))
       ∨ (split_text ing CHUNK_SIZE (CHUNK_OVERLAP ing) content = Ok [] ∧
          run = (Raise (HTTPException 400 "Document produced no valid chunks"),
                 uploaded_site s [] []))
       ∨ ∃ pieces,
           pieces ≠ [] ∧
           split_text ing CHUNK_SIZE (CHUNK_OVERLAP ing) content = Ok pieces ∧
           let chunks :=
             chunks_from env metadata (Z.of_nat (length pieces)) 0 pieces in
           ((∃ (k : nat) (piece : string) (e : exn),
               pieces !! k = Some piece ∧
               Forall (λ p, ∃ embedding, embeds env p embedding) (take k pieces) ∧
               (∀ w0, (get_embedding env piece w0).1 = Raise e) ∧
               run = (Raise e, uploaded_site s (take (S k) pieces) []))
            ∨ ∃ embeddings,
                Forall2 (embeds env) pieces embeddings ∧
                let vectors := zip_with (vector_of doc_id) chunks embeddings in
                ((∃ (k : nat) (b : list Vector) (e0 : exn),
                    batches vectors !! k = Some b ∧
                    index_upsert ing b = Raise e0 ∧
                    Forall (λ b, index_upsert ing b = Ok ())
                           (take k (batches vectors)) ∧
                    run = (Raise (HTTPException 500
                                    ("Failed to store vectors in Pinecone: "
                                     +:+ str_exn e0)),
                           uploaded_site s pieces (take (S k) (batches vectors))))
                 ∨ (Forall (λ b, index_upsert ing b = Ok ()) (batches vectors) ∧
                    run = (Ok {| resp_message :=
                                   "Successfully indexed document with "
                                   +:+ pretty (Z.of_nat (length pieces))
                                   +:+ " chunks";
                                 resp_chunks_created := Z.of_nat (length pieces);
                                 resp_document_id := doc_id;
                                 resp_total_tokens :=
                                   sumZ (token_count env <$> pieces) |},
                           uploaded_site s pieces (batches vectors)))))).
Proof.
  intros w run. subst run w. unfold upload_document.
  destruct (negb (bool_decide (is_Some file))
            && negb (bool_decide (is_Some text ∧ text ≠ Some ""))) eqn:Hguard.
  { left. apply andb_prop in Hguard as [Hfile Htext].
    apply negb_true_iff, bool_decide_eq_false in Hfile.
    apply negb_true_iff, bool_decide_eq_false in Htext.
    split; [by destruct file as [f|]; [destruct Hfile|]|].
    split; [|done].
    destruct text as [t|]; [|by left]. right.
    destruct (decide (t = "")) as [->|Hne]; [done|].
    destruct Htext. split; [done|congruence]. }
  right.
  destruct (extract_content_run file text (world s))
    as [(content & base & Hfrom & Hext)|(e & He & Hext)].
  2:{ left. exists e. split; [done|]. split; [done|].
      rewrite (ubind_lift_raise _ _ _ _ _ Hext). by destruct s. }
  right. exists content, base. split; [done|].
  rewrite (ubind_lift_ok _ _ _ _ _ Hext). cbn [fst snd].
  rewrite (ubind_lift_ok (time_time env) _ _ (clock env (S (ticks (world s))))
             (tick (tick (world s)))) by done.
  cbn [world requests].
  set (doc_id := base +:+ "_" +:+ pretty (int_of_float ing (clock env (ticks (world s))))).
  set (metadata := upload_metadata title source doc_id (clock env (S (ticks (world s))))).
  assert (Hsite : ∀ pieces bs,
            uploaded_site s pieces bs
            = {| world := logged (tick (tick (world s)))
                            (EmbeddingsCreate "text-embedding-3-small" <$> pieces);
                 requests := requests s ++ (Upsert <$> bs) |}) by done.
  assert (Hstarted : uploaded_site s [] []
                     = {| world := tick (tick (world s)); requests := requests s |}).
  { rewrite Hsite. unfold logged. simpl. rewrite !app_nil_r.
    by destruct (world s). }
  pose proof (chunk_text_run content metadata (tick (tick (world s)))) as Hchunk.
  destruct (split_text ing CHUNK_SIZE (CHUNK_OVERLAP ing) content)
    as [pieces|e0] eqn:Hsplit.
  2:{ left. exists e0. split; [done|].
      by rewrite (ubind_lift_raise _ _ {| world := tick (tick (world s)) |} _ _ Hchunk),
        Hstarted. }
  rewrite (ubind_lift_ok _ _ {| world := tick (tick (world s)) |} _ _ Hchunk).
  cbn [world requests].
  destruct pieces as [|p ps].
  { right; left. split; [done|]. simpl. by rewrite Hstarted. }
  right; right. exists (p :: ps). split; [done|]. split; [done|].
  remember (p :: ps) as pieces eqn:Hpieces.
  remember (chunks_from env metadata (Z.of_nat (length pieces)) 0 pieces)
    as chunks eqn:Hchunks.
  assert (Htexts : c_text <$> chunks = pieces)
    by (subst chunks; apply chunks_from_text).
  assert (Hlen : length chunks = length pieces)
    by (subst chunks; apply chunks_from_length).
  destruct chunks as [|c cs] eqn:Hcs; [by subst pieces|]. rewrite <- Hcs in *.
  clear c cs Hcs.
  destruct (embed_chunks_run doc_id chunks [] 0 (tick (tick (world s))))
    as [(embeddings & Hall & Hrun)|(k & c & e & Hk & Hbefore & Hfail & Hrun)].
  - right. exists embeddings. split.
    { rewrite <- Htexts. by apply Forall2_fmap_l. }
    rewrite Htexts in Hrun.
    set (vectors := zip_with (vector_of doc_id) chunks embeddings) in *.
    erewrite ubind_lift_ok; last first.
    { cbn [world]. unfold try_except. by rewrite Hrun. }
    cbn [fst snd app world requests].
    rewrite Hlen.
    replace (0 + sumZ (c_token_count <$> chunks))
      with (sumZ (token_count env <$> pieces)).
    2:{ subst chunks. by rewrite chunks_from_tokens. }
    destruct (upsert_batches_run vectors 100 (py_range (length vectors) 100)
                {| world := logged (tick (tick (world s)))
                              (EmbeddingsCreate "text-embedding-3-small" <$> pieces);
                   requests := requests s |})
      as [(Hok & Hup)|(j & b & e0 & Hj & Hb & Hbefore & Hup)];
      cbn [world requests] in Hup.
    + right. split; [exact Hok|].
      unfold ubind, utry_except. rewrite Hup. by rewrite Hsite.
    + left. exists j, b, e0. split; [exact Hj|]. split; [done|].
      split; [exact Hbefore|].
      unfold ubind, utry_except. rewrite Hup. by rewrite Hsite.
  - left. apply get_embedding_raises in Hfail as Hhttp. destruct Hhttp as [Hhttp _].
    exists k, (c_text c), e. split.
    { rewrite <- Htexts, list_lookup_fmap, Hk. done. }
    split.
    { rewrite <- Htexts, <- fmap_take. by apply Forall_fmap. }
    split.
    { intros w0. erewrite get_embedding_result. by rewrite Hfail. }
    erewrite ubind_lift_raise; last first.
    { cbn [world]. unfold try_except. rewrite Hrun.
      destruct Hhttp as (status & detail & -> & _). done. }
    rewrite Hsite, <- Htexts, fmap_take, app_nil_r. done.
Qed.


(** What an upload that returned has done. *)
Lemma upload_document_ok_inv (file : option UploadFile) (text : option string)
    (title source : string) (s s' : Site) (resp : UploadResponse) :
  upload_document env ing file text title source s = (Ok resp, s') →
  ∃ content base pieces embeddings,
    content_from ing file text (world s) content base ∧
    split_text ing CHUNK_SIZE (CHUNK_OVERLAP ing) content = Ok pieces ∧
    pieces ≠ [] ∧
    Forall2 (embeds env) pieces embeddings ∧
    Forall (λ b, index_upsert ing b = Ok ())
      (batches (upload_vectors env ing title source base (world s) pieces embeddings)) ∧
    resp = {| resp_message :=
                "Successfully indexed document with "
                +:+ pretty (Z.of_nat (length pieces)) +:+ " chunks";
              resp_chunks_created := Z.of_nat (length pieces);
              resp_document_id := upload_doc_id env ing base (world s);
              resp_total_tokens := sumZ (token_count env <$> pieces) |} ∧
    s' = uploaded_site s pieces
           (batches (upload_vectors env ing title source base (world s)
                       pieces embeddings)).
Proof.
  intros Hrun.
  destruct (upload_document_run file text title source s)
    as [(_ & _ & H)|[(e & _ & _ & H)|(content & base & Hfrom & H)]];
    [congruence..|].
  cbv zeta in H.
  destruct H as [(e0 & _ & H)|[(_ & H)|(pieces & Hne & Hsplit & H)]];
    [congruence..|].
  destruct H as [(k & piece & e & _ & _ & _ & H)|(embeddings & Hall & H)];
    [congruence|].
  destruct H as [(k & b & e0 & _ & _ & _ & H)|(Hok & H)]; [congruence|].
  rewrite H in Hrun. injection Hrun as <- <-.
  by exists content, base, pieces, embeddings.
Qed.


(** An upload without a file whose text is missing or blank is rejected
    with HTTP 400 before anything happens: the clock is not read, nothing
    is embedded and nothing is sent to the index. *)
Theorem upload_without_content_is_rejected (text : option string)
    (title source : string) (s : Site) :
  text = None ∨ (∃ t, text = Some t ∧ Py.strip t = "") →
  ∃ detail,
    upload_document env ing None text title source s
    = (Raise (HTTPException 400 detail), s).
Proof.
  intros Htext. unfold upload_document.
  destruct (negb _ && negb _) eqn:Hguard; [by eexists|].
  apply andb_false_iff in Hguard as [Hguard|Hguard];
    apply negb_false_iff, bool_decide_eq_true in Hguard.
  { by destruct Hguard. }
  destruct Htext as [->|(t & -> & Hblank)]; [by destruct Hguard as [[] _]|].
  erewrite ubind_lift_raise; last first.
  { unfold extract_content, try_except. by rewrite bool_decide_true. }
  destruct s. by eexists.
Qed.

(** When a file is sent, the text of the form is ignored: the upload runs
    the same way whatever the text. *)
Theorem upload_file_takes_precedence (f : UploadFile) (text text' : option string)
    (title source : string) (s : Site) :
  upload_document env ing (Some f) text title source s
  = upload_document env ing (Some f) text' title source s.
Proof.
  unfold upload_document.
  rewrite (bool_decide_true (is_Some (Some f))) by done.
  by cbn [negb andb].
Qed.

(** A file that can be read and whose name, in lower case, ends with none
    of .pdf, .txt and .md is rejected with HTTP 400 after the read and
    nothing else: its bytes are not decoded, the clock is not read and
    nothing is embedded or stored. *)
Theorem upload_rejects_other_file_types (f : UploadFile) (name : string)
    (data : list Byte.byte) (text : option string) (title source : string)
    (s : Site) :
  filename f = Some name →
  file_read f = Ok data →
  endswith (lower name) ".pdf" = false →
  endswith (lower name) ".txt" = false →
  endswith (lower name) ".md" = false →
  upload_document env ing (Some f) text title source s
  = (Raise (HTTPException 400
              "Unsupported file type. Supported: .pdf, .txt, .md"), s).
Proof.
  intros Hname Hread Hpdf Htxt Hmd.
  unfold upload_document.
  rewrite (bool_decide_true (is_Some (Some f))) by done. cbn [negb andb].
  erewrite ubind_lift_raise; last first.
  { unfold extract_content, try_except, bind, of_result.
    by rewrite Hread, Hname, Hpdf, Htxt, Hmd. }
  by destruct s.
Qed.

(** ** What a successful upload reports and does *)

(** The response of an upload counts what was indexed: chunks_created is
    the number of pieces the splitter cut the content into, at least one,
    total_tokens is the sum of the token counts of these pieces, and
    document_id is the file name (or "text") followed by the whole seconds
    of the first reading of the clock. *)
Theorem upload_response_counts_chunks_and_tokens (file : option UploadFile)
    (text : option string) (title source : string) (s s' : Site)
    (resp : UploadResponse) :
  upload_document env ing file text title source s = (Ok resp, s') →
  ∃ content base pieces,
    content_from ing file text (world s) content base ∧
    split_text ing CHUNK_SIZE (CHUNK_OVERLAP ing) content = Ok pieces ∧
    resp_chunks_created resp = Z.of_nat (length pieces) ∧
    0 < resp_chunks_created resp ∧
    resp_total_tokens resp = sumZ (token_count env <$> pieces) ∧
    resp_document_id resp
    = base +:+ "_" +:+ pretty (int_of_float ing (clock env (ticks (world s)))) ∧
    resp_message resp
    = "Successfully indexed document with "
      +:+ pretty (resp_chunks_created resp) +:+ " chunks".
Proof.
  intros Hrun.
  apply upload_document_ok_inv in Hrun
    as (content & base & pieces & embeddings & Hfrom & Hsplit & Hne & _ & _ & -> & _).
  exists content, base, pieces. simpl. repeat split; try done.
  destruct pieces; [done|simpl; lia].
Qed.

(** A successful upload reads the clock twice and calls the embedding
    service once for every piece of the content, in the order of the
    pieces, and makes no other call of the query side. *)
Theorem upload_embeds_each_chunk_once (file : option UploadFile)
    (text : option string) (title source : string) (s s' : Site)
    (resp : UploadResponse) :
  upload_document env ing file text title source s = (Ok resp, s') →
  ∃ content base pieces,
    content_from ing file text (world s) content base ∧
    split_text ing CHUNK_SIZE (CHUNK_OVERLAP ing) content = Ok pieces ∧
    ticks (world s') = (2 + ticks (world s))%nat ∧
    log (world s')
    = log (world s) ++ (EmbeddingsCreate "text-embedding-3-small" <$> pieces).
Proof.
  intros Hrun.
  apply upload_document_ok_inv in Hrun
    as (content & base & pieces & embeddings & Hfrom & Hsplit & _ & _ & _ & _ & ->).
  by exists content, base, pieces.
Qed.

Lemma vectors_of_chunks (doc_id : string) (metadata : gmap string value)
    (n : Z) (pieces : list string) :
  ∀ (i : Z) (embeddings : list (list float)),
    Forall2 (embeds env) pieces embeddings →
    Forall2 (λ v p,
               v_id v = doc_id +:+ "_" +:+ pretty p.1 ∧
               v_metadata v !! "text" = Some (VStr p.2) ∧
               v_metadata v !! "chunk_index" = Some (VInt p.1) ∧
               (∀ k, k ∉ ["text"; "chunk_index"; "position"; "token_count"] →
                     v_metadata v !! k = metadata !! k) ∧
               embeds env p.2 (v_values v))
            (zip_with (vector_of doc_id)
               (chunks_from env metadata n i pieces) embeddings)
            (enumerate i pieces).
Proof.
  induction pieces as [|piece rest IH]; intros i embeddings Hall.
  - apply Forall2_nil_inv_l in Hall as ->. constructor.
  - apply Forall2_cons_inv_l in Hall as (emb & embs & Hemb & Hall & ->).
    simpl. constructor; [|by apply IH].
    unfold vector_of, c_metadata. simpl. repeat split; try done.
    + by rewrite lookup_insert_eq.
    + do 3 rewrite lookup_insert_ne by done. by rewrite lookup_insert_eq.
    + intros k Hk. rewrite !lookup_insert_ne; [done|..];
        intros <-; apply Hk; set_solver.
Qed.

Lemma vectors_of_chunks_length (doc_id : string) (metadata : gmap string value)
    (n i : Z) (pieces : list string) (embeddings : list (list float)) :
  length pieces = length embeddings →
  length (zip_with (vector_of doc_id) (chunks_from env metadata n i pieces)
            embeddings) = length pieces.
Proof.
  intros Hlen. rewrite length_zip_with, chunks_from_length. lia.
Qed.

Lemma batches_sizes (vectors : list Vector) :
  Forall (λ b, (1 <= length b <= 100)%nat) (batches vectors) ∧
  ∀ (k : nat) (b : list Vector),
    batches vectors !! k = Some b →
    (S k < length (batches vectors))%nat → length b = 100%nat.
Proof.
  split.
  - apply Forall_lookup. intros k b Hb.
    apply batches_lookup in Hb as [-> Hk].
    rewrite length_take, length_drop. lia.
  - intros k b Hb Hlast. apply batches_lookup in Hb as [-> Hk].
    rewrite batches_length in Hlast.
    rewrite length_take, length_drop.
    assert (S k * 100 <= length vectors)%nat; [|lia].
    pose proof (Nat.div_mod_eq (length vectors + 99) 100) as Hdm.
    pose proof (Nat.mod_upper_bound (length vectors + 99) 100 ltac:(lia)) as Hmod.
    revert Hlast Hdm Hmod.
    generalize ((length vectors + 99) / 100)%nat,
               ((length vectors + 99) mod 100)%nat. lia.
Qed.

(** A successful upload sends every chunk to the index, once, in upserts
    of at most 100 vectors: all batches but the last hold exactly 100, none
    is empty, and put end to end they are one vector per piece, in order,
    with the id "<document_id>_<i>" (i from 0), the piece as its text, its
    number as chunk_index, the embedding the service gave for the piece,
    and the title, source, document_id and uploaded_at of the upload. *)
Theorem upload_stores_every_chunk_in_batches (file : option UploadFile)
    (text : option string) (title source : string) (s s' : Site)
    (resp : UploadResponse) :
  upload_document env ing file text title source s = (Ok resp, s') →
  ∃ (content base : string) (pieces : list string) (bs : list (list Vector)),
    content_from ing file text (world s) content base ∧
    split_text ing CHUNK_SIZE (CHUNK_OVERLAP ing) content = Ok pieces ∧
    requests s' = requests s ++ (Upsert <$> bs) ∧
    Forall (λ b, index_upsert ing b = Ok ()) bs ∧
    Forall (λ b, (1 <= length b <= 100)%nat) bs ∧
    (∀ k b, bs !! k = Some b → (S k < length bs)%nat → length b = 100%nat) ∧
    Forall2 (λ v p,
               v_id v = resp_document_id resp +:+ "_" +:+ pretty p.1 ∧
               v_metadata v !! "text" = Some (VStr p.2) ∧
               v_metadata v !! "chunk_index" = Some (VInt p.1) ∧
               (∀ k, k ∉ ["text"; "chunk_index"; "position"; "token_count"] →
                     v_metadata v !! k
                     = upload_metadata title source (resp_document_id resp)
                         (clock env (S (ticks (world s)))) !! k) ∧
               embeds env p.2 (v_values v))
            (concat bs) (enumerate 0 pieces).
Proof.
  intros Hrun.
  apply upload_document_ok_inv in Hrun
    as (content & base & pieces & embeddings
        & Hfrom & Hsplit & _ & Hall & Hok & -> & ->).
  exists content, base, pieces, (batches (upload_vectors env ing title source
                                           base (world s) pieces embeddings)).
  split; [done|]. split; [done|]. split; [done|]. split; [done|].
  destruct (batches_sizes (upload_vectors env ing title source base (world s)
                             pieces embeddings)) as [Hsizes Hfull].
  split; [done|]. split; [done|].
  rewrite batches_concat. simpl. by apply vectors_of_chunks.
Qed.

Lemma vector_ids (doc_id : string) (metadata : gmap string value) (n : Z)
    (pieces : list string) :
  ∀ (i : Z) (embeddings : list (list float)),
    length pieces = length embeddings →
    v_id <$> zip_with (vector_of doc_id)
               (chunks_from env metadata n i pieces) embeddings
    = (λ k, doc_id +:+ "_" +:+ pretty k) <$> seqZ i (Z.of_nat (length pieces)).
Proof.
  induction pieces as [|piece rest IH]; intros i [|emb embs] Hlen;
    try done.
  simpl length. rewrite Nat2Z.inj_succ, seqZ_cons by lia.
  simpl. f_equal. rewrite IH by (simpl in Hlen; lia).
  by replace (Z.pred (Z.succ (Z.of_nat (length rest))))
    with (Z.of_nat (length rest)) by lia.
Qed.

Lemma upserts_inj (bs bs' : list (list Vector)) :
  Upsert <$> bs = Upsert <$> bs' → bs = bs'.
Proof.
  revert bs'. induction bs as [|b bs IH]; intros [|b' bs'] Heq; try done.
  injection Heq as -> Heq. f_equal. by apply IH.
Qed.

(** The vectors of one upload have pairwise distinct ids: no chunk of the
    document overwrites another one in the index. *)
Theorem upload_vector_ids_are_distinct (file : option UploadFile)
    (text : option string) (title source : string) (s s' : Site)
    (resp : UploadResponse) (bs : list (list Vector)) :
  upload_document env ing file text title source s = (Ok resp, s') →
  requests s' = requests s ++ (Upsert <$> bs) →
  NoDup (v_id <$> concat bs).
Proof.
  intros Hrun Hreq.
  apply upload_document_ok_inv in Hrun
    as (content & base & pieces & embeddings
        & _ & _ & _ & Hall & _ & _ & ->).
  simpl in Hreq. apply app_inv_head in Hreq.
  apply upserts_inj in Hreq. subst bs.
  rewrite batches_concat. unfold upload_vectors, upload_chunks.
  rewrite vector_ids by by eapply Forall2_length.
  apply NoDup_fmap_2; [|apply NoDup_seqZ].
  intros x y Hxy. by apply (inj (String.app _)), (inj (String.app _)), (inj pretty) in Hxy.
Qed.

(** ** What a failed upload leaves behind *)

(** Every way the route can raise. *)
Lemma upload_document_raise_inv (file : option UploadFile) (text : option string)
    (title source : string) (s s' : Site) (e : exn) :
  upload_document env ing file text title source s = (Raise e, s') →
  ((http_error e
    ∨ ∃ f, file = Some f ∧ file_read f = Raise e ∧ is_HTTPException e = true) ∧
   requests s' = requests s)
  ∨ ∃ (stored : list (list Vector)) (failed : list Vector) (e0 : exn),
      e = HTTPException 500
            ("Failed to store vectors in Pinecone: " +:+ str_exn e0) ∧
      requests s' = requests s ++ (Upsert <$> stored) ++ [Upsert failed] ∧
      Forall (λ b, index_upsert ing b = Ok ()) stored ∧
      index_upsert ing failed = Raise e0.
Proof.
  intros Hrun.
  destruct (upload_document_run file text title source s)
    as [(_ & _ & H)|[(e' & He & _ & H)|(content & base & Hfrom & H)]].
  - rewrite H in Hrun. injection Hrun as <- <-. left.
    split; [left; apply http_error_intro; set_solver|done].
  - rewrite H in Hrun. injection Hrun as <- <-. by left.
  - cbv zeta in H.
    destruct H as [(e0 & _ & H)|[(_ & H)|(pieces & Hne & Hsplit & H)]].
    + rewrite H in Hrun. injection Hrun as <- <-. left.
      split; [left; apply http_error_intro; set_solver|].
      simpl. by rewrite app_nil_r.
    + rewrite H in Hrun. injection Hrun as <- <-. left.
      split; [left; apply http_error_intro; set_solver|].
      simpl. by rewrite app_nil_r.
    + destruct H as [(k & piece & e' & _ & _ & Hfail & H)|(embeddings & Hall & H)].
      * rewrite H in Hrun. injection Hrun as <- <-. left. split.
        { left. specialize (Hfail (world s)).
          destruct (get_embedding env piece (world s)) as [r w1] eqn:Hemb.
          simpl in Hfail. subst r.
          by apply get_embedding_raises in Hemb as [? _]. }
        simpl. by rewrite app_nil_r.
      * destruct H as [(k & b & e0 & Hk & Hb & Hbefore & H)|(_ & H)];
          [|congruence].
        rewrite H in Hrun. injection Hrun as <- <-. right.
        eexists (take k _), b, e0. split; [done|]. split; [|done].
        simpl. by rewrite (take_S_r _ _ _ Hk), fmap_app.
Qed.

(** An upload that fails has stored nothing, unless it failed while
    storing: then the error is HTTP 500 "Failed to store vectors in
    Pinecone", the batches upserted before the failing one stay in the
    index (nothing is deleted or retried), and no later batch is sent. *)
Theorem failed_upload_keeps_stored_batches (file : option UploadFile)
    (text : option string) (title source : string) (s s' : Site) (e : exn) :
  upload_document env ing file text title source s = (Raise e, s') →
  requests s' = requests s
  ∨ ∃ (stored : list (list Vector)) (failed : list Vector) (e0 : exn),
      e = HTTPException 500
            ("Failed to store vectors in Pinecone: " +:+ str_exn e0) ∧
      requests s' = requests s ++ (Upsert <$> stored) ++ [Upsert failed] ∧
      Forall (λ b, index_upsert ing b = Ok ()) stored ∧
      index_upsert ing failed = Raise e0.
Proof.
  intros Hrun. apply upload_document_raise_inv in Hrun as [[_ H]|H];
    [by left|by right].
Qed.

(** The upload route raises nothing but HTTPExceptions; the status is 400,
    429, 500 or 503, except for an HTTPException raised by the read of the
    file itself, which is passed on as it is. *)
Theorem upload_raises_only_http_exceptions (file : option UploadFile)
    (text : option string) (title source : string) (s s' : Site) (e : exn) :
  upload_document env ing file text title source s = (Raise e, s') →
  ∃ status detail,
    e = HTTPException status detail ∧
    (status ∈ [400; 429; 500; 503]
     ∨ ∃ f, file = Some f ∧ file_read f = Raise e).
Proof.
  intros Hrun. apply upload_document_raise_inv in Hrun
    as [[[(status & detail & -> & Hs)|(f & -> & Hread & Hhttp)] _]
       |(stored & failed & e0 & -> & _)].
  - exists status, detail. split; [done|by left].
  - destruct e; try done. eexists _, _. split; [done|]. right. by exists f.
  - eexists 500, _. split; [done|]. left. set_solver.
Qed.


(** ** An embedding failure in the middle of an upload *)

Lemma content_from_run (file : option UploadFile) (text : option string)
    (w : World) (content base : string) :
  content_from ing file text w content base →
  extract_content env ing file text w
  = (Ok (content, upload_doc_id env ing base w), tick w).
Proof.
  unfold extract_content, try_except, bind, of_result.
  intros [(-> & -> & t & -> & -> & Hne)
         |(f & data & -> & Hname & Hread & [[Hpdf Hrun]|(Hpdf & Htxt & Hdec)])].
  - by rewrite bool_decide_false.
  - by rewrite Hread, Hname, Hpdf, Hrun.
  - by rewrite Hread, Hname, Hpdf, Htxt, Hdec.
Qed.

Lemma content_from_guard (file : option UploadFile) (text : option string)
    (w : World) (content base : string) :
  content_from ing file text w content base →
  negb (bool_decide (is_Some file))
  && negb (bool_decide (is_Some text ∧ text ≠ Some "")) = false.
Proof.
  intros [(-> & -> & t & -> & -> & Hne)|(f & data & -> & _)].
  - apply andb_false_iff. right. apply negb_false_iff, bool_decide_eq_true.
    split; [done|]. intros [= ->]. done.
  - apply andb_false_iff. left. by apply negb_false_iff, bool_decide_eq_true.
Qed.

(** When the embedding of a piece fails and the pieces before it were
    embedded, the upload stops there: it raises the HTTPException of
    [get_embedding] (429 for a rate limit, 503 for another API error, 500
    otherwise), the pieces up to the failing one have been sent to the
    embedding service and no further one, and nothing has been sent to
    the index. *)
Theorem upload_stops_at_first_embedding_failure (file : option UploadFile)
    (text : option string) (title source : string) (s : Site)
    (content base : string) (pieces : list string) (k : nat) (piece : string)
    (e0 : exn) :
  content_from ing file text (world s) content base →
  split_text ing CHUNK_SIZE (CHUNK_OVERLAP ing) content = Ok pieces →
  pieces !! k = Some piece →
  Forall (λ p, ∃ embedding, embeds env p embedding) (take k pieces) →
  embeddings_create env "text-embedding-3-small" piece = Raise e0 →
  ∃ detail,
    upload_document env ing file text title source s
    = (Raise (HTTPException (status_of e0) detail),
       {| world :=
            {| ticks := 2 + ticks (world s);
               log := log (world s)
                      ++ (EmbeddingsCreate "text-embedding-3-small"
                            <$> take (S k) pieces) |};
          requests := requests s |}).
Proof.
  intros Hfrom Hsplit Hk Hbefore Hfail.
  destruct (upload_document_run file text title source s)
    as [(-> & Htext & _)|[(e & _ & H & _)|(content' & base' & Hfrom' & H)]].
  { pose proof (content_from_guard _ _ _ _ _ Hfrom) as Hguard.
    apply andb_false_iff in Hguard as [Hguard|Hguard];
      apply negb_false_iff, bool_decide_eq_true in Hguard.
    - by destruct Hguard.
    - destruct Hguard as [_ Hne]. by destruct Htext as [->| ->]; [destruct Hfrom as [(_ & _ & ? & [=] & _)|(? & ? & [=] & _)]|]. }
  { rewrite (content_from_run _ _ _ _ _ Hfrom) in H. discriminate. }
  cbv zeta in H.
  pose proof (content_from_run _ _ _ _ _ Hfrom) as Hext.
  rewrite (content_from_run _ _ _ _ _ Hfrom') in Hext.
  injection Hext as <- Hid.
  rewrite Hsplit in H.
  destruct H as [(? & [=] & _)|[([= ->] & _)|(pieces' & _ & [= <-] & H)]];
    [done|].
  destruct H as [(k' & piece' & e & Hk' & Hbefore' & Hfail' & ->)
                |(embeddings & Hall & _)].
  2:{ exfalso. apply (Forall2_lookup_l _ _ _ _ _ Hall) in Hk
        as (emb & _ & others & Hemb). congruence. }
  assert (k' = k) as ->.
  { destruct (Nat.lt_total k' k) as [Hlt|[->|Hgt]]; [exfalso|done|exfalso].
    - rewrite Forall_lookup in Hbefore.
      destruct (Hbefore k' piece') as (emb & others & Hemb).
      { by rewrite lookup_take_lt. }
      specialize (Hfail' (world s)). rewrite get_embedding_run, Hemb in Hfail'.
      done.
    - rewrite Forall_lookup in Hbefore'.
      destruct (Hbefore' k piece) as (emb & others & Hemb).
      { by rewrite lookup_take_lt. }
      congruence. }
  rewrite Hk in Hk'. injection Hk' as <-.
  specialize (Hfail' (world s)). rewrite get_embedding_run, Hfail in Hfail'.
  simpl in Hfail'. injection Hfail' as <-.
  eexists. f_equal. unfold uploaded_site. by rewrite app_nil_r.
Qed.

(** ** The /health route *)

(** [detailed_health] never raises, whatever the services do. It asks the
    index for its statistics and OpenAI for its models, once each and the
    second also when the first failed, and reports "ok" for a service
    exactly when its call returned, "error" otherwise; "api" is always
    "ok" and "cohere" always "not_checked". *)
Theorem detailed_health_reports_each_service (s : Site) :
  ∃ health_status : gmap string string,
    detailed_health ing s
    = (Ok health_status,
       {| world := world s;
          requests := requests s ++ [DescribeIndexStats; ModelsList] |}) ∧
    health_status !! "api" = Some "ok" ∧
    health_status !! "cohere" = Some "not_checked" ∧
    health_status !! "pinecone"
    = Some (match describe_index_stats ing with
            | Ok _ => "ok" | Raise _ => "error" end) ∧
    health_status !! "openai"
    = Some (match models_list ing with
            | Ok _ => "ok" | Raise _ => "error" end) ∧
    dom health_status = {["api"; "pinecone"; "openai"; "cohere"]}.
Proof.
  unfold detailed_health, probe, ubind, utry_except, request, uret.
  destruct (describe_index_stats ing) as [st|e1];
    destruct (models_list ing) as [[]|e2]; simpl;
    (eexists; split; [by rewrite <- app_assoc|]);
    split_and!; try done;
    rewrite !dom_insert_L, dom_empty_L; set_solver.
Qed.


End IngestionProofs.


(** * The theorems at work on the concrete world *)

Import Demo.

#[local] Existing Instance Exact.floats.

(** Runs the route on the concrete world and offers the response and the
    final world it computes, keeping the equation as [Hrun]. *)
Ltac run_route :=
  lazymatch goal with
  | |- ∃ resp w', ?run = (Ok resp, w') ∧ _ =>
      let r := eval vm_compute in run in
      lazymatch r with
      | (Ok ?resp, ?w) =>
          assert (Hrun : run = (Ok resp, w)) by vm_cast_no_check (eq_refl r);
          exists resp, w; split; [exact Hrun|]
      end
  end.

(** Ten characters and no tokenizer: 10 // 4 tokens. *)
Example token_count_fallback :
  get_token_count tokenizer_down "abcdefghij" start = (Ok 2, start).
Proof. reflexivity. Qed.

Example token_count_exact :
  get_token_count healthy "abcdefghij" start = (Ok 10, start).
Proof. reflexivity. Qed.

(** Two chunks of one document under a cap of 1: the first one stays. *)
Example diversify_keeps_the_first :
  mmr_diversify [candidate "high" "d1"; candidate "low" "d1"] 1 start
  = (Ok [candidate "high" "d1"], start).
Proof. reflexivity. Qed.

Example diversify_default_cap :
  mmr_diversify ranked 2 start = (Ok (take 3 ranked), start).
Proof. reflexivity. Qed.

(** A cap below zero keeps nothing. *)
Example diversify_negative_cap :
  mmr_diversify ranked (-1) start = (Ok [], start).
Proof. reflexivity. Qed.

(** 3004 + 2984 tokens fit under 6000; the third block, of 14 tokens, would
    not, and the fourth, whose 4 tokens would, is never looked at. *)
Example budget_stops_at_first_overflow :
  match assemble_context healthy
          [candidate (filler 3000) "d1"; candidate (filler 2980) "d2";
           candidate (filler 10) "d3"; candidate "" "d4"] start with
  | (Ok st, _) => (id <$> sources st, total_context_tokens st) = ([1; 2], 5988)
  | _ => False
  end.
Proof. reflexivity. Qed.

(** A lone candidate of 6001 tokens with its prefix: nothing is accepted. *)
Example budget_rejects_oversized_candidate :
  assemble_context healthy [candidate (filler 5997) "d1"] start
  = (Ok no_context, start).
Proof. reflexivity. Qed.

(** Reranked: positions 2 and 1 of the diversified list, each with its new
    rerank score. *)
Example rerank_reorders :
  match rerank_documents healthy "solar" (take 3 ranked) 2 start with
  | (Ok out, _) =>
      (text <$> out, rerank_score <$> out)
      = (["Storage smooths intermittent supply.";
          "Wind turbines produce 2-3 megawatts."],
         [Some (Qmake 1 2); Some (Qmake 1 2)])
  | _ => False
  end.
Proof. reflexivity. Qed.

(** With the service down the route still answers, from the candidates in
    their retrieval order. *)
Example degraded_rerank_still_answers :
  ∃ resp w',
    query_documents rerank_down (ask "What is solar panel efficiency?" 2) start
      = (Ok resp, w') ∧
    (preview <$> resp_sources resp, id <$> resp_sources resp)
    = (["Solar panels average 15-22% efficiency.";
        "Wind turbines produce 2-3 megawatts."], [1; 2]).
Proof. run_route. reflexivity. Qed.

(** With the service down, a negative [top_n] slices from the end. *)
Example rerank_degraded_negative_top_n :
  match rerank_documents rerank_down "solar" ranked (-1) start with
  | (Ok out, _) => out = take 3 ranked
  | _ => False
  end.
Proof. reflexivity. Qed.

Lemma rerank_last_first_honours_top_n (index : list Match)
    (embedding : Result (list (list Q))) (chat : Result ChatCompletion) :
  honours_top_n (deployment index embedding rerank_last_first chat).
Proof.
  intros model q documents n rs. simpl. unfold rerank_last_first.
  destruct (n <? 0) eqn:Hn; [done|]. apply Z.ltb_ge in Hn.
  intros [= <-]. rewrite length_fmap, length_take. lia.
Qed.

Lemma rerank_degrades_on_service_error_witness :
  ranked ≠ [] ∧
  cohere_rerank rerank_down "rerank-english-v3.0" "solar" (text <$> ranked)
    (Z.min 2 (Z.of_nat (length ranked))) = Raise (Exception "connection refused") ∧
  rerank_documents rerank_down "solar" ranked 2 start =
    (Ok (take 2 ranked),
     {| ticks := 0;
        log := [CohereRerank "rerank-english-v3.0" "solar" (text <$> ranked) 2;
                Printed "Reranking failed: connection refused, returning original order"] |}).
Proof.
  split; [discriminate|]. split; [reflexivity|].
  apply (proj1 (rerank_degrades_on_service_error rerank_down "solar" ranked 2 start)
           (Exception "connection refused")); [discriminate|reflexivity].
Defined.

Lemma openai_failure_surfaces_by_kind_witness :
  embeddings_create (openai_failing (RateLimitError "slow down"))
    "text-embedding-3-small" "hi" = Raise (RateLimitError "slow down") ∧
  (∃ detail : string,
     get_embedding (openai_failing (RateLimitError "slow down")) "hi" start =
       (Raise (HTTPException 429 detail),
        logged start [EmbeddingsCreate "text-embedding-3-small" "hi"])) ∧
  (∀ system user,
     chat_completions_create (openai_failing (APIError "overloaded"))
       "gpt-4-turbo-preview" system user (fdec 2 (-1)) 800
     = Raise (APIError "overloaded")) ∧
  (∃ detail system user : string,
     generate_answer (openai_failing (APIError "overloaded")) "hi" ranked start =
       (Raise (HTTPException 503 detail),
        logged start [ChatCompletionsCreate "gpt-4-turbo-preview" system user])).
Proof.
  split; [reflexivity|]. split; [|split; [reflexivity|]].
  - apply (proj1 (openai_failure_surfaces_by_kind
                    (openai_failing (RateLimitError "slow down")))
             "hi" (RateLimitError "slow down") start).
    reflexivity.
  - apply (proj2 (openai_failure_surfaces_by_kind
                    (openai_failing (APIError "overloaded")))
             "hi" ranked (APIError "overloaded") start).
    reflexivity.
Defined.

Lemma no_match_short_circuit_witness :
  Py.strip (query (ask "What is solar panel efficiency?" 5)) ≠ "" ∧
  embeddings_create textless_index "text-embedding-3-small"
    "What is solar panel efficiency?" = Ok [vector] ∧
  index_query textless_index vector 15 = Ok [bare] ∧
  Forall (λ m, match_metadata m !! "text" = None) [bare] ∧
  ∃ resp w',
    query_documents textless_index (ask "What is solar panel efficiency?" 5) start
      = (Ok resp, w') ∧
    resp_answer resp = no_match_answer ∧
    resp_sources resp = [] ∧
    costs (token_estimate resp) !! "llm_usd" = Some (fdec 0 0) ∧
    costs (token_estimate resp) !! "rerank_usd" = Some (fdec 0 0) ∧
    costs (token_estimate resp) !! "total_usd"
      = costs (token_estimate resp) !! "embedding_usd" ∧
    log w' = [EmbeddingsCreate "text-embedding-3-small"
                "What is solar panel efficiency?";
              IndexQuery vector 15].
Proof.
  assert (H1 : Py.strip (query (ask "What is solar panel efficiency?" 5)) ≠ "")
    by discriminate.
  assert (H4 : Forall (λ m : Match, match_metadata m !! "text" = None) [bare])
    by (repeat constructor).
  split; [exact H1|]. split; [reflexivity|]. split; [reflexivity|].
  split; [exact H4|].
  destruct (no_match_short_circuit textless_index
              (ask "What is solar panel efficiency?" 5) vector [] [bare] start
              H1 eq_refl eq_refl H4)
    as (resp & w' & Hrun & Hans & Hsrc & _ & _ & _ & _ & Hllm & Hrr & _ & Htot & Hlog).
  exists resp, w'. by repeat split.
Defined.

Lemma answered_timing_witness :
  embeddings_create healthy "text-embedding-3-small"
    "What is solar panel efficiency?" = Ok [vector] ∧
  index_query healthy vector 15 = Ok stored ∧
  extract_docs stored ≠ [] ∧
  ∃ resp w',
    query_documents healthy (ask "What is solar panel efficiency?" 2) start
      = (Ok resp, w') ∧
    timing resp =
      [("embedding", Qmake 1 1000); ("retrieval", Qmake 1 200);
       ("reranking", Qmake 9 1000); ("generation", Qmake 13 1000);
       ("total", Qmake 7 250)].
Proof.
  assert (H3 : extract_docs stored ≠ []) by discriminate.
  split; [reflexivity|]. split; [reflexivity|]. split; [exact H3|].
  run_route.
  exact (answered_timing healthy (ask "What is solar panel efficiency?" 2)
           vector [] stored start _ _ eq_refl eq_refl H3 Hrun).
Defined.

Lemma answered_token_estimate_witness :
  embeddings_create healthy "text-embedding-3-small"
    "What is solar panel efficiency?" = Ok [vector] ∧
  index_query healthy vector 15 = Ok stored ∧
  extract_docs stored ≠ [] ∧
  ∃ resp w',
    query_documents healthy (ask "What is solar panel efficiency?" 2) start
      = (Ok resp, w') ∧
    ∃ (completion : ChatCompletion) (system user : string),
      chat_completions_create healthy "gpt-4-turbo-preview" system user
        (fdec 2 (-1)) 800 = Ok completion ∧
      total_tokens (token_estimate resp)
        = token_count healthy "What is solar panel efficiency?"
          + usage_total_tokens (usage completion) ∧
      embedding_tokens (token_estimate resp)
        = token_count healthy "What is solar panel efficiency?" ∧
      llm_input_tokens (token_estimate resp) = prompt_tokens (usage completion) ∧
      llm_output_tokens (token_estimate resp)
        = completion_tokens (usage completion).
Proof.
  assert (H3 : extract_docs stored ≠ []) by discriminate.
  split; [reflexivity|]. split; [reflexivity|]. split; [exact H3|].
  run_route.
  exact (answered_token_estimate healthy
           (ask "What is solar panel efficiency?" 2)
           vector [] stored start _ _ eq_refl eq_refl H3 Hrun).
Defined.

(** 31 tokens for the query, 150 reported by the chat service. *)
Example answered_token_estimate_numbers :
  ∃ resp w',
    query_documents healthy (ask "What is solar panel efficiency?" 2) start
      = (Ok resp, w') ∧
    (embedding_tokens (token_estimate resp), llm_input_tokens (token_estimate resp),
     llm_output_tokens (token_estimate resp), total_tokens (token_estimate resp))
    = (31, 120, 30, 181).
Proof. run_route. reflexivity. Qed.

Lemma sources_at_most_rerank_top_n_witness :
  honours_top_n healthy ∧
  0 <= rerank_top_n (ask "What is solar panel efficiency?" 2) ∧
  ∃ resp w',
    query_documents healthy (ask "What is solar panel efficiency?" 2) start
      = (Ok resp, w') ∧
    Z.of_nat (length (resp_sources resp)) <= 2.
Proof.
  assert (H1 : honours_top_n healthy) by apply rerank_last_first_honours_top_n.
  assert (H2 : 0 <= rerank_top_n (ask "What is solar panel efficiency?" 2))
    by (simpl; lia).
  split; [exact H1|]. split; [exact H2|].
  run_route.
  exact (proj1 (sources_at_most_rerank_top_n healthy
                  (ask "What is solar panel efficiency?" 2) H1 H2)
           start _ _ Hrun).
Defined.

(** C5 as stated fails on a blank query: with nothing indexed, so that no
    candidate could come back, the route raises HTTP 400 before any call;
    it does not return the canned answer. *)
Lemma blank_query_is_rejected :
  index_query empty_index vector 15 = Ok [] ∧
  query_documents empty_index (ask "   " 5) start
    = (Raise (HTTPException 400 "Query cannot be empty"), start) ∧
  ¬ ∃ resp w', query_documents empty_index (ask "   " 5) start = (Ok resp, w').
Proof.
  split; [reflexivity|]. split; [reflexivity|].
  intros (resp & w' & Hrun).
  assert (Hblank : query_documents empty_index (ask "   " 5) start
                   = (Raise (HTTPException 400 "Query cannot be empty"), start))
    by reflexivity.
  congruence.
Qed.

(** C6 as stated fails on a failure that is not an OpenAI API error: the
    status is 500, neither 429 nor 503, for the embedding call and for the
    answer generation alike. *)
Lemma other_failure_is_internal_error :
  embeddings_create (openai_failing (Exception "connection reset"))
    "text-embedding-3-small" "hi" = Raise (Exception "connection reset") ∧
  get_embedding (openai_failing (Exception "connection reset")) "hi" start
    = (Raise (HTTPException 500 "Embedding generation failed: connection reset"),
       logged start [EmbeddingsCreate "text-embedding-3-small" "hi"]) ∧
  (¬ ∃ detail w',
       get_embedding (openai_failing (Exception "connection reset")) "hi" start
       = (Raise (HTTPException 503 detail), w')) ∧
  fst (generate_answer (openai_failing (Exception "connection reset")) "hi"
         ranked start)
    = Raise (HTTPException 500 "Answer generation failed: connection reset").
Proof.
  assert (Hrun : get_embedding (openai_failing (Exception "connection reset"))
                   "hi" start
                 = (Raise (HTTPException 500
                             "Embedding generation failed: connection reset"),
                    logged start [EmbeddingsCreate "text-embedding-3-small" "hi"]))
    by reflexivity.
  split; [reflexivity|]. split; [exact Hrun|]. split; [|reflexivity].
  intros (detail & w' & Hbad). rewrite Hrun in Hbad. discriminate.
Qed.

(** C7 as stated fails on the no-match response: its timing map has the
    entries embedding and retrieval and no total. And in an answered
    response the five keys leave the diversity filter, which ran, without
    an entry. *)
Lemma no_match_timing_lacks_total :
  (∃ resp w',
     query_documents empty_index (ask "What is solar panel efficiency?" 5) start
       = (Ok resp, w') ∧
     lookup_key "total" (timing resp) = None ∧
     (timing resp).*1 = ["embedding"; "retrieval"]) ∧
  (∃ resp w',
     query_documents healthy (ask "What is solar panel efficiency?" 5) start
       = (Ok resp, w') ∧
     (timing resp).*1
       = ["embedding"; "retrieval"; "reranking"; "generation"; "total"]).
Proof.
  split.
  - run_route. by split.
  - run_route. reflexivity.
Qed.

(** The same with a rerank service that is up and refuses a negative
    top_n: the refusal is one more service error. *)
Example negative_top_n_healthy_service :
  ∃ resp w',
    query_documents healthy (ask "What is solar panel efficiency?" (-1)) start
      = (Ok resp, w') ∧
    id <$> resp_sources resp = [1; 2].
Proof. run_route. reflexivity. Qed.

(** C9 as stated fails on a negative rerank_top_n: with the rerank service
    down, three retrieved candidates and rerank_top_n = -1, the degraded
    path returns docs[:-1], and the answer lists two sources. *)
Lemma negative_top_n_returns_sources :
  ∃ resp w',
    query_documents rerank_down (ask "What is solar panel efficiency?" (-1)) start
      = (Ok resp, w') ∧
    length (resp_sources resp) = 2%nat ∧
    ¬ (Z.of_nat (length (resp_sources resp))
       <= rerank_top_n (ask "What is solar panel efficiency?" (-1))).
Proof.
  run_route. split; [reflexivity|]. simpl. lia.
Qed.

(** * Further properties at work *)

Import Faulty.

Lemma mmr_diversify_idempotent_witness :
  (∀ d, Z.of_nat (count_document d (take 3 ranked)) <= 2) ∧
  mmr_diversify (take 3 ranked) 2 start = (Ok (take 3 ranked), start).
Proof.
  assert (H : ∀ d, Z.of_nat (count_document d (take 3 ranked)) <= 2).
  { intros d. unfold count_document. simpl.
    rewrite !filter_cons, filter_nil.
    repeat match goal with
           | |- context [decide ?P] =>
               let H := fresh in
               destruct (decide P) as [H|_]; [vm_compute in H|]
           end; simpl; try lia; congruence. }
  split; [exact H|].
  exact (proj1 (mmr_diversify_idempotent (take 3 ranked) 2 start) H).
Defined.

Lemma rerank_documents_follows_service_witness :
  take 3 ranked ≠ [] ∧
  cohere_rerank healthy "rerank-english-v3.0" "solar" (text <$> take 3 ranked)
    (Z.min 2 (Z.of_nat (length (take 3 ranked))))
    = Ok [{| r_index := 2; relevance_score := Qmake 1 2 |};
          {| r_index := 1; relevance_score := Qmake 1 2 |}] ∧
  ∃ out : list Candidate,
    rerank_documents healthy "solar" (take 3 ranked) 2 start =
      (Ok out,
       logged start [CohereRerank "rerank-english-v3.0" "solar"
                       (text <$> take 3 ranked)
                       (Z.min 2 (Z.of_nat (length (take 3 ranked))))]) ∧
    Forall2 (λ r c, ∃ d, take 3 ranked !! Z.to_nat (r_index r) = Some d ∧
                         c = set_rerank_score (relevance_score r) d)
            [{| r_index := 2; relevance_score := Qmake 1 2 |};
             {| r_index := 1; relevance_score := Qmake 1 2 |}] out.
Proof.
  split; [discriminate|]. split; [reflexivity|].
  apply (rerank_documents_follows_service healthy "solar" (take 3 ranked) 2).
  - discriminate.
  - reflexivity.
  - repeat constructor; simpl; lia.
  - simpl. repeat constructor; rewrite ?elem_of_cons, ?elem_of_nil; lia.
Defined.

Lemma rerank_documents_bad_position_degrades_witness :
  take 3 ranked ≠ [] ∧
  cohere_rerank rerank_off_by_one "rerank-english-v3.0" "solar"
    (text <$> take 3 ranked) (Z.min 2 (Z.of_nat (length (take 3 ranked))))
    = Ok [{| r_index := 1; relevance_score := Qmake 3 4 |};
          {| r_index := 2; relevance_score := Qmake 3 4 |};
          {| r_index := 3; relevance_score := Qmake 3 4 |}] ∧
  ∃ out : list Candidate,
    rerank_documents rerank_off_by_one "solar" (take 3 ranked) 2 start =
      (Ok out,
       logged start [CohereRerank "rerank-english-v3.0" "solar"
                       (text <$> take 3 ranked)
                       (Z.min 2 (Z.of_nat (length (take 3 ranked))));
                     Printed "Reranking failed: list index out of range, returning original order"]) ∧
    payload <$> out = Py.slice_to (payload <$> take 3 ranked) 2.
Proof.
  split; [discriminate|]. split; [reflexivity|].
  eapply (rerank_documents_bad_position_degrades rerank_off_by_one "solar"
            (take 3 ranked) 2).
  - discriminate.
  - reflexivity.
  - do 2 apply Exists_cons_tl. apply Exists_cons_hd. reflexivity.
Defined.

(** The two candidates written before the bad position keep the score the
    aborted pass gave them. *)
Example degraded_output_keeps_written_scores :
  match rerank_documents rerank_off_by_one "solar" (take 3 ranked) 3 start with
  | (Ok out, _) =>
      (text <$> out, rerank_score <$> out)
      = (text <$> take 3 ranked, [None; Some (Qmake 3 4); Some (Qmake 3 4)])
  | _ => False
  end.
Proof. reflexivity. Qed.


Lemma embedding_failure_aborts_query_witness :
  Py.strip (query (ask "hi" 5)) ≠ "" ∧
  embeddings_create (openai_failing (RateLimitError "slow down"))
    "text-embedding-3-small" "hi" = Raise (RateLimitError "slow down") ∧
  ∃ detail : string,
    query_documents (openai_failing (RateLimitError "slow down")) (ask "hi" 5) start =
      (Raise (HTTPException 429 detail),
       {| ticks := 1; log := [EmbeddingsCreate "text-embedding-3-small" "hi"] |}).
Proof.
  assert (H1 : Py.strip (query (ask "hi" 5)) ≠ "") by discriminate.
  split; [exact H1|]. split; [reflexivity|].
  exact (embedding_failure_aborts_query
           (openai_failing (RateLimitError "slow down")) (ask "hi" 5)
           (RateLimitError "slow down") start H1 eq_refl).
Defined.

Lemma index_failure_aborts_query_witness :
  Py.strip (query (ask "hi" 5)) ≠ "" ∧
  embeddings_create index_down "text-embedding-3-small" "hi" = Ok [vector] ∧
  index_query index_down vector 15 = Raise (RateLimitError "too many requests") ∧
  query_documents index_down (ask "hi" 5) start =
    (Raise (HTTPException 500 "Vector search failed: too many requests"),
     {| ticks := 3;
        log := [EmbeddingsCreate "text-embedding-3-small" "hi";
                IndexQuery vector 15] |}).
Proof.
  assert (H1 : Py.strip (query (ask "hi" 5)) ≠ "") by discriminate.
  split; [exact H1|]. split; [reflexivity|]. split; [reflexivity|].
  exact (index_failure_aborts_query index_down (ask "hi" 5) vector []
           (RateLimitError "too many requests") start H1 eq_refl eq_refl).
Defined.

Lemma generation_failure_comes_after_retrieval_witness :
  Py.strip (query (ask "hi" 5)) ≠ "" ∧
  embeddings_create chat_limited "text-embedding-3-small" "hi" = Ok [vector] ∧
  index_query chat_limited vector 15 = Ok stored ∧
  extract_docs stored ≠ [] ∧
  (∀ system user,
     chat_completions_create chat_limited "gpt-4-turbo-preview" system user
       (fdec 2 (-1)) 800 = Raise (RateLimitError "slow down")) ∧
  ∃ (detail : string) (w' : World) (documents : list string) (n : Z)
    (warning : list Event) (system user : string),
    query_documents chat_limited (ask "hi" 5) start =
      (Raise (HTTPException 429 detail), w') ∧
    ticks w' = 7%nat ∧
    log w' = []
             ++ [EmbeddingsCreate "text-embedding-3-small" "hi";
                 IndexQuery vector 15;
                 CohereRerank "rerank-english-v3.0" "hi" documents n]
             ++ warning
             ++ [ChatCompletionsCreate "gpt-4-turbo-preview" system user] ∧
    (warning = [] ∨ ∃ line, warning = [Printed line]).
Proof.
  assert (H1 : Py.strip (query (ask "hi" 5)) ≠ "") by discriminate.
  assert (H4 : extract_docs stored ≠ []) by discriminate.
  split; [exact H1|]. split; [reflexivity|]. split; [reflexivity|].
  split; [exact H4|]. split; [reflexivity|].
  exact (generation_failure_comes_after_retrieval chat_limited (ask "hi" 5)
           vector [] stored (RateLimitError "slow down") start
           H1 eq_refl eq_refl H4 (λ _ _, eq_refl)).
Defined.

Lemma answered_query_calls_each_service_once_witness :
  embeddings_create healthy "text-embedding-3-small"
    "What is solar panel efficiency?" = Ok [vector] ∧
  index_query healthy vector 15 = Ok stored ∧
  extract_docs stored ≠ [] ∧
  ∃ resp w',
    query_documents healthy (ask "What is solar panel efficiency?" 2) start
      = (Ok resp, w') ∧
    ∃ (diversified : list Candidate) (warning : list Event)
      (system user : string),
      (∀ w0, mmr_diversify (extract_docs stored) 2 w0 = (Ok diversified, w0)) ∧
      ticks w' = (8 + ticks start)%nat ∧
      log w' = log start
               ++ [EmbeddingsCreate "text-embedding-3-small"
                     "What is solar panel efficiency?";
                   IndexQuery vector 15;
                   CohereRerank "rerank-english-v3.0"
                     "What is solar panel efficiency?"
                     (text <$> diversified)
                     (Z.min 2 (Z.of_nat (length diversified)))]
               ++ warning
               ++ [ChatCompletionsCreate "gpt-4-turbo-preview" system user] ∧
      (warning = [] ∨ ∃ line, warning = [Printed line]).
Proof.
  assert (H3 : extract_docs stored ≠ []) by discriminate.
  split; [reflexivity|]. split; [reflexivity|]. split; [exact H3|].
  run_route.
  exact (answered_query_calls_each_service_once healthy
           (ask "What is solar panel efficiency?" 2)
           vector [] stored start _ _ eq_refl eq_refl H3 Hrun).
Defined.

Lemma answered_query_pays_flat_rerank_cost_witness :
  embeddings_create rerank_down "text-embedding-3-small"
    "What is solar panel efficiency?" = Ok [vector] ∧
  index_query rerank_down vector 15 = Ok stored ∧
  extract_docs stored ≠ [] ∧
  ∃ resp w',
    query_documents rerank_down (ask "What is solar panel efficiency?" 2) start
      = (Ok resp, w') ∧
    let cost tokens price :=
      fmul (fdiv (float_of_int tokens) (float_of_int 1000)) price in
    let te := token_estimate resp in
    costs te !! "rerank_usd" = Some (fround (fdec 2 (-3)) 6) ∧
    costs te !! "llm_usd" = None ∧
    costs te !! "total_usd"
      = Some (fround (fadd (fadd (fadd (cost (embedding_tokens te) (fdec 2 (-5)))
                                       (cost (llm_input_tokens te) (fdec 1 (-2))))
                                 (cost (llm_output_tokens te) (fdec 3 (-2))))
                           (fdec 2 (-3))) 6).
Proof.
  assert (H3 : extract_docs stored ≠ []) by discriminate.
  split; [reflexivity|]. split; [reflexivity|]. split; [exact H3|].
  run_route.
  exact (answered_query_pays_flat_rerank_cost rerank_down
           (ask "What is solar panel efficiency?" 2)
           vector [] stored start _ _ eq_refl eq_refl H3 Hrun).
Defined.

Lemma degraded_sources_show_similarity_witness :
  embeddings_create rerank_down "text-embedding-3-small"
    "What is solar panel efficiency?" = Ok [vector] ∧
  index_query rerank_down vector 15 = Ok stored ∧
  extract_docs stored ≠ [] ∧
  (∀ documents n,
     cohere_rerank rerank_down "rerank-english-v3.0"
       "What is solar panel efficiency?" documents n
     = Raise (Exception "connection refused")) ∧
  ∃ resp w',
    query_documents rerank_down (ask "What is solar panel efficiency?" 2) start
      = (Ok resp, w') ∧
    (λ s, (src_metadata s, src_score s)) <$> resp_sources resp
    `sublist_of`
    (λ m, (delete "text" (match_metadata m), match_score m)) <$> stored.
Proof.
  assert (H3 : extract_docs stored ≠ []) by discriminate.
  split; [reflexivity|]. split; [reflexivity|]. split; [exact H3|].
  split; [reflexivity|].
  run_route.
  exact (degraded_sources_show_similarity rerank_down
           (ask "What is solar panel efficiency?" 2)
           vector [] stored (Exception "connection refused") start _ _
           eq_refl eq_refl H3 (λ _ _, eq_refl) Hrun).
Defined.

Lemma reranked_sources_show_relevance_witness :
  embeddings_create healthy "text-embedding-3-small"
    "What is solar panel efficiency?" = Ok [vector] ∧
  index_query healthy vector 15 = Ok stored ∧
  extract_docs stored ≠ [] ∧
  mmr_diversify (extract_docs stored) 2 start = (Ok (extract_docs stored), start) ∧
  cohere_rerank healthy "rerank-english-v3.0" "What is solar panel efficiency?"
    (text <$> extract_docs stored)
    (Z.min 2 (Z.of_nat (length (extract_docs stored))))
    = Ok [{| r_index := 2; relevance_score := Qmake 1 2 |};
          {| r_index := 1; relevance_score := Qmake 1 2 |}] ∧
  ∃ resp w',
    query_documents healthy (ask "What is solar panel efficiency?" 2) start
      = (Ok resp, w') ∧
    Forall2 (λ r s,
               src_score s = relevance_score r ∧
               ∃ d, extract_docs stored !! Z.to_nat (r_index r) = Some d ∧
                    src_metadata s = metadata d ∧ preview s = preview_of d)
            (take (length (resp_sources resp))
                  [{| r_index := 2; relevance_score := Qmake 1 2 |};
                   {| r_index := 1; relevance_score := Qmake 1 2 |}])
            (resp_sources resp).
Proof.
  assert (H3 : extract_docs stored ≠ []) by discriminate.
  assert (H4 : mmr_diversify (extract_docs stored) 2 start
               = (Ok (extract_docs stored), start)) by reflexivity.
  split; [reflexivity|]. split; [reflexivity|]. split; [exact H3|].
  split; [exact H4|]. split; [reflexivity|].
  run_route.
  refine (reranked_sources_show_relevance healthy
            (ask "What is solar panel efficiency?" 2)
            vector [] stored (extract_docs stored) _ start _ _
            eq_refl eq_refl H3 H4 eq_refl _ _ Hrun).
  - lazymatch goal with
    | |- Forall ?P ?l => let l' := eval vm_compute in l in change (Forall P l')
    end.
    repeat constructor; simpl; lia.
  - lazymatch goal with
    | |- NoDup ?l => let l' := eval vm_compute in l in change (NoDup l')
    end.
    repeat constructor; rewrite ?elem_of_cons, ?elem_of_nil; lia.
Defined.

(** * Ingestion at work *)

Import Intake.

Ltac run_upload :=
  lazymatch goal with
  | |- ∃ resp s', ?run = (?outcome resp, s') ∧ _ =>
      let r := eval vm_compute in run in
      lazymatch r with
      | (_ ?resp, ?s) =>
          assert (Hrun : run = (outcome resp, s))
            by vm_cast_no_check (eq_refl r);
          exists resp, s; split; [exact Hrun|]
      end
  end.

(** Two lines of text become two chunks, two embeddings and one upsert. *)
Example upload_of_two_lines :
  match upload_document healthy working None (Some two_lines) "Energy" "notes"
          fresh with
  | (Ok resp, s') =>
      (resp_chunks_created resp, resp_document_id resp, resp_total_tokens resp,
       length (requests s'), ticks (world s'))
      = (2, "text_0", 75, 1%nat, 2%nat)
  | _ => False
  end.
Proof. reflexivity. Qed.

Ltac run_failing_upload :=
  lazymatch goal with
  | |- ∃ e s', ?run = (Raise e, s') ∧ _ =>
      let r := eval vm_compute in run in
      lazymatch r with
      | (Raise ?e, ?s) =>
          assert (Hrun : run = (Raise e, s)) by vm_cast_no_check (eq_refl r);
          exists e, s; split; [exact Hrun|]
      end
  end.

Lemma upload_without_content_is_rejected_witness :
  (Some "   " = None ∨ (∃ t, Some "   " = Some t ∧ Py.strip t = "")) ∧
  ∃ detail,
    upload_document healthy working None (Some "   ") "Untitled" "uploaded" fresh
    = (Raise (HTTPException 400 detail), fresh).
Proof.
  assert (H : Some "   " = None ∨ (∃ t, Some "   " = Some t ∧ Py.strip t = ""))
    by (right; by exists "   ").
  split; [exact H|].
  exact (upload_without_content_is_rejected healthy working (Some "   ")
           "Untitled" "uploaded" fresh H).
Defined.

Lemma upload_rejects_other_file_types_witness :
  filename (upload_of "Slides.PPTX" "x") = Some "Slides.PPTX" ∧
  file_read (upload_of "Slides.PPTX" "x") = Ok (list_byte_of_string "x") ∧
  endswith (lower "Slides.PPTX") ".pdf" = false ∧
  endswith (lower "Slides.PPTX") ".txt" = false ∧
  endswith (lower "Slides.PPTX") ".md" = false ∧
  upload_document healthy working (Some (upload_of "Slides.PPTX" "x")) None
    "Untitled" "uploaded" fresh
  = (Raise (HTTPException 400
              "Unsupported file type. Supported: .pdf, .txt, .md"), fresh).
Proof.
  split; [reflexivity|]. split; [reflexivity|]. split; [reflexivity|].
  split; [reflexivity|]. split; [reflexivity|].
  exact (upload_rejects_other_file_types healthy working
           (upload_of "Slides.PPTX" "x") "Slides.PPTX" (list_byte_of_string "x")
           None "Untitled" "uploaded" fresh
           eq_refl eq_refl eq_refl eq_refl eq_refl).
Defined.

(** A name in capitals is matched in lower case, and the document keeps the
    name as it was sent. *)
Example upload_of_a_text_file :
  match upload_document healthy working
          (Some (upload_of "NOTES.TXT" two_lines)) None "Energy" "notes" fresh with
  | (Ok resp, _) =>
      (resp_chunks_created resp, resp_document_id resp) = (2, "NOTES.TXT_0")
  | _ => False
  end.
Proof. reflexivity. Qed.

Lemma upload_response_counts_chunks_and_tokens_witness :
  ∃ resp s',
    upload_document healthy working None (Some two_lines) "Energy" "notes" fresh
    = (Ok resp, s') ∧
    ∃ content base pieces,
      content_from working None (Some two_lines) (world fresh) content base ∧
      split_text working CHUNK_SIZE (CHUNK_OVERLAP working) content = Ok pieces ∧
      resp_chunks_created resp = Z.of_nat (length pieces) ∧
      0 < resp_chunks_created resp ∧
      resp_total_tokens resp = sumZ (token_count healthy <$> pieces) ∧
      resp_document_id resp
      = base +:+ "_"
        +:+ pretty (int_of_float working (clock healthy (ticks (world fresh)))) ∧
      resp_message resp
      = "Successfully indexed document with "
        +:+ pretty (resp_chunks_created resp) +:+ " chunks".
Proof.
  run_upload.
  exact (upload_response_counts_chunks_and_tokens healthy working None
           (Some two_lines) "Energy" "notes" fresh _ _ Hrun).
Defined.

Lemma upload_embeds_each_chunk_once_witness :
  ∃ resp s',
    upload_document healthy working None (Some two_lines) "Energy" "notes" fresh
    = (Ok resp, s') ∧
    ∃ content base pieces,
      content_from working None (Some two_lines) (world fresh) content base ∧
      split_text working CHUNK_SIZE (CHUNK_OVERLAP working) content = Ok pieces ∧
      ticks (world s') = (2 + ticks (world fresh))%nat ∧
      log (world s')
      = log (world fresh)
        ++ (EmbeddingsCreate "text-embedding-3-small" <$> pieces).
Proof.
  run_upload.
  exact (upload_embeds_each_chunk_once healthy working None
           (Some two_lines) "Energy" "notes" fresh _ _ Hrun).
Defined.

Lemma upload_stores_every_chunk_in_batches_witness :
  ∃ resp s',
    upload_document healthy working None (Some two_lines) "Energy" "notes" fresh
    = (Ok resp, s') ∧
    ∃ (content base : string) (pieces : list string) (bs : list (list Vector)),
      content_from working None (Some two_lines) (world fresh) content base ∧
      split_text working CHUNK_SIZE (CHUNK_OVERLAP working) content = Ok pieces ∧
      requests s' = requests fresh ++ (Upsert <$> bs) ∧
      Forall (λ b, index_upsert working b = Ok ()) bs ∧
      Forall (λ b, (1 <= length b <= 100)%nat) bs ∧
      (∀ k b, bs !! k = Some b → (S k < length bs)%nat → length b = 100%nat) ∧
      Forall2 (λ v p,
                 v_id v = resp_document_id resp +:+ "_" +:+ pretty p.1 ∧
                 v_metadata v !! "text" = Some (VStr p.2) ∧
                 v_metadata v !! "chunk_index" = Some (VInt p.1) ∧
                 (∀ k, k ∉ ["text"; "chunk_index"; "position"; "token_count"] →
                       v_metadata v !! k
                       = upload_metadata "Energy" "notes" (resp_document_id resp)
                           (clock healthy (S (ticks (world fresh)))) !! k) ∧
                 embeds healthy p.2 (v_values v))
              (concat bs) (enumerate 0 pieces).
Proof.
  run_upload.
  exact (upload_stores_every_chunk_in_batches healthy working None
           (Some two_lines) "Energy" "notes" fresh _ _ Hrun).
Defined.

Lemma upload_vector_ids_are_distinct_witness :
  ∃ resp s',
    upload_document healthy working None (Some two_lines) "Energy" "notes" fresh
    = (Ok resp, s') ∧
    ∃ bs : list (list Vector),
      requests s' = requests fresh ++ (Upsert <$> bs) ∧
      NoDup (v_id <$> concat bs).
Proof.
  run_upload.
  lazymatch type of Hrun with
  | _ = (_, {| world := _; requests := [Upsert ?b] |}) =>
      exists [b]; split; [reflexivity|];
      exact (upload_vector_ids_are_distinct healthy working None
               (Some two_lines) "Energy" "notes" fresh _ _ [b] Hrun eq_refl)
  end.
Defined.

Lemma failed_upload_keeps_stored_batches_witness :
  ∃ e s',
    upload_document healthy index_full None (Some two_lines) "Energy" "notes" fresh
    = (Raise e, s') ∧
    (requests s' = requests fresh
     ∨ ∃ (stored : list (list Vector)) (failed : list Vector) (e0 : exn),
         e = HTTPException 500
               ("Failed to store vectors in Pinecone: " +:+ str_exn e0) ∧
         requests s' = requests fresh ++ (Upsert <$> stored) ++ [Upsert failed] ∧
         Forall (λ b, index_upsert index_full b = Ok ()) stored ∧
         index_upsert index_full failed = Raise e0).
Proof.
  run_failing_upload.
  exact (failed_upload_keeps_stored_batches healthy index_full None
           (Some two_lines) "Energy" "notes" fresh _ _ Hrun).
Defined.

Lemma upload_raises_only_http_exceptions_witness :
  ∃ e s',
    upload_document (limited_on "Wind turbines produce 2-3 megawatts.") working
      None (Some two_lines) "Energy" "notes" fresh
    = (Raise e, s') ∧
    ∃ status detail,
      e = HTTPException status detail ∧
      (status ∈ [400; 429; 500; 503]
       ∨ ∃ f, None = Some f ∧ file_read f = Raise e).
Proof.
  run_failing_upload.
  exact (upload_raises_only_http_exceptions
           (limited_on "Wind turbines produce 2-3 megawatts.") working None
           (Some two_lines) "Energy" "notes" fresh _ _ Hrun).
Defined.

Lemma upload_stops_at_first_embedding_failure_witness :
  content_from working None (Some two_lines) (world fresh) two_lines "text" ∧
  split_text working CHUNK_SIZE (CHUNK_OVERLAP working) two_lines
  = Ok ["Solar panels average 15-22% efficiency.";
        "Wind turbines produce 2-3 megawatts."] ∧
  ["Solar panels average 15-22% efficiency.";
   "Wind turbines produce 2-3 megawatts."] !! 1%nat
  = Some "Wind turbines produce 2-3 megawatts." ∧
  Forall (λ p, ∃ embedding,
            embeds (limited_on "Wind turbines produce 2-3 megawatts.") p embedding)
         (take 1 ["Solar panels average 15-22% efficiency.";
                  "Wind turbines produce 2-3 megawatts."]) ∧
  embeddings_create (limited_on "Wind turbines produce 2-3 megawatts.")
    "text-embedding-3-small" "Wind turbines produce 2-3 megawatts."
  = Raise (RateLimitError "slow down") ∧
  ∃ detail,
    upload_document (limited_on "Wind turbines produce 2-3 megawatts.") working
      None (Some two_lines) "Energy" "notes" fresh
    = (Raise (HTTPException 429 detail),
       {| world :=
            {| ticks := 2;
               log := [EmbeddingsCreate "text-embedding-3-small"
                         "Solar panels average 15-22% efficiency.";
                       EmbeddingsCreate "text-embedding-3-small"
                         "Wind turbines produce 2-3 megawatts."] |};
          requests := [] |}).
Proof.
  assert (H1 : content_from working None (Some two_lines) (world fresh)
                 two_lines "text").
  { left. split; [reflexivity|]. split; [reflexivity|].
    exists two_lines. split; [reflexivity|]. split; [reflexivity|discriminate]. }
  assert (H4 : Forall (λ p, ∃ embedding,
                 embeds (limited_on "Wind turbines produce 2-3 megawatts.") p
                   embedding)
                 (take 1 ["Solar panels average 15-22% efficiency.";
                          "Wind turbines produce 2-3 megawatts."])).
  { constructor; [|constructor]. exists vector, []. reflexivity. }
  split; [exact H1|]. split; [reflexivity|]. split; [reflexivity|].
  split; [exact H4|]. split; [reflexivity|].
  exact (upload_stops_at_first_embedding_failure
           (limited_on "Wind turbines produce 2-3 megawatts.") working None
           (Some two_lines) "Energy" "notes" fresh two_lines "text"
           ["Solar panels average 15-22% efficiency.";
            "Wind turbines produce 2-3 megawatts."] 1
           "Wind turbines produce 2-3 megawatts." (RateLimitError "slow down")
           H1 eq_refl eq_refl H4 eq_refl).
Defined.
